(** * models.py: diffusion training with a deep-image-prior noise source

    A shallow embedding of [models.py] and the properties of its helper
    functions, of the sampling and loss code of
    [GaussianDiffusionWithDeepImagePrior], and of the two training loops
    ([Trainer] and [DIPTrainer]).

    Python integers are [Z]; a raised exception is a value of [exn] carried
    by the [result] type; the libraries the program calls (torch, the
    diffusion base class, the deep-image-prior utilities) are interfaces
    (type classes) that the definitions are parametric in. *)

From Stdlib Require Import ZArith List String Bool Lia DecimalString.
From Stdlib Require Import Floats.SpecFloat.
From Stdlib Require Import Ascii.
From Stdlib Require DecimalZ.
From stdpp Require Import base option list gmap strings.

Local Open Scope Z_scope.

(** ** Exceptions and results *)

Inductive exn : Type :=
  | ZeroDivisionError
  | AttributeError (attr : string)
  | ValueError (msg : string)
  | RuntimeError (msg : string)
  | IndexError
  | AssertionError (msg : string)
  | KeyError (key : string)
  | TypeError (msg : string)
  | UnboundLocalError (name : string)
  | OverflowError (msg : string)
  | FileNotFoundError (path : string).

Inductive result (A : Type) : Type :=
  | Ok (a : A)
  | Raise (e : exn).
Arguments Ok {A} a.
Arguments Raise {A} e.

Definition rbind {A B} (r : result A) (k : A -> result B) : result B :=
  match r with
  | Ok a => k a
  | Raise e => Raise e
  end.

Notation "'let*' x ':=' c 'in' k" := (rbind c (fun x => k))
  (at level 10, x pattern, c at level 100, k at level 200).

Definition rmap {A B} (f : A -> B) (r : result A) : result B :=
  let* a := r in Ok (f a).

Fixpoint mapM {A B} (f : A -> result B) (l : list A) : result (list B) :=
  match l with
  | [] => Ok []
  | x :: l' => let* y := f x in let* ys := mapM f l' in Ok (y :: ys)
  end.

(** ** Module-level helpers *)

(** [exists(x)]: [x is not None]. *)
Definition exists_ {A} (x : option A) : bool :=
  match x with Some _ => true | None => false end.

(** The second argument of [default]: a callable, which is called, or a
    plain value. *)
Inductive fallback (A : Type) : Type :=
  | Callable (d : unit -> result A)
  | Plain (d : A).
Arguments Callable {A} d.
Arguments Plain {A} d.

Definition default {A} (val : option A) (d : fallback A) : result A :=
  match val with
  | Some v => Ok v
  | None => match d with Callable f => f tt | Plain a => Ok a end
  end.

(** Python's [%] and [//] on integers: floored, as [Z.modulo] and [Z.div],
    but raising on a zero divisor. *)
Definition py_mod (a b : Z) : result Z :=
  if b =? 0 then Raise ZeroDivisionError else Ok (a mod b).

Definition py_floordiv (a b : Z) : result Z :=
  if b =? 0 then Raise ZeroDivisionError else Ok (a / b).

Definition divisible_by (numer denom : Z) : result bool :=
  let* r := py_mod numer denom in Ok (r =? 0).

(** [[x] * n]: the empty list for [n <= 0]. *)
Definition py_list_repeat {A} (x : A) (n : Z) : list A := repeat x (Z.to_nat n).

Definition num_to_groups (num divisor : Z) : result (list Z) :=
  let* groups := py_floordiv num divisor in
  let* remainder := py_mod num divisor in
  let arr := py_list_repeat divisor groups in
  if 0 <? remainder then Ok (arr ++ [remainder]) else Ok arr.

Definition zsum (l : list Z) : Z := fold_right Z.add 0 l.

(** [f == z] for a Python float and a Python integer: the comparison is
    between the exact values. *)
Definition float_eq_int (f : spec_float) (z : Z) : bool :=
  match f with
  | S754_zero _ => z =? 0
  | S754_finite s m e =>
    if 0 <=? e then cond_Zopp s (Zpos m * 2 ^ e) =? z
    else (Zpos m mod 2 ^ (- e) =? 0) && (cond_Zopp s (Zpos m / 2 ^ (- e)) =? z)
  | _ => false
  end.

(** [has_int_squareroot(num)]: [(math.sqrt(num) ** 2) == num]. Python
    floats are IEEE binary64; the conversion of the integer, the square
    root and the square are taken correctly rounded. The square root of a
    negative number raises, and so does an integer beyond the floats. *)
Definition has_int_squareroot (num : Z) : result bool :=
  let x := binary_normalize 53 1024 num 0 false in
  match x with
  | S754_infinity _ => Raise (OverflowError "int too large to convert to float")
  | _ =>
    if num <? 0 then Raise (ValueError "math domain error")
    else
      let r := SFsqrt 53 1024 x in
      Ok (float_eq_int (SFmul 53 1024 r r) num)
  end.

(** ** Scalars

    The element type of tensors, with the operations the program applies to
    them. The program runs them in IEEE binary32 ([torch.FloatTensor]);
    the definitions below are parametric in the arithmetic, and [binary32]
    is the instance used to evaluate them. *)

Class Scalar (F : Type) : Type := {
  fzero : F;
  fadd : F -> F -> F;
  fsub : F -> F -> F;
  fmul : F -> F -> F;
  fdiv : F -> F -> F;
  fsqrt : F -> F;
  (** conversion of an integer (an element count, a Python int) *)
  of_Z : Z -> F;
  fltb : F -> F -> bool;
}.

Definition binary32 : Type := spec_float.

#[export] Instance binary32_scalar : Scalar binary32 := {|
  fzero := S754_zero false;
  fadd := SFadd 24 128;
  fsub := SFsub 24 128;
  fmul := SFmul 24 128;
  fdiv := SFdiv 24 128;
  fsqrt := SFsqrt 24 128;
  of_Z := fun z => binary_normalize 24 128 z 0 false;
  fltb := SFltb;
|}.

(** The binary32 values that are numbers: zeros and finite ones. *)
Definition finite32 (v : binary32) : bool :=
  match v with
  | S754_zero _ | S754_finite _ _ _ => true
  | _ => false
  end.

(** ** Tensors

    A four-dimensional tensor (batch, channel, height, width) is a nested
    list, outermost dimension first. *)

Abbreviation Tensor4 F := (list (list (list (list F)))).

Section Tensors.
Context {F : Type} `{Scalar F}.

Definition flatten4 (x : Tensor4 F) : list F := concat (concat (concat x)).

Definition tmap (f : F -> F) (x : Tensor4 F) : Tensor4 F :=
  map (map (map (map f))) x.

Definition tget (x : Tensor4 F) (b c i j : nat) : option F :=
  s ← x !! b; r ← s !! c; w ← r !! i; w !! j.

(** [x.shape]: the sizes of the four dimensions, read along the first
    entries (a dimension under an empty one reads as 0). *)
Definition tshape (x : Tensor4 F) : Z * Z * Z * Z :=
  let len {A} (l : list A) := Z.of_nat (length l) in
  let s := List.hd [] x in
  let r := List.hd [] s in
  let w := List.hd [] r in
  (len x, len s, len r, len w).

(** A sum, taken entry by entry in the order of the list (torch's
    reductions add in an order of their own: in rounded arithmetic the
    last bits of a sum may differ). *)
Definition fsum (l : list F) : F := fold_left fadd l fzero.

(** [mean] over a list of elements: their sum over their number. *)
Definition mean_list (l : list F) : F :=
  fdiv (fsum l) (of_Z (Z.of_nat (length l))).

(** [torch.mean(x)] with no [dim]: one mean over every element. *)
Definition torch_mean (x : Tensor4 F) : F := mean_list (flatten4 x).

Definition sq_diff (u v : F) : F := fmul (fsub u v) (fsub u v).

(** [torch.std(x)] with no [dim]: one standard deviation over every
    element, with Bessel's correction (torch's default). *)
Definition torch_std (x : Tensor4 F) : F :=
  let m := torch_mean x in
  let n := Z.of_nat (length (flatten4 x)) in
  fsqrt (fdiv (fsum (map (fun v => sq_diff v m) (flatten4 x)))
              (of_Z (Z.max 0 (n - 1)))).

(** tensor-with-scalar arithmetic: the zero-dimensional operand is
    broadcast to every position *)
Definition sub_scalar (x : Tensor4 F) (s : F) : Tensor4 F := tmap (fun v => fsub v s) x.
Definition div_scalar (x : Tensor4 F) (s : F) : Tensor4 F := tmap (fun v => fdiv v s) x.
Definition mul_scalar (x : Tensor4 F) (s : F) : Tensor4 F := tmap (fun v => fmul v s) x.

Definition normalize_norm_dist (x : Tensor4 F) : Tensor4 F :=
  div_scalar (sub_scalar x (torch_mean x)) (torch_std x).

(** Elementwise operations between two tensors follow torch's
    broadcasting: along each dimension the sizes are equal, or one of
    them is 1 and that entry is repeated; anything else raises. *)
Definition broadcast2 {A B C} (f : A -> B -> result C)
    (la : list A) (lb : list B) : result (list C) :=
  if Nat.eqb (length la) (length lb) then mapM (fun p => f (fst p) (snd p)) (zip la lb)
  else match la, lb with
       | [a], _ => mapM (f a) lb
       | _, [b] => mapM (fun a => f a b) la
       | _, _ => Raise (RuntimeError "The size of tensor a must match the size of tensor b")
       end.

Definition tbinop (f : F -> F -> F) (x y : Tensor4 F) : result (Tensor4 F) :=
  broadcast2 (broadcast2 (broadcast2 (broadcast2 (fun u v => Ok (f u v))))) x y.

Definition tsub := tbinop fsub.
Definition tadd := tbinop fadd.
Definition tmul := tbinop fmul.

(** Two nested lists with the same lengths at every level. *)
Fixpoint same_lengths {A B} (f : A -> B -> bool) (la : list A) (lb : list B) : bool :=
  match la, lb with
  | [], [] => true
  | a :: la', b :: lb' => f a b && same_lengths f la' lb'
  | _, _ => false
  end.

(** [x += y]: the sum is written into [x], which keeps its shape; [y] is
    broadcast to it, and a sum of another shape is refused. *)
Definition tadd_ (x y : Tensor4 F) : result (Tensor4 F) :=
  let* r := tadd x y in
  if same_lengths (same_lengths (same_lengths
       (fun a b : list F => Nat.eqb (length a) (length b)))) r x
  then Ok r
  else Raise (RuntimeError "output with shape doesn't match the broadcast shape").

(** [F.mse_loss(a, b, reduction = 'none')] *)
Definition mse_loss_none (a b : Tensor4 F) : result (Tensor4 F) := tbinop sq_diff a b.

(** [F.mse_loss(a, b)]: the mean of the squared differences *)
Definition mse_loss (a b : Tensor4 F) : result F :=
  let* d := mse_loss_none a b in Ok (torch_mean d).

(** [reduce(x, 'b ... -> b', 'mean')]: one mean per batch entry *)
Definition reduce_b_mean (x : Tensor4 F) : list F :=
  map (fun s => mean_list (concat (concat s))) x.

(** [x.expand(batch, -1, -1, -1)]: the single batch entry repeated; a
    batch dimension that is not 1 can only be kept as it is, and -1 keeps
    any. *)
Definition expand (x : Tensor4 F) (batch : Z) : result (Tensor4 F) :=
  if batch =? -1 then Ok x
  else match x with
       | [s] => if batch <? 0 then Raise (RuntimeError "expand: invalid size")
                else Ok (py_list_repeat s batch)
       | _ => if Z.of_nat (length x) =? batch then Ok x
              else Raise (RuntimeError "expand: size mismatch")
       end.

(** A tensor of sizes [b], [c], [h], [w] along its four dimensions. *)
Definition has_shape (x : Tensor4 F) (shape : Z * Z * Z * Z) : Prop :=
  let '(b, c, h, w) := shape in
  Z.of_nat (length x) = b /\
  Forall (fun s => Z.of_nat (length s) = c /\
    Forall (fun r => Z.of_nat (length r) = h /\
      Forall (fun v : list F => Z.of_nat (length v) = w) r) s) x.
End Tensors.

(** [l[i]] on a Python sequence or a one-dimensional tensor: negative
    indices count from the end. *)
Definition py_index {A} (l : list A) (i : Z) : result A :=
  let n := Z.of_nat (length l) in
  let k := if i <? 0 then n + i else i in
  if (k <? 0) || (n <=? k) then Raise IndexError
  else match l !! Z.to_nat k with Some a => Ok a | None => Raise IndexError end.

(** [range(0, n)] *)
Definition py_range (n : Z) : list Z := map Z.of_nat (seq 0 (Z.to_nat n)).

(** [torch.full((n,), v)]: a negative size is refused. *)
Definition torch_full {A} (n : Z) (v : A) : result (list A) :=
  if n <? 0 then Raise (RuntimeError "Trying to create tensor with negative dimension")
  else Ok (py_list_repeat v n).

(** ** [nn.Module]

    A module is its named tensors (parameters and buffers, what
    [state_dict()] returns, each flattened), the gradients accumulated
    on them and its training flag. What a
    module computes from them is given by its architecture, an interface
    below; the statistics a forward pass in training mode may write into
    buffers are not tracked. *)

Record Module (F : Type) : Type := mkModule {
  tensors : gmap string (list F);
  (** the [.grad] of the parameters; empty after [zero_grad()] *)
  grads : gmap string (list F);
  training : bool;
}.
Arguments mkModule {F} _ _ _.
Arguments tensors {F} _.
Arguments grads {F} _.
Arguments training {F} _.

Section Modules.
Context {F : Type}.

Definition eval (m : Module F) : Module F := mkModule (tensors m) (grads m) false.
Definition train_mode (m : Module F) : Module F := mkModule (tensors m) (grads m) true.
Definition state_dict (m : Module F) : gmap string (list F) := tensors m.
Definition set_tensors (ts : gmap string (list F)) (m : Module F) : Module F :=
  mkModule ts (grads m) (training m).
Definition set_grads (g : gmap string (list F)) (m : Module F) : Module F :=
  mkModule (tensors m) g (training m).

(** A tensor is copied into the module when it has the element count
    of the tensor it replaces. *)
Definition same_sizes (a b : gmap string (list F)) : bool :=
  forallb (fun kv =>
    match b !! fst kv with
    | Some v' => Nat.eqb (length (snd kv)) (length v')
    | None => false
    end) (map_to_list a).

(** [load_state_dict] (strict): the names must be those of the module
    and the sizes must agree; then every tensor is overwritten. (The
    tensors a refused call has copied before it raises are not
    tracked: no property speaks of a module after a refused call.) *)
Definition load_state_dict (m : Module F) (sd : gmap string (list F)) : result (Module F) :=
  if bool_decide (dom sd = dom (tensors m)) && same_sizes sd (tensors m)
  then Ok (set_tensors sd m)
  else Raise (RuntimeError "Error(s) in loading state_dict").
End Modules.

(** ** The libraries the program calls

    [torch] and Python's [random] draw from generator state, threaded here
    as a value of [Rng]. An interface function gives what the call
    returns: the exceptions a network or a method of the base class may
    itself raise are not modelled, and the properties of the code that
    calls them speak of the runs in which these calls return. *)

Class Torch (F : Type) : Type := {
  Rng : Type;
  (** [torch.randn((b, c))] *)
  randn2 : Z -> Z -> Rng -> list (list F) * Rng;
  (** [torch.randn_like(x)] *)
  randn_like : Tensor4 F -> Rng -> Tensor4 F * Rng;
  (** [torch.randint(low, high, (b,))] *)
  randint : Z -> Z -> Z -> Rng -> list Z * Rng;
  (** [torch.linspace(a, b, steps = n).int().tolist()] *)
  linspace_int : Z -> Z -> Z -> list Z;
  (** [random() < 0.5] *)
  random_lt_half : Rng -> bool * Rng;
}.

(** [deep_image_prior]: [get_noise(depth, 'noise', (h, w))] returns a fresh
    random tensor of shape [(1, depth, h, w)], given here by its single
    batch entry; [dip_net] is what the prior network computes. *)
Class DeepImagePrior (F : Type) `{Torch F} : Type := {
  get_noise : Z -> Z * Z -> Rng -> list (list (list F)) * Rng;
  dip_net : Module F -> Tensor4 F -> Tensor4 F;
}.

(** The attributes of the parent class [GaussianDiffusion] that this
    program reads. *)
Record GaussianDiffusion (F : Type) : Type := mkGaussianDiffusion {
  model : Module F;
  image_size : Z * Z;
  channels : Z;
  num_timesteps : Z;
  sampling_timesteps : Z;
  is_ddim_sampling : bool;
  ddim_sampling_eta : F;
  objective : string;
  self_condition : bool;
  offset_noise_strength : F;
  loss_weight : list F;
  alphas_cumprod : list F;
}.
Arguments mkGaussianDiffusion {F}.
Arguments model {F} _.
Arguments image_size {F} _.
Arguments channels {F} _.
Arguments num_timesteps {F} _.
Arguments sampling_timesteps {F} _.
Arguments is_ddim_sampling {F} _.
Arguments ddim_sampling_eta {F} _.
Arguments objective {F} _.
Arguments self_condition {F} _.
Arguments offset_noise_strength {F} _.
Arguments loss_weight {F} _.
Arguments alphas_cumprod {F} _.

(** The methods inherited from [GaussianDiffusion]. *)
Class GaussianDiffusionMethods (F : Type) `{Torch F} : Type := {
  (** [p_sample(x, t, x_self_cond)]: the next image and the predicted
      clean image *)
  p_sample : GaussianDiffusion F -> Tensor4 F -> Z -> option (Tensor4 F) -> Rng ->
             (Tensor4 F * Tensor4 F) * Rng;
  (** [model_predictions(x, t, x_self_cond, clip_x_start, rederive_pred_noise)]:
      the predicted noise and the predicted clean image *)
  model_predictions : GaussianDiffusion F -> Tensor4 F -> list Z -> option (Tensor4 F) ->
                      bool -> bool -> Tensor4 F * Tensor4 F;
  q_sample : GaussianDiffusion F -> Tensor4 F -> list Z -> Tensor4 F -> Tensor4 F;
  predict_v : GaussianDiffusion F -> Tensor4 F -> list Z -> Tensor4 F -> Tensor4 F;
  (** [self.model(x, t, x_self_cond)] *)
  unet : Module F -> Tensor4 F -> list Z -> option (Tensor4 F) -> Tensor4 F;
  normalize : GaussianDiffusion F -> Tensor4 F -> Tensor4 F;
  unnormalize : GaussianDiffusion F -> Tensor4 F -> Tensor4 F;
}.

(** ** [GaussianDiffusionWithDeepImagePrior] *)

Module Diffusion.
Section Diffusion.
Context {F : Type} `{Scalar F} `{TL : Torch F} `{!DeepImagePrior F}
        `{!GaussianDiffusionMethods F}.

Record t : Type := mk {
  super : GaussianDiffusion F;
  dip_model : Module F;
  dip_input_depth : Z;
}.

(** [__init__]: the parent is initialised from the base model and the
    schedule arguments; the prior network handed in is kept on the
    object. *)
Definition init (parent : GaussianDiffusion F) (dip_model : Module F)
    (dip_input_depth : Z) : t :=
  {| super := parent; dip_model := dip_model; dip_input_depth := dip_input_depth |}.

(** What a sampler returns: the final image, or with
    [return_all_timesteps] the images of every step stacked along a new
    dimension, given as the list of the stacked images. *)
Inductive samples : Type :=
  | Final (img : Tensor4 F)
  | AllTimesteps (imgs : list (Tensor4 F)).

Definition unnormalize_samples (self : t) (ret : samples) : samples :=
  match ret with
  | Final img => Final (unnormalize (super self) img)
  | AllTimesteps imgs => AllTimesteps (map (unnormalize (super self)) imgs)
  end.

Fixpoint p_sample_steps (self : t) (ts : list Z) (img : Tensor4 F)
    (x_start : option (Tensor4 F)) (imgs : list (Tensor4 F)) (rng : Rng)
    : Tensor4 F * list (Tensor4 F) * Rng :=
  match ts with
  | [] => (img, imgs, rng)
  | t :: ts' =>
    let self_cond := if self_condition (super self) then x_start else None in
    let '((img, x_start), rng) := p_sample (super self) img t self_cond rng in
    p_sample_steps self ts' img (Some x_start) (imgs ++ [img]) rng
  end.

Definition p_sample_loop (self : t) (shape : Z * Z * Z * Z)
    (return_all_timesteps : bool) (rng : Rng) : result (samples * Rng) :=
  let '(batch, _, h, w) := shape in
  let '(dip_input, rng) := get_noise (dip_input_depth self) (h, w) rng in
  let* dip_input := expand [dip_input] batch in
  let img := dip_net (dip_model self) dip_input in
  let img := normalize_norm_dist img in
  let imgs := [img] in
  let x_start := None in
  let '(img, imgs, rng) :=
    p_sample_steps self (rev (py_range (num_timesteps (super self)))) img x_start imgs rng in
  let ret := if negb return_all_timesteps then Final img else AllTimesteps imgs in
  let ret := unnormalize_samples self ret in
  Ok (ret, rng).

Definition one : F := of_Z 1.

Fixpoint ddim_steps (self : t) (batch : Z) (time_pairs : list (Z * Z)) (img : Tensor4 F)
    (x_start : option (Tensor4 F)) (imgs : list (Tensor4 F)) (rng : Rng)
    : result (Tensor4 F * list (Tensor4 F) * Rng) :=
  match time_pairs with
  | [] => Ok (img, imgs, rng)
  | (time, time_next) :: rest =>
    let eta := ddim_sampling_eta (super self) in
    let* time_cond := torch_full batch time in
    let self_cond := if self_condition (super self) then x_start else None in
    let '(pred_noise, x_start) :=
      model_predictions (super self) img time_cond self_cond true true in
    if time_next <? 0 then
      let img := x_start in
      ddim_steps self batch rest img (Some x_start) (imgs ++ [img]) rng
    else
      let* alpha := py_index (alphas_cumprod (super self)) time in
      let* alpha_next := py_index (alphas_cumprod (super self)) time_next in
      let sigma :=
        fmul eta (fsqrt (fdiv (fmul (fsub one (fdiv alpha alpha_next)) (fsub one alpha_next))
                              (fsub one alpha))) in
      let c := fsqrt (fsub (fsub one alpha_next) (fmul sigma sigma)) in
      let '(noise, rng) := randn_like img rng in
      let* a := tadd (mul_scalar x_start (fsqrt alpha_next)) (mul_scalar pred_noise c) in
      let* img := tadd a (mul_scalar noise sigma) in
      ddim_steps self batch rest img (Some x_start) (imgs ++ [img]) rng
  end.

Definition ddim_sample (self : t) (shape : Z * Z * Z * Z)
    (return_all_timesteps : bool) (rng : Rng) : result (samples * Rng) :=
  let '(batch, _, h, w) := shape in
  let total_timesteps := num_timesteps (super self) in
  let times := linspace_int (-1) (total_timesteps - 1) (sampling_timesteps (super self) + 1) in
  let times := rev times in
  let time_pairs := zip (removelast times) (tl times) in
  let '(dip_input, rng) := get_noise (dip_input_depth self) (h, w) rng in
  let* dip_input := expand [dip_input] batch in
  let img := dip_net (dip_model self) dip_input in
  let img := normalize_norm_dist img in
  let imgs := [img] in
  let x_start := None in
  let* (img, imgs, rng) := ddim_steps self batch time_pairs img x_start imgs rng in
  let ret := if negb return_all_timesteps then Final img else AllTimesteps imgs in
  let ret := unnormalize_samples self ret in
  Ok (ret, rng).

Definition sample (self : t) (batch_size : Z) (return_all_timesteps : bool) (rng : Rng)
    : result (samples * Rng) :=
  let '(h, w) := image_size (super self) in
  let sample_fn := if negb (is_ddim_sampling (super self)) then p_sample_loop else ddim_sample in
  sample_fn self (batch_size, channels (super self), h, w) return_all_timesteps rng.

(** [rearrange(o, 'b c -> b c 1 1')] *)
Definition rearrange_bc11 (o : list (list F)) : Tensor4 F :=
  map (map (fun v => [[v]])) o.

(** [a.gather(-1, t)]: every index must lie in the tensor. *)
Definition gather (a : list F) (t : list Z) : result (list F) :=
  mapM (fun i =>
    if (i <? 0) || (Z.of_nat (length a) <=? i)
    then Raise (RuntimeError "index out of range in gather")
    else py_index a i) t.

(** [extract(a, t, x_shape)] for a one-dimensional [x_shape], the only
    use this program makes of it: the gathered entries, one per batch
    entry. *)
Definition extract (a : list F) (t : list Z) : result (list F) := gather a t.

(** [.mean()] of a zero-dimensional tensor is the tensor. *)
Definition mean0 (x : F) : F := x.

Definition p_losses (self : t) (x_start : Tensor4 F) (t : list Z)
    (noise : option (Tensor4 F)) (offset_noise_strength' : option F) (rng : Rng)
    : result (F * Rng) :=
  let '(b, c, h, w) := tshape x_start in
  let '(dip_input, rng) := get_noise (dip_input_depth self) (h, w) rng in
  let* dip_input := expand [dip_input] b in
  let dip_out := dip_net (dip_model self) dip_input in
  let* noise := default noise (Callable (fun _ =>
                  let* d := tsub dip_out x_start in Ok (normalize_norm_dist d))) in
  let* offset_noise_strength :=
    default offset_noise_strength' (Plain (offset_noise_strength (super self))) in
  let* (noise, rng) :=
    if fltb fzero offset_noise_strength then
      let '(offset_noise, rng) := randn2 b c rng in
      let* noise := tadd_ noise (mul_scalar (rearrange_bc11 offset_noise) offset_noise_strength) in
      Ok (noise, rng)
    else Ok (noise, rng) in
  let x := q_sample (super self) x_start t noise in
  let '(x_self_cond, rng) :=
    if self_condition (super self) then
      let '(heads, rng) := random_lt_half rng in
      if heads
      then (Some (snd (model_predictions (super self) x t None false false)), rng)
      else (None, rng)
    else (None, rng) in
  let model_out := unet (model (super self)) x t x_self_cond in
  let* target :=
    if String.eqb (objective (super self)) "pred_noise" then Ok noise
    else if String.eqb (objective (super self)) "pred_x0" then Ok x_start
    else if String.eqb (objective (super self)) "pred_v"
         then Ok (predict_v (super self) x_start t noise)
    else Raise (ValueError ("unknown objective " +:+ objective (super self))) in
  let* loss := mse_loss_none model_out target in
  let loss := reduce_b_mean loss in
  let* weights := extract (loss_weight (super self)) t in
  let* loss := broadcast2 (fun u v => Ok (fmul u v)) loss weights in
  let* dip_loss := mse_loss dip_out x_start in
  let* last_weight := py_index (loss_weight (super self)) (-1) in
  let dip_loss := fmul (mean0 dip_loss) last_weight in
  Ok (fadd (mean_list loss) dip_loss, rng).

Definition forward (self : t) (img : Tensor4 F) (noise : option (Tensor4 F))
    (offset_noise_strength : option F) (rng : Rng) : result (F * Rng) :=
  let '(b, c, h, w) := tshape img in
  let img_size := image_size (super self) in
  if negb ((h =? fst img_size) && (w =? snd img_size))
  then Raise (AssertionError "height and width of image must be image_size")
  else
    let '(t, rng) := randint 0 (num_timesteps (super self)) b rng in
    let img := normalize (super self) img in
    p_losses self img t noise offset_noise_strength rng.

(** *** The quantities the properties speak of *)

(** The initial image of the reverse process as both samplers compute
    it: the prior network kept on the object, run once on a freshly
    drawn input of the target spatial size repeated over the batch, and
    normalised. *)
Definition x_T (self : t) (shape : Z * Z * Z * Z) (rng : Rng) : result (Tensor4 F) :=
  let '(batch, _, h, w) := shape in
  let* dip_input := expand [fst (get_noise (dip_input_depth self) (h, w) rng)] batch in
  Ok (normalize_norm_dist (dip_net (dip_model self) dip_input)).

(** The first of the stacked images of a sampler run. *)
Definition first_image (r : result (samples * Rng)) : option (Tensor4 F) :=
  match r with
  | Ok (AllTimesteps (img :: _), _) => Some img
  | _ => None
  end.

(** The raw output of the prior network in [p_losses]. *)
Definition prior_output (self : t) (x_start : Tensor4 F) (rng : Rng) : result (Tensor4 F) :=
  let '(b, _, h, w) := tshape x_start in
  let* dip_input := expand [fst (get_noise (dip_input_depth self) (h, w) rng)] b in
  Ok (dip_net (dip_model self) dip_input).

(** The auxiliary term: the mean squared error between the prior
    network's raw output and the clean image, times the last loss
    weight. *)
Definition auxiliary_term (self : t) (x_start : Tensor4 F) (rng : Rng) : result F :=
  let* dip_out := prior_output self x_start rng in
  let* mse := mse_loss dip_out x_start in
  let* last_weight := py_index (loss_weight (super self)) (-1) in
  Ok (fmul mse last_weight).



(** Two tensors of one shape. *)
Definition same_shape (x y : Tensor4 F) : Prop :=
  Forall2 (Forall2 (Forall2 (fun a b : list F => length a = length b))) x y.


End Diffusion.
End Diffusion.

(** ** Objects, files and exceptions: a state monad

    A method runs on a world (the object it mutates, the files, the
    generator state); when it raises, the world is as the statements
    before the raise left it. *)

Definition M (W A : Type) : Type := W -> result A * W.

Definition ret {W A} (a : A) : M W A := fun w => (Ok a, w).

Definition bind {W A B} (c : M W A) (k : A -> M W B) : M W B :=
  fun w => match c w with
           | (Ok a, w') => k a w'
           | (Raise e, w') => (Raise e, w')
           end.

Definition raise {W A} (e : exn) : M W A := fun w => (Raise e, w).
Definition lift {W A} (r : result A) : M W A := fun w => (r, w).
Definition gets {W A} (f : W -> A) : M W A := fun w => (Ok (f w), w).
Definition modify {W} (f : W -> W) : M W unit := fun w => (Ok tt, f w).

Notation "x <~ c ;; k" := (bind c (fun x => k))
  (at level 90, c at level 80, right associativity).
Notation "c ;;; k" := (bind c (fun _ => k))
  (at level 90, right associativity).

(** [for _ in range(n): body] *)
Fixpoint repeatM {W} (n : nat) (body : M W unit) : M W unit :=
  match n with
  | O => ret tt
  | S n' => body ;;; repeatM n' body
  end.

Definition for_range {W} (n : Z) (body : M W unit) : M W unit :=
  repeatM (Z.to_nat n) body.

Fixpoint mapMM {W A B} (f : A -> M W B) (l : list A) : M W (list B) :=
  match l with
  | [] => ret []
  | x :: l' => y <~ f x ;; ys <~ mapMM f l' ;; ret (y :: ys)
  end.

(** [while cond: body], run for at most [fuel] tests of the condition;
    [None] when they do not suffice. *)
Fixpoint while {W} (fuel : nat) (cond : W -> bool) (body : M W unit)
    (w : W) : option (result unit * W) :=
  match fuel with
  | O => None
  | S fuel' =>
    if cond w then
      match body w with
      | (Ok _, w') => while fuel' cond body w'
      | (Raise e, w') => Some (Raise e, w')
      end
    else Some (Ok tt, w)
  end.

(** ** Optimizer and autograd *)

Class Optimizer (F : Type) : Type := {
  (** what [opt.state_dict()] holds *)
  OptState : Type;
  (** [Adam(params, lr = lr, betas = betas)] *)
  adam : F -> F * F -> gmap string (list F) -> OptState;
  (** [opt.step()]: from the optimizer state, the tensors and their
      gradients, the new optimizer state and tensors *)
  opt_step : OptState -> gmap string (list F) -> gmap string (list F) ->
             OptState * gmap string (list F);
  (** whether a saved state has the parameter groups of this optimizer *)
  opt_compatible : OptState -> OptState -> bool;
}.

Definition opt_load_state_dict {F} `{Optimizer F} (opt sd : OptState) : result OptState :=
  if opt_compatible opt sd then Ok sd
  else Raise (ValueError "loaded state dict has a different number of parameter groups").

(** Tensors that record how they were computed, and the losses
    [backward()] is called on. [backward l g] adds the gradient of [l] to
    the accumulated gradients [g]. *)
Class Autograd (F : Type) `{Torch F} : Type := {
  Var : Type;
  Loss : Type;
  (** [model(model_input)] of the prior network *)
  dip_net_ad : Module F -> Tensor4 F -> Var;
  (** [F.mse_loss(output, target)] *)
  mse_loss_ad : Var -> Tensor4 F -> result Loss;
  (** [diffusion_model(data, noise = noise)] *)
  diffusion_call : Module F -> Tensor4 F -> option (Tensor4 F) -> Rng -> result Loss * Rng;
  (** [loss / k] for a Python integer [k] *)
  loss_div : Loss -> Z -> Loss;
  backward : Loss -> gmap string (list F) -> gmap string (list F);
}.

(** ** Files

    [torch.save] pickles a dictionary or a tensor; an image file holds
    the pixels written to it. *)

Inductive pyval (F O : Type) : Type :=
  | PyInt (z : Z)
  | PyStateDict (sd : gmap string (list F))
  | PyOptState (o : O)
  | PyTensor (x : Tensor4 F).
Arguments PyInt {F O} z.
Arguments PyStateDict {F O} sd.
Arguments PyOptState {F O} o.
Arguments PyTensor {F O} x.

Inductive file (F O : Type) : Type :=
  | PickledDict (d : gmap string (pyval F O))
  | PickledTensor (x : list (list (list F)))
  | ImageFile (pixels : Tensor4 F).
Arguments PickledDict {F O} d.
Arguments PickledTensor {F O} x.
Arguments ImageFile {F O} pixels.

(** What an f-string prints for a milestone: an integer or a string. *)
Inductive milestone : Type :=
  | MInt (z : Z)
  | MStr (s : string).

Definition py_str (m : milestone) : string :=
  match m with
  | MInt z => NilZero.string_of_int (Z.to_int z)
  | MStr s => s
  end.

(** [os.path.join(folder, name)] and [Path(folder) / name] for a relative
    [name] *)
Definition path_join (folder name : string) : string := folder +:+ "/" +:+ name.

Section Pickle.
Context {F O : Type}.

(** [torch.load(path)] of a pickled dictionary *)
Definition torch_load_dict (fs : gmap string (file F O)) (path : string)
    : result (gmap string (pyval F O)) :=
  match fs !! path with
  | Some (PickledDict d) => Ok d
  | Some _ => Raise (TypeError "not a dictionary")
  | None => Raise (FileNotFoundError path)
  end.

(** [data[key]] *)
Definition getitem (data : gmap string (pyval F O)) (key : string) : result (pyval F O) :=
  match data !! key with
  | Some v => Ok v
  | None => Raise (KeyError key)
  end.

Definition as_int (v : pyval F O) : result Z :=
  match v with PyInt z => Ok z | _ => Raise (TypeError "int expected") end.
Definition as_state_dict (v : pyval F O) : result (gmap string (list F)) :=
  match v with PyStateDict sd => Ok sd | _ => Raise (TypeError "state_dict expected") end.
Definition as_opt_state (v : pyval F O) : result O :=
  match v with PyOptState o => Ok o | _ => Raise (TypeError "optimizer state expected") end.
Definition as_tensor (v : pyval F O) : result (Tensor4 F) :=
  match v with PyTensor x => Ok x | _ => Raise (TypeError "tensor expected") end.
End Pickle.

(** ** [DIPTrainer] *)

Module DIPTrainer.
Section DIPTrainer.
Context {F : Type} `{Scalar F} `{TL : Torch F} `{!DeepImagePrior F}
        `{OP : Optimizer F} `{!Autograd F}.

Record t : Type := mk {
  model : Module F;
  dip_input_depth : Z;
  train_img : Tensor4 F;
  result_folder : string;
  image_size : Z * Z;
  opt : OptState;
  model_input : Tensor4 F;
  step : Z;
}.

Record world : Type := mkWorld {
  self : t;
  fs : gmap string (file F OptState);
}.

Definition set_model (m : Module F) (s : t) : t :=
  mk m (dip_input_depth s) (train_img s) (result_folder s) (image_size s) (opt s)
     (model_input s) (step s).
Definition set_opt (o : OptState) (s : t) : t :=
  mk (model s) (dip_input_depth s) (train_img s) (result_folder s) (image_size s) o
     (model_input s) (step s).
Definition set_model_input (x : Tensor4 F) (s : t) : t :=
  mk (model s) (dip_input_depth s) (train_img s) (result_folder s) (image_size s) (opt s)
     x (step s).
Definition set_step (n : Z) (s : t) : t :=
  mk (model s) (dip_input_depth s) (train_img s) (result_folder s) (image_size s) (opt s)
     (model_input s) n.

Definition update (f : t -> t) : M world unit :=
  modify (fun w => mkWorld (f (self w)) (fs w)).
Definition write (path : string) (content : file F OptState) : M world unit :=
  modify (fun w => mkWorld (self w) (<[path := content]> (fs w))).

(** [__init__] for a target image given as a tensor (the other accepted
    forms are converted to one by the deep-image-prior utilities). *)
Definition init (model : Module F) (dip_input_depth : Z) (train_img : Tensor4 F)
    (learning_rate : F) (adam_betas : F * F) (results_folder : string) (rng : Rng)
    : t * Rng :=
  let '(_, _, h, w) := tshape train_img in
  let opt := adam learning_rate adam_betas (tensors model) in
  let '(input, rng) := get_noise dip_input_depth (h, w) rng in
  (mk model dip_input_depth train_img results_folder (h, w) opt [input] 0, rng).

Definition save (milestone : milestone) : M world unit :=
  s <~ gets self ;;
  let data : gmap string (pyval F OptState) :=
    {[ "step" := PyInt (step s);
       "model" := PyStateDict (state_dict (model s));
       "model_input" := PyTensor (model_input s) ]} in
  write (path_join (result_folder s) ("dip_model_" +:+ py_str milestone +:+ ".pth"))
        (PickledDict data).

Definition load (milestone : milestone) : M world unit :=
  s <~ gets self ;;
  files <~ gets fs ;;
  data <~ lift (torch_load_dict files
                  (path_join (result_folder s) ("dip_model_" +:+ py_str milestone +:+ ".pth"))) ;;
  n <~ lift (let* v := getitem data "step" in as_int v) ;;
  update (set_step n) ;;;
  sd <~ lift (let* v := getitem data "model" in as_state_dict v) ;;
  m <~ lift (load_state_dict (model s) sd) ;;
  update (set_model m) ;;;
  x <~ lift (let* v := getitem data "model_input" in as_tensor v) ;;
  update (set_model_input x).

(** The world [predict] leaves: the network in evaluation mode. *)
Definition after_predict (w : world) : world :=
  mkWorld (set_model (eval (model (self w))) (self w)) (fs w).

(** The network as an iteration of [train] runs it: in training mode,
    gradients reset. *)
Definition fresh_grads (m : Module F) : Module F := set_grads ∅ (train_mode m).

Definition predict : M world (Tensor4 F) :=
  update (fun s => set_model (eval (model s)) s) ;;;
  s <~ gets self ;;
  let out := dip_net (model s) (model_input s) in
  ret out.

(** [save_image]: the prediction written as an image named after the
    step *)
Definition save_image : M world unit :=
  out <~ predict ;;
  s <~ gets self ;;
  write (path_join (result_folder s) ("dip_" +:+ py_str (MInt (step s)) +:+ ".png"))
        (ImageFile out).

Definition generate_noise : M world (Tensor4 F) :=
  out <~ predict ;;
  s <~ gets self ;;
  d <~ lift (tsub out (train_img s)) ;;
  let noise := normalize_norm_dist d in
  ret noise.

Definition save_noise (filename : string) : M world unit :=
  noise <~ generate_noise ;;
  noise0 <~ lift (py_index noise 0) ;;
  s <~ gets self ;;
  write (path_join (result_folder s) filename) (PickledTensor noise0).

(** One pass through the body of the loop of [train]. *)
Definition train_iteration (predict_every save_every : Z) : M world unit :=
  update (fun s => set_model (train_mode (model s)) s) ;;;
  update (fun s => set_model (set_grads ∅ (model s)) s) ;;;
  s <~ gets self ;;
  let output := dip_net_ad (model s) (model_input s) in
  loss <~ lift (mse_loss_ad output (train_img s)) ;;
  update (fun s => set_model (set_grads (backward loss (grads (model s))) (model s)) s) ;;;
  update (fun s =>
    let '(o, ts) := opt_step (opt s) (tensors (model s)) (grads (model s)) in
    set_opt o (set_model (set_tensors ts (model s)) s)) ;;;
  update (fun s => set_step (step s + 1) s) ;;;
  s <~ gets self ;;
  r <~ lift (py_mod (step s) predict_every) ;;
  (if r =? 0 then save_image else ret tt) ;;;
  s <~ gets self ;;
  r <~ lift (py_mod (step s) save_every) ;;
  if r =? 0 then
    milestone <~ lift (py_floordiv (step s) save_every) ;;
    save (MInt milestone)
  else ret tt.

(** What is read off a run of [train]: how it ended, the step counter
    and the optimizer state. *)
Definition outcome (r : option (result unit * world)) : option (result unit * Z * OptState) :=
  match r with
  | Some (res, w) => Some (res, step (self w), opt (self w))
  | None => None
  end.

(** [train(train_num_steps, predict_every, save_every)]; it returns
    [None]. *)
Definition train (fuel : nat) (train_num_steps predict_every save_every : Z)
    (w : world) : option (result unit * world) :=
  while fuel (fun w => step (self w) <? train_num_steps)
        (train_iteration predict_every save_every) w.
End DIPTrainer.
End DIPTrainer.

(** ** [Trainer] *)

(** The data loader over the [Dataset] of (image, noise) pairs, batched by
    [collate_fn]: [epoch e] is the batches of its [e]-th traversal, in the
    order the shuffle gave them, first batch apart (the constructor
    refuses a dataset of fewer than 100 images, so a traversal is never
    empty). *)
Class DataLoader (F : Type) : Type := {
  epoch : nat -> (Tensor4 F * Tensor4 F) * list (Tensor4 F * Tensor4 F);
}.

(** [cycle(dl)]: the generator has finished [fst st] traversals and
    yielded [snd st] batches of the current one; [next] yields the next
    batch, starting a new traversal when the current one is exhausted. *)
Definition cycle_next {F} `{DataLoader F} (st : nat * nat)
    : (Tensor4 F * Tensor4 F) * (nat * nat) :=
  let '(e, i) := st in
  let '(first, rest) := epoch e in
  match (first :: rest) !! i with
  | Some d => (d, (e, S i))
  | None => (fst (epoch (S e)), (S e, 1%nat))
  end.

(** [torch.cat(l, dim = 0)] *)
Definition torch_cat {F} (l : list (Tensor4 F)) : result (Tensor4 F) :=
  match l with
  | [] => Raise (ValueError "torch.cat(): expected a non-empty list of Tensors")
  | _ => Ok (concat l)
  end.

(** The exponential-moving-average wrapper read by the sampling code. *)
Record EMA (F : Type) : Type := mkEMA { ema_model : Module F }.
Arguments mkEMA {F} _.
Arguments ema_model {F} _.

(** Sampling from a diffusion model ([model.sample(batch_size = n)]) and
    the FID scorer, which reads files, the data loader and the generator,
    and may write its statistics file. *)
Class Evaluation (F : Type) `{Torch F} `{Optimizer F} : Type := {
  sample_images : Module F -> Z -> Rng -> result (Tensor4 F) * Rng;
  fid_score : Module F -> gmap string (file F OptState) -> nat * nat -> Rng ->
              F * gmap string (file F OptState) * (nat * nat) * Rng;
}.

Module Trainer.
Section Trainer.
Context {F : Type} `{Scalar F} `{TL : Torch F} `{OP : Optimizer F} `{!Autograd F}
        `{!DataLoader F} `{!Evaluation F}.

(** The keyword arguments of [__init__]. *)
Record config : Type := mkConfig {
  train_batch_size : Z;
  cfg_gradient_accumulate_every : Z;
  train_lr : F;
  cfg_train_num_steps : Z;
  ema_update_every : Z;
  ema_decay : F;
  adam_betas : F * F;
  cfg_save_and_sample_every : Z;
  cfg_num_samples : Z;
  cfg_results_folder : string;
  cfg_calculate_fid : bool;
  cfg_max_grad_norm : option F;
  cfg_save_best_and_latest_only : bool;
}.

(** The attributes the methods read or write. *)
Record t : Type := mk {
  model : Module F;
  num_samples : Z;
  save_and_sample_every : Z;
  batch_size : Z;
  gradient_accumulate_every : Z;
  train_num_steps : Z;
  max_grad_norm : option F;
  dl : nat * nat;
  opt : OptState;
  results_folder : string;
  step : Z;
  calculate_fid : bool;
  best_fid : option F;
  save_best_and_latest_only : bool;
}.

Record world : Type := mkWorld {
  self : t;
  fs : gmap string (file F OptState);
  rng : Rng;
}.

Definition set_model (m : Module F) (s : t) : t :=
  mk m (num_samples s) (save_and_sample_every s) (batch_size s)
     (gradient_accumulate_every s) (train_num_steps s) (max_grad_norm s) (dl s) (opt s)
     (results_folder s) (step s) (calculate_fid s) (best_fid s)
     (save_best_and_latest_only s).
Definition set_dl (d : nat * nat) (s : t) : t :=
  mk (model s) (num_samples s) (save_and_sample_every s) (batch_size s)
     (gradient_accumulate_every s) (train_num_steps s) (max_grad_norm s) d (opt s)
     (results_folder s) (step s) (calculate_fid s) (best_fid s)
     (save_best_and_latest_only s).
Definition set_opt (o : OptState) (s : t) : t :=
  mk (model s) (num_samples s) (save_and_sample_every s) (batch_size s)
     (gradient_accumulate_every s) (train_num_steps s) (max_grad_norm s) (dl s) o
     (results_folder s) (step s) (calculate_fid s) (best_fid s)
     (save_best_and_latest_only s).
Definition set_step (n : Z) (s : t) : t :=
  mk (model s) (num_samples s) (save_and_sample_every s) (batch_size s)
     (gradient_accumulate_every s) (train_num_steps s) (max_grad_norm s) (dl s) (opt s)
     (results_folder s) n (calculate_fid s) (best_fid s)
     (save_best_and_latest_only s).
Definition set_best_fid (b : option F) (s : t) : t :=
  mk (model s) (num_samples s) (save_and_sample_every s) (batch_size s)
     (gradient_accumulate_every s) (train_num_steps s) (max_grad_norm s) (dl s) (opt s)
     (results_folder s) (step s) (calculate_fid s) b
     (save_best_and_latest_only s).
Definition set_max_grad_norm (g : option F) (s : t) : t :=
  mk (model s) (num_samples s) (save_and_sample_every s) (batch_size s)
     (gradient_accumulate_every s) (train_num_steps s) g (dl s) (opt s)
     (results_folder s) (step s) (calculate_fid s) (best_fid s)
     (save_best_and_latest_only s).

Definition update (f : t -> t) : M world unit :=
  modify (fun w => mkWorld (f (self w)) (fs w) (rng w)).
Definition write (path : string) (content : file F OptState) : M world unit :=
  modify (fun w => mkWorld (self w) (<[path := content]> (fs w)) (rng w)).

(** The same world with another value of [max_grad_norm]. *)
Definition with_max_grad_norm (g : option F) (w : world) : world :=
  mkWorld (set_max_grad_norm g (self w)) (fs w) (rng w).

(** The world the periodic block leaves when it raises before writing:
    the model in evaluation mode. *)
Definition after_eval (w : world) : world :=
  mkWorld (set_model (eval (model (self w))) (self w)) (fs w) (rng w).

Definition assert (b : bool) (msg : string) : result unit :=
  if b then Ok tt else Raise (AssertionError msg).

(** [__init__], for a dataset folder in which [dataset_len] images were
    found. The arguments [ema_update_every] and [ema_decay] are
    accepted and not used; no attribute [ema] is set. *)
Definition init (diffusion_model : Module F) (dataset_len : Z) (c : config) : result t :=
  let* sq := has_int_squareroot (cfg_num_samples c) in
  let* _ := assert sq "number of samples must have an integer square root" in
  let* _ := assert (16 <=? train_batch_size c * cfg_gradient_accumulate_every c)
              "your effective batch size should be at least 16 or above" in
  let* _ := assert (100 <=? dataset_len)
              "you should have at least 100 images in your folder" in
  let opt := adam (train_lr c) (adam_betas c) (tensors diffusion_model) in
  let* best :=
    if cfg_save_best_and_latest_only c then
      let* _ := assert (cfg_calculate_fid c)
                  "calculate_fid must be True for save_best_and_latest_only" in
      Ok (Some (of_Z (10 ^ 10)))
    else Ok None in
  Ok (mk diffusion_model (cfg_num_samples c) (cfg_save_and_sample_every c)
         (train_batch_size c) (cfg_gradient_accumulate_every c) (cfg_train_num_steps c)
         (cfg_max_grad_norm c) (0%nat, 0%nat) opt (cfg_results_folder c) 0
         (cfg_calculate_fid c) best (cfg_save_best_and_latest_only c)).

(** Reading [self.ema]: no statement of the class assigns the
    attribute. *)
Definition ema : M world (EMA F) :=
  raise (AttributeError "'Trainer' object has no attribute 'ema'").

Definition save (milestone : milestone) : M world unit :=
  s <~ gets self ;;
  let data : gmap string (pyval F OptState) :=
    {[ "step" := PyInt (step s);
       "model" := PyStateDict (state_dict (model s));
       "opt" := PyOptState (opt s) ]} in
  write (path_join (results_folder s) ("model-" +:+ py_str milestone +:+ ".pt"))
        (PickledDict data).

Definition load (milestone : milestone) : M world unit :=
  s <~ gets self ;;
  files <~ gets fs ;;
  data <~ lift (torch_load_dict files
                  (path_join (results_folder s) ("model-" +:+ py_str milestone +:+ ".pt"))) ;;
  sd <~ lift (let* v := getitem data "model" in as_state_dict v) ;;
  m <~ lift (load_state_dict (model s) sd) ;;
  update (set_model m) ;;;
  n <~ lift (let* v := getitem data "step" in as_int v) ;;
  update (set_step n) ;;;
  o <~ lift (let* v := getitem data "opt" in as_opt_state v) ;;
  o' <~ lift (opt_load_state_dict (opt s) o) ;;
  update (set_opt o').

(** [self.model(data, noise = noise)] *)
Definition call_model (data : Tensor4 F) (noise : option (Tensor4 F)) : M world Loss :=
  fun w =>
    let '(r, rng') := diffusion_call (model (self w)) data noise (rng w) in
    (r, mkWorld (self w) (fs w) rng').

(** The body of the inner loop: one batch, one backward pass. *)
Definition accumulate : M world unit :=
  s <~ gets self ;;
  let '((data, noise), dl') := cycle_next (dl s) in
  update (set_dl dl') ;;;
  loss <~ call_model data (Some noise) ;;
  s <~ gets self ;;
  let loss := loss_div loss (gradient_accumulate_every s) in
  update (fun s => set_model (set_grads (backward loss (grads (model s))) (model s)) s).

(** The condition of the periodic block. *)
Definition save_and_sample_due (s : t) : result bool :=
  if negb (step s =? 0) then divisible_by (step s) (save_and_sample_every s)
  else Ok false.

Definition draw_samples (m : Module F) (n : Z) : M world (Tensor4 F) :=
  fun w =>
    let '(r, rng') := sample_images m n (rng w) in
    (r, mkWorld (self w) (fs w) rng').

Definition run_fid_scorer : M world F :=
  fun w =>
    let '(score, fs', dl', rng') := fid_score (model (self w)) (fs w) (dl (self w)) (rng w) in
    (Ok score, mkWorld (set_dl dl' (self w)) fs' rng').

(** The periodic block: sample, write the grid, score, checkpoint. *)
Definition sample_and_save : M world unit :=
  update (fun s => set_model (eval (model s)) s) ;;;
  s <~ gets self ;;
  milestone <~ lift (py_floordiv (step s) (save_and_sample_every s)) ;;
  batches <~ lift (num_to_groups (num_samples s) (batch_size s)) ;;
  all_images_list <~ mapMM (fun n => e <~ ema ;; draw_samples (ema_model e) n) batches ;;
  all_images <~ lift (torch_cat all_images_list) ;;
  write (path_join (results_folder s) ("sample-" +:+ py_str (MInt milestone) +:+ ".png"))
        (ImageFile all_images) ;;;
  score <~ (if calculate_fid s then (f <~ run_fid_scorer ;; ret (Some f)) else ret None) ;;
  if save_best_and_latest_only s then
    f <~ lift (match score with
               | Some f => Ok f
               | None => Raise (UnboundLocalError "fid_score")
               end) ;;
    b <~ lift (match best_fid s with
               | Some b => Ok b
               | None => Raise (AttributeError "'Trainer' object has no attribute 'best_fid'")
               end) ;;
    (if fltb f b then
       update (set_best_fid (Some f)) ;;; save (MStr "best")
     else ret tt) ;;;
    save (MStr "latest")
  else save (MInt milestone).

(** The statements after the inner loop: the optimizer step, the reset
    of the gradients, the step counter. *)
Definition apply_gradients : M world unit :=
  update (fun s =>
    let '(o, ts) := opt_step (opt s) (tensors (model s)) (grads (model s)) in
    set_opt o (set_model (set_tensors ts (model s)) s)) ;;;
  update (fun s => set_model (set_grads ∅ (model s)) s) ;;;
  update (fun s => set_step (step s + 1) s).

(** The first part of the body of the outer loop. *)
Definition optimise : M world unit :=
  s <~ gets self ;;
  for_range (gradient_accumulate_every s) accumulate ;;;
  apply_gradients.

(** One pass through the body of the outer loop of [train]. *)
Definition train_iteration : M world unit :=
  optimise ;;;
  s <~ gets self ;;
  due <~ lift (save_and_sample_due s) ;;
  if due then sample_and_save else ret tt.

Definition train (fuel : nat) (w : world) : option (result unit * world) :=
  while fuel (fun w => step (self w) <? train_num_steps (self w)) train_iteration w.

(** What is read off a run of [train]: how it ended, the step counter
    and the files written. *)
Definition outcome (r : option (result unit * world))
    : option (result unit * Z * list (string * file F OptState)) :=
  match r with
  | Some (res, w) => Some (res, step (self w), map_to_list (fs w))
  | None => None
  end.
End Trainer.
End Trainer.

(** ** A concrete instance

    The interfaces instantiated in binary32 with small deterministic
    collaborators, to evaluate the definitions on explicit inputs: a
    generator that counts, a prior network [y = weight * x] with its true
    mean-squared-error gradient, a diffusion loss [theta . noise] with its
    true gradient, plain gradient descent as optimizer. They stand in
    for the libraries and are not models of them ([linspace_int], for
    one, interpolates in exact integers). *)

Module Concrete.
Definition f32 (z : Z) : binary32 := of_Z z.

(** [n] consecutive integers from [k], as floats *)
Definition counting (k : Z) (n : nat) : list binary32 :=
  map (fun i => f32 (k + Z.of_nat i)) (seq 0 n).

#[global] Instance torch : Torch binary32 := {|
  Rng := Z;
  randn2 := fun b c rng =>
    (repeat (repeat (f32 rng) (Z.to_nat c)) (Z.to_nat b), rng + 1);
  randn_like := fun x rng => (tmap (fun _ => f32 rng) x, rng + 1);
  randint := fun low high b rng =>
    (repeat (low + rng mod (high - low)) (Z.to_nat b), rng + 1);
  linspace_int := fun a b n =>
    map (fun i => a + Z.quot (Z.of_nat i * (b - a)) (n - 1)) (seq 0 (Z.to_nat n));
  random_lt_half := fun rng => (Z.even rng, rng + 1);
|}.

Definition scalar_of (m : Module binary32) (name : string) (d : binary32) : binary32 :=
  match tensors m !! name with
  | Some (v :: _) => v
  | _ => d
  end.

Definition weight (m : Module binary32) : binary32 := scalar_of m "weight" (f32 1).

#[global] Instance deep_image_prior : DeepImagePrior binary32 := {|
  get_noise := fun depth hw rng =>
    let h := Z.to_nat (fst hw) in
    let w := Z.to_nat (snd hw) in
    (map (fun c => map (fun i => counting (rng + Z.of_nat ((c * h + i) * w)) w) (seq 0 h))
         (seq 0 (Z.to_nat depth)),
     rng + depth * fst hw * snd hw);
  dip_net := fun m x => mul_scalar x (weight m);
|}.

#[global] Instance diffusion_methods : GaussianDiffusionMethods binary32 := {|
  p_sample := fun gd img t self_cond rng =>
    let '(noise, rng) := randn_like img rng in
    (div_scalar img (f32 2), img, rng);
  model_predictions := fun gd x t self_cond clip rederive => (x, div_scalar x (f32 2));
  q_sample := fun gd x_start t noise => tmap (fun v => fmul v v) noise;
  predict_v := fun gd x_start t noise => tmap (fun v => fsub v (f32 1)) noise;
  unet := fun m x t self_cond => mul_scalar x (scalar_of m "scale" (f32 1));
  normalize := fun gd img => tmap (fun v => fsub (fmul v (f32 2)) (f32 1)) img;
  unnormalize := fun gd img => tmap (fun v => fdiv (fadd v (f32 1)) (f32 2)) img;
|}.

(** gradient descent with unit learning rate; its state counts the steps
    it has taken *)
#[global] Instance optimizer : Optimizer binary32 := {|
  OptState := Z;
  adam := fun lr betas params => 0;
  opt_step := fun o params g =>
    (o + 1,
     map_imap (fun k p =>
       Some (match g !! k with
             | Some gk => zip_with fsub p gk
             | None => p
             end)) params);
  opt_compatible := fun _ _ => true;
|}.

Definition loss32 : Type := binary32 * gmap string (list binary32).

#[global] Instance autograd : Autograd binary32 := {|
  Var := Tensor4 binary32 * Tensor4 binary32;
  Loss := loss32;
  dip_net_ad := fun m x => (dip_net m x, x);
  mse_loss_ad := fun out target =>
    let* d := tsub (fst out) target in
    let* value := mse_loss (fst out) target in
    let* dx := tmul d (snd out) in
    Ok (value, {[ "weight" := [fmul (f32 2) (torch_mean dx)] ]});
  diffusion_call := fun m data noise rng =>
    match noise with
    | Some n =>
      let g := firstn 2 (flatten4 n) in
      let theta := match tensors m !! "theta" with Some th => th | None => [] end in
      (Ok (fsum (zip_with fmul theta g), {[ "theta" := g ]}), rng + 1)
    | None => (Raise (ValueError "no noise"), rng)
    end;
  loss_div := fun l k =>
    (fdiv (fst l) (f32 k), (map (fun v => fdiv v (f32 k))) <$> snd l);
  backward := fun l acc => union_with (fun a b => Some (zip_with fadd a b)) acc (snd l);
|}.

Definition batch (e i : nat) : Tensor4 binary32 * Tensor4 binary32 :=
  ([[[[f32 (Z.of_nat e); f32 (Z.of_nat i)]]]], [[[[f32 3; f32 4]]]]).

#[global] Instance data_loader : DataLoader binary32 := {|
  epoch := fun e => (batch e 0, [batch e 1; batch e 2]);
|}.

#[global] Instance evaluation : Evaluation binary32 := {|
  sample_images := fun m n rng => (Ok (repeat [[[f32 rng]]] (Z.to_nat n)), rng + 1);
  fid_score := fun m files d rng => (f32 7, files, d, rng);
|}.

Definition unit_module (name : string) (v : list binary32) : Module binary32 :=
  mkModule {[ name := v ]} ∅ true.

(** a diffusion object with three timesteps *)
Definition parent : GaussianDiffusion binary32 :=
  mkGaussianDiffusion (unit_module "scale" [f32 1]) (1, 3) 1 3 3 false (f32 0)
    "pred_noise" false (f32 0) [f32 1; f32 2; f32 4]
    [fdiv (f32 3) (f32 4); fdiv (f32 1) (f32 2); fdiv (f32 1) (f32 4)].

Definition diffusion (w : Z) : Diffusion.t :=
  Diffusion.init parent (unit_module "weight" [f32 w]) 1.

(** a prior-network trainer at step [s] *)
Definition dip_trainer (s : Z) : DIPTrainer.t :=
  DIPTrainer.mk (unit_module "weight" [f32 1]) 1 [[[[f32 2; f32 4; f32 9]]]] "noises"
    (1, 3) 0 [[[[f32 1; f32 2; f32 3]]]] s.

Definition dip_world (s : Z) : DIPTrainer.world := DIPTrainer.mkWorld (dip_trainer s) ∅.

(** a prior-network trainer on a batch of two images of two channels and
    two pixels; the network, of weight 1, returns its input *)
Definition batch_world : DIPTrainer.world :=
  DIPTrainer.mkWorld
    (DIPTrainer.mk (unit_module "weight" [f32 1]) 2
       [[[[f32 1; f32 2]]; [[f32 3; f32 4]]]; [[[f32 5; f32 6]]; [[f32 7; f32 8]]]]
       "noises" (1, 2) 0
       [[[[f32 5; f32 0]]; [[f32 6; f32 3]]]; [[[f32 7; f32 6]]; [[f32 8; f32 9]]]]
       0) ∅.

(** a prior-network trainer whose network reproduces its target *)
Definition collapsed_world : DIPTrainer.world :=
  DIPTrainer.mkWorld
    (DIPTrainer.mk (unit_module "weight" [f32 1]) 1 [[[[f32 1; f32 2; f32 3]]]] "noises"
       (1, 3) 0 [[[[f32 1; f32 2; f32 3]]]] 0) ∅.

Definition trainer_config (every : Z) : Trainer.config :=
  Trainer.mkConfig 16 1 (f32 0) every 10 (f32 1) (f32 0, f32 0) every 25 "results"
    false (Some (f32 1)) false.

Definition trainer_world (s : Trainer.t) : Trainer.world := Trainer.mkWorld s ∅ 0.

(** a trainer with parameters [theta = (0, 0)], [max_grad_norm = 1], the
    periodic block every [every] steps, at step [s]; at step 0 it is as
    [__init__] leaves it *)
Definition trainer_at (every s : Z) : Trainer.t :=
  Trainer.mk (unit_module "theta" [f32 0; f32 0]) 25 every 16 1 every (Some (f32 1))
    (0%nat, 0%nat) 0 "results" s false None false.

Definition trainer (every : Z) : Trainer.t := trainer_at every 0.

Definition image : Tensor4 binary32 := [[[[f32 1; f32 5; f32 3]]]].
Definition given_noise : Tensor4 binary32 := [[[[f32 1; f32 0; f32 3]]]].
End Concrete.

(** ** Further quantities

    Definitions the properties of the second part speak of. *)

(** The perfect squares from 0 to [bound]^2 pass [has_int_squareroot]. *)
Definition squares_pass (bound : nat) : bool :=
  forallb (fun k => match has_int_squareroot (k * k) with Ok true => true | _ => false end)
          (map Z.of_nat (seq 0 (S bound))).

Section Cycle.
Context {F : Type} `{DataLoader F}.

(** The batches of the [e]-th traversal of the data loader. *)
Definition batches (e : nat) : list (Tensor4 F * Tensor4 F) :=
  fst (epoch e) :: snd (epoch e).

(** The first [n] values the generator [cycle(dl)] yields from state
    [st], and the state it is left in. *)
Fixpoint cycle_take (n : nat) (st : nat * nat)
    : list (Tensor4 F * Tensor4 F) * (nat * nat) :=
  match n with
  | O => ([], st)
  | S n' =>
    let '(d, st') := cycle_next st in
    let '(ds, st'') := cycle_take n' st' in
    (d :: ds, st'')
  end.
End Cycle.

Section DiffusionSchedule.
Context {F : Type} `{Scalar F} `{TL : Torch F} `{!DeepImagePrior F}
        `{!GaussianDiffusionMethods F}.
Import Diffusion.

(** The pairs (time, next time) [ddim_sample] steps through. *)
Definition ddim_time_pairs (self : t (F:=F)) : list (Z * Z) :=
  let times :=
    rev (linspace_int (-1) (num_timesteps (super self) - 1)
                      (sampling_timesteps (super self) + 1)) in
  zip (removelast times) (tl times).

End DiffusionSchedule.

(** The exception torch raises on shapes or indices it does not accept. *)
Definition is_RuntimeError (e : exn) : Prop := exists msg, e = RuntimeError msg.

Section TrainingModel.
Context {F : Type} `{TL : Torch F} `{!Autograd F}.

End TrainingModel.

(** ** Images, paths and the data pipeline *)

Abbreviation Tensor3 F := (list (list (list F))).

(** [pathlib]: [Path(p).stem], the final component of a path without its
    last suffix. *)
Class Pathlib : Type := {
  stem : string -> string;
}.

(** [pickle]: the exception [torch.load] lets through on a file that is
    no pickle. *)
Class Pickle : Type := {
  UnpicklingError : exn;
}.

(** PIL, torchvision and the image utilities of [deep_image_prior]. An
    image is opened from the content of its file. *)
Class Imaging (F : Type) `{Torch F} `{Optimizer F} : Type := {
  PILImage : Type;
  NdArray : Type;
  (** [Image.open(path)] *)
  image_open : file F OptState -> result PILImage;
  (** [image.mode] and [image.convert(mode)] *)
  image_mode : PILImage -> string;
  image_convert : PILImage -> string -> PILImage;
  (** [T.Resize(size)], [T.RandomHorizontalFlip()], [T.CenterCrop(size)]
      and [T.ToTensor()] *)
  Resize : Z * Z -> PILImage -> PILImage;
  RandomHorizontalFlip : PILImage -> Rng -> PILImage * Rng;
  CenterCrop : Z * Z -> PILImage -> PILImage;
  ToTensor : PILImage -> Tensor3 F;
  (** [get_image(path)[0]], [crop_image(img, d)], [pil_to_np] and
      [np_to_torch] *)
  get_image : file F OptState -> result PILImage;
  crop_image : PILImage -> Z -> PILImage;
  pil_to_np : PILImage -> NdArray;
  np_to_torch : NdArray -> Tensor4 F;
}.

Section Images.
Context {F : Type} `{Scalar F} `{TL : Torch F} `{OP : Optimizer F} `{!Imaging F} `{!Pickle}.

Definition convert_image_to_fn (img_type : string) (image : PILImage) : PILImage :=
  if negb (String.eqb (image_mode image) img_type) then image_convert image img_type
  else image.

(** A library function that reads the file at [path]. *)
Definition read_file {A} (read : file F OptState -> result A)
    (files : gmap string (file F OptState)) (path : string) : result A :=
  match files !! path with
  | Some f => read f
  | None => Raise (FileNotFoundError path)
  end.

(** What [torch.load] returns for the files this program pickles: a
    tensor (a noise file) or a dictionary (a checkpoint). *)
Inductive loaded : Type :=
  | LoadedTensor (x : Tensor3 F)
  | LoadedDict (d : gmap string (pyval F OptState)).

Definition torch_load (files : gmap string (file F OptState)) (path : string) : result loaded :=
  read_file (fun f =>
    match f with
    | PickledTensor x => Ok (LoadedTensor x)
    | PickledDict d => Ok (LoadedDict d)
    | ImageFile _ => Raise UnpicklingError
    end) files path.

(** [torch.stack(tensors)]: a new first dimension; the tensors must be of
    one size, and there must be one at least. *)
Definition shape3 (x : Tensor3 F) : nat * nat * nat :=
  (length x, length (List.hd [] x), length (List.hd [] (List.hd [] x))).

Definition torch_stack (tensors : list (Tensor3 F)) : result (Tensor4 F) :=
  match tensors with
  | [] => Raise (RuntimeError "stack expects a non-empty TensorList")
  | x :: rest =>
    if forallb (fun y => bool_decide (shape3 y = shape3 x)) rest then Ok tensors
    else Raise (RuntimeError "stack expects each tensor to be equal size")
  end.

(** The elements handed to [torch.stack] must be tensors. *)
Definition as_tensors (l : list loaded) : result (list (Tensor3 F)) :=
  mapM (fun v =>
    match v with
    | LoadedTensor x => Ok x
    | LoadedDict _ => Raise (TypeError "expected Tensor as element in argument 0, but got dict")
    end) l.

(** [collate_fn(batch)]: the [zip] of an empty unpacked batch yields
    nothing to unpack into [data, noise]. *)
Definition collate_fn (batch : list (Tensor3 F * loaded)) : result (Tensor4 F * Tensor4 F) :=
  match batch with
  | [] => Raise (ValueError "not enough values to unpack (expected 2, got 0)")
  | _ =>
    let data := map fst batch in
    let noise := map snd batch in
    let* data := torch_stack data in
    let* noise := as_tensors noise in
    let* noise := torch_stack noise in
    Ok (data, noise)
  end.
End Images.
Arguments loaded F {OP}.

(** ** [Dataset] *)

Module Dataset.
Section Dataset.
Context {F : Type} `{Scalar F} `{TL : Torch F} `{OP : Optimizer F} `{!Imaging F} `{!Pathlib}
        `{!Pickle}.

Record t : Type := mk {
  folder : string;
  noise_folder : string;
  image_size : Z * Z;
  paths : list string;
  augment_horizontal_flip : bool;
  convert_image_to : option string;
}.

(** [__init__]: [found] holds, for each extension of [exts] in turn, the
    paths its glob yields. *)
Definition init (folder noise_folder : string) (image_size : Z * Z)
    (found : list (list string)) (augment_horizontal_flip : bool)
    (convert_image_to : option string) : t :=
  mk folder noise_folder image_size (concat found) augment_horizontal_flip convert_image_to.

(** [self.transform]: the composition built in [__init__]. *)
Definition transform (self : t) (img : PILImage) (rng : Rng) : Tensor3 F * Rng :=
  let img :=
    match convert_image_to self with
    | Some img_type => convert_image_to_fn img_type img
    | None => img
    end in
  let img := Resize (image_size self) img in
  let '(img, rng) :=
    if augment_horizontal_flip self then RandomHorizontalFlip img rng else (img, rng) in
  let img := CenterCrop (image_size self) img in
  (ToTensor img, rng).

Definition __len__ (self : t) : Z := Z.of_nat (length (paths self)).

Definition __getitem__ (self : t) (index : Z) (files : gmap string (file F OptState))
    (rng : Rng) : result ((Tensor3 F * loaded F) * Rng) :=
  let* path := py_index (paths self) index in
  let* img := read_file image_open files path in
  let noise_path := path_join (noise_folder self) (stem path +:+ ".pth") in
  let* noise := torch_load files noise_path in
  let '(x, rng) := transform self img rng in
  Ok ((x, noise), rng).
End Dataset.
End Dataset.

(** ** [DIPTrainer]: the target image *)

Module DIPTrainer'.
Section DIPTrainer'.
Context {F : Type} `{Scalar F} `{TL : Torch F} `{!DeepImagePrior F}
        `{OP : Optimizer F} `{!Autograd F} `{!Imaging F}.

(** The forms in which [train_img] is accepted, and anything else. *)
Inductive image_arg : Type :=
  | Str (path : string)
  | Image (img : PILImage)
  | Ndarray (a : NdArray)
  | Tensor (x : Tensor4 F)
  | Other.

Definition _load_image (files : gmap string (file F OptState)) (dip_input_depth : Z)
    (train_img : image_arg) : result (Tensor4 F) :=
  let* train_img :=
    match train_img with
    | Str path => let* img := read_file get_image files path in Ok (Image img)
    | _ => Ok train_img
    end in
  let train_img :=
    match train_img with
    | Image img => Ndarray (pil_to_np (crop_image img dip_input_depth))
    | _ => train_img
    end in
  let train_img :=
    match train_img with
    | Ndarray a => Tensor (np_to_torch a)
    | _ => train_img
    end in
  match train_img with
  | Tensor x => Ok x
  | _ => Raise (ValueError "train_img must be a string, image, numpy array or torch tensor")
  end.

(** [__init__] for a target image in any accepted form. *)
Definition init (model : Module F) (dip_input_depth : Z) (train_img : image_arg)
    (learning_rate : F) (adam_betas : F * F) (results_folder : string)
    (files : gmap string (file F OptState)) (rng : Rng) : result (DIPTrainer.t * Rng) :=
  let* train_img := _load_image files dip_input_depth train_img in
  Ok (DIPTrainer.init model dip_input_depth train_img learning_rate adam_betas
        results_folder rng).
End DIPTrainer'.
End DIPTrainer'.

(** ** The module-level [generate_noise] *)

Module Noises.
Section Noises.
Context {F : Type} `{Scalar F} `{TL : Torch F} `{!DeepImagePrior F}
        `{OP : Optimizer F} `{!Autograd F} `{!Imaging F} `{!Pathlib}.

(** The prior network handed to [generate_noise] (every trainer it
    builds holds this one object), the files and the generator. *)
Record world : Type := mkWorld {
  dip_model : Module F;
  fs : gmap string (file F OptState);
  rng : Rng;
}.

Definition noise_path (noises_folder img_path : string) : string :=
  path_join noises_folder (stem img_path +:+ ".pth").

Definition of_trainer (tw : DIPTrainer.world) (rng : Rng) : world :=
  mkWorld (DIPTrainer.model (DIPTrainer.self tw)) (DIPTrainer.fs tw) rng.

(** The body of the inner loop for one image path. [learning_rate] and
    [adam_betas] are the defaults of [DIPTrainer.__init__] (1e-4 and
    (0.9, 0.99)); [train] runs with its default periods of 10000. *)
Definition generate_noise_image (fuel : nat) (dip_input_depth : Z) (noises_folder : string)
    (train_num_steps : Z) (learning_rate : F) (adam_betas : F * F) (img_path : string)
    (w : world) : option (result unit * world) :=
  if bool_decide (is_Some (fs w !! noise_path noises_folder img_path)) then Some (Ok tt, w)
  else
    match DIPTrainer'.init (dip_model w) dip_input_depth (DIPTrainer'.Str img_path)
            learning_rate adam_betas noises_folder (fs w) (rng w) with
    | Raise e => Some (Raise e, w)
    | Ok (dip_trainer, rng') =>
      match DIPTrainer.train fuel train_num_steps 10000 10000
              (DIPTrainer.mkWorld dip_trainer (fs w)) with
      | None => None
      | Some (Raise e, tw) => Some (Raise e, of_trainer tw rng')
      | Some (Ok _, tw) =>
        let '(r, tw) := DIPTrainer.save_noise (stem img_path +:+ ".pth") tw in
        Some (r, of_trainer tw rng')
      end
    end.

(** [generate_noise], for the image paths [paths] that its two loops
    (over the extensions, and over the glob of each) visit, in order. *)
Fixpoint generate_noise (fuel : nat) (dip_input_depth : Z) (noises_folder : string)
    (train_num_steps : Z) (learning_rate : F) (adam_betas : F * F) (paths : list string)
    (w : world) : option (result unit * world) :=
  match paths with
  | [] => Some (Ok tt, w)
  | img_path :: rest =>
    match generate_noise_image fuel dip_input_depth noises_folder train_num_steps
            learning_rate adam_betas img_path w with
    | Some (Ok _, w') =>
      generate_noise fuel dip_input_depth noises_folder train_num_steps
        learning_rate adam_betas rest w'
    | r => r
    end
  end.

(** An image the prior network can be trained on: it loads as a tensor,
    and what the network computes from a freshly drawn input of the
    image's spatial size can be compared with it and has a batch
    entry. *)
Definition trainable (dip_input_depth : Z) (files : gmap string (file F OptState))
    (img_path : string) : Prop :=
  exists img,
    DIPTrainer'._load_image files dip_input_depth (DIPTrainer'.Str img_path) = Ok img /\
    forall (m : Module F) (g : Rng),
      let '(_, _, h, w) := tshape img in
      let input := [fst (get_noise dip_input_depth (h, w) g)] in
      (exists loss, mse_loss_ad (dip_net_ad m input) img = Ok loss) /\
      (exists d rest n0, tsub (dip_net m input) img = Ok (d :: rest) /\
                         normalize_norm_dist (d :: rest) !! 0%nat = Some n0).
End Noises.
End Noises.

(** ** A concrete data pipeline

    Images are their pixels, opened from an image file of one batch
    entry; the conversions between image forms keep the pixels. *)

Module ConcreteData.
Import Concrete.

Fixpoint has_char (c : ascii) (s : string) : bool :=
  match s with
  | EmptyString => false
  | String c' s' => Ascii.eqb c c' || has_char c s'
  end.

(** the part of a path after its last slash *)
Fixpoint basename (s : string) : string :=
  match s with
  | EmptyString => EmptyString
  | String c s' => if has_char "/" s then basename s' else s
  end.

(** a name without its last suffix *)
Fixpoint drop_suffix (s : string) : string :=
  match s with
  | EmptyString => EmptyString
  | String c s' =>
    if Ascii.eqb c "." && negb (has_char "." s') then EmptyString
    else String c (drop_suffix s')
  end.

#[global] Instance pathlib : Pathlib := {|
  stem := fun p => drop_suffix (basename p);
|}.

#[global] Instance pickle : Pickle := {|
  UnpicklingError := RuntimeError "UnpicklingError: invalid load key";
|}.

Definition pixels (f : file binary32 Z) : result (Tensor3 binary32) :=
  match f with
  | ImageFile [x] => Ok x
  | _ => Raise (ValueError "cannot identify image file")
  end.

#[global] Instance imaging : Imaging binary32 := {|
  PILImage := Tensor3 binary32;
  NdArray := Tensor3 binary32;
  image_open := pixels;
  image_mode := fun _ => "RGB";
  image_convert := fun img _ => img;
  Resize := fun _ img => img;
  RandomHorizontalFlip := fun img rng => (map (map (@rev binary32)) img, rng + 1);
  CenterCrop := fun _ img => img;
  ToTensor := fun img => img;
  get_image := pixels;
  crop_image := fun img _ => img;
  pil_to_np := fun img => img;
  np_to_torch := fun a => [a];
|}.

(** a dataset folder of two images and an empty noise folder *)
Definition files : gmap string (file binary32 Z) :=
  {[ "data/a.png" := ImageFile [[[[f32 2; f32 4; f32 9]]]];
     "data/b.png" := ImageFile [[[[f32 1; f32 5; f32 3]]]] ]}.

Definition paths : list string := ["data/a.png"; "data/b.png"].

(** the default learning rate and betas of [DIPTrainer] *)
Definition learning_rate : binary32 := fdiv (f32 1) (f32 10000).
Definition adam_betas : binary32 * binary32 :=
  (fdiv (f32 9) (f32 10), fdiv (f32 99) (f32 100)).

Definition noises_world : Noises.world :=
  Noises.mkWorld (unit_module "weight" [f32 1]) files 0.

Definition dataset : Dataset.t :=
  Dataset.init "data" "noises" (1, 3) [[]; []; paths; []] false None.


(** a prior-network trainer whose results folder holds, as milestone 1, a
    checkpoint of another architecture taken at step 7 *)
Definition foreign_checkpoint : gmap string (pyval binary32 Z) :=
  {[ "step" := PyInt 7;
     "model" := PyStateDict {[ "scale" := [f32 1] ]};
     "model_input" := PyTensor [[[[f32 1; f32 2; f32 3]]]] ]}.

Definition dip_world_with_checkpoint : DIPTrainer.world :=
  DIPTrainer.mkWorld (dip_trainer 0)
    {[ "noises/dip_model_1.pth" := PickledDict foreign_checkpoint ]}.

(** an optimizer whose state holds its number of parameter groups and the
    steps it has taken; states are compatible when the numbers of groups
    agree *)
Definition grouped_optimizer : Optimizer binary32 := {|
  OptState := Z * Z;
  adam := fun lr betas params => (1, 0);
  opt_step := fun o params g => ((fst o, snd o + 1), params);
  opt_compatible := fun o sd => fst o =? fst sd;
|}.

(** a checkpoint of the same model with two parameter groups *)
Definition two_group_checkpoint : gmap string (pyval binary32 (Z * Z)) :=
  {[ "step" := PyInt 7;
     "model" := PyStateDict {[ "theta" := [f32 1; f32 2] ]};
     "opt" := PyOptState (2, 7) ]}.

Definition grouped_world : @Trainer.world binary32 torch grouped_optimizer :=
  @Trainer.mkWorld binary32 torch grouped_optimizer
    (@Trainer.mk binary32 grouped_optimizer (unit_module "theta" [f32 0; f32 0]) 25 1000 16 1
       1000 (Some (f32 1)) (0%nat, 0%nat) (1, 0) "results" 0 false None false)
    {[ "results/model-1.pt" := PickledDict two_group_checkpoint ]} 0.

(** the two images with a noise file for the first *)
Definition noise_a : Tensor3 binary32 := [[[f32 0; f32 1; f32 2]]].

Definition files_with_noise : gmap string (file binary32 Z) :=
  <["noises/a.pth" := PickledTensor noise_a]> files.

(** a world in which both images have a noise file, the second one no
    tensor *)
Definition full_world : Noises.world :=
  Noises.mkWorld (unit_module "weight" [f32 1])
    (<["noises/b.pth" := PickledDict ∅]> files_with_noise) 0.

(** the world a run over the first image leaves, and the same with the
    prior network as it was before the run *)
Definition world_after (paths : list string) : option Noises.world :=
  match Noises.generate_noise 3 1 "noises" 2 learning_rate adam_betas paths noises_world with
  | Some (Ok _, w) => Some w
  | _ => None
  end.

Definition with_model (m : Module binary32) (w : Noises.world) : Noises.world :=
  Noises.mkWorld m (Noises.fs w) (Noises.rng w).

(** the noise written for the second image by a run from [w] *)
Definition noise_b (w : Noises.world) : option (file binary32 Z) :=
  match Noises.generate_noise 3 1 "noises" 2 learning_rate adam_betas ["data/b.png"] w with
  | Some (Ok _, w') => Noises.fs w' !! "noises/b.pth"
  | _ => None
  end.
End ConcreteData.

(** ** Proof automation *)


(** * Properties *)

(** ** Properties of the helpers *)

Lemma zsum_app l1 l2 : zsum (l1 ++ l2) = zsum l1 + zsum l2.
Proof. induction l1 as [|x l1 IH]; simpl; [|rewrite IH]; lia. Qed.

Lemma zsum_repeat x n : zsum (repeat x n) = Z.of_nat n * x.
Proof. induction n as [|n IH]; [reflexivity|]. cbn [repeat zsum fold_right]. fold (zsum (repeat x n)). lia. Qed.

Lemma num_to_groups_eq num divisor :
  divisor <> 0 ->
  num_to_groups num divisor =
    Ok (repeat divisor (Z.to_nat (num / divisor)) ++
        (if 0 <? num mod divisor then [num mod divisor] else [])).
Proof.
  intros Hd. unfold num_to_groups, py_floordiv, py_mod, py_list_repeat.
  apply Z.eqb_neq in Hd. rewrite Hd. cbn [rbind].
  destruct (0 <? num mod divisor); [reflexivity|]. by rewrite app_nil_r.
Qed.

Lemma num_to_groups_sum num divisor gs :
  0 <= num -> 1 <= divisor -> num_to_groups num divisor = Ok gs -> zsum gs = num.
Proof.
  intros Hn Hd. rewrite num_to_groups_eq by lia. intros [= <-].
  pose proof (Z.mod_pos_bound num divisor ltac:(lia)) as Hr.
  pose proof (Z.div_mod num divisor ltac:(lia)) as Hdm.
  assert (0 <= num / divisor) as Hq by (apply Z.div_pos; lia).
  rewrite zsum_app, zsum_repeat, Z2Nat.id by lia.
  destruct (0 <? num mod divisor) eqn:E; cbn [zsum fold_right].
  - lia.
  - apply Z.ltb_ge in E. lia.
Qed.

(** C10: for [num >= 0] and [divisor >= 1] the groups are [num / divisor]
    copies of [divisor] followed by the remainder when it is positive; no
    group exceeds [divisor], every group is positive, and the groups sum to
    [num]. [num_to_groups 50000 16] is 3125 groups of 16 and
    [num_to_groups 17 16] is [[16; 1]]. *)
Theorem num_to_groups_spec (num divisor : Z) :
  0 <= num -> 1 <= divisor ->
  exists gs,
    num_to_groups num divisor = Ok gs /\
    gs = repeat divisor (Z.to_nat (num / divisor)) ++
         (if 0 <? num mod divisor then [num mod divisor] else []) /\
    Forall (fun g => 0 < g <= divisor) gs /\
    zsum gs = num /\
    num_to_groups 50000 16 = Ok (repeat 16 3125%nat) /\
    num_to_groups 17 16 = Ok [16; 1].
Proof.
  intros Hn Hd. eexists. split; [apply num_to_groups_eq; lia|].
  split; [reflexivity|].
  pose proof (Z.mod_pos_bound num divisor ltac:(lia)) as Hr.
  pose proof (Z.div_mod num divisor ltac:(lia)) as Hdm.
  assert (0 <= num / divisor) as Hq by (apply Z.div_pos; lia).
  split; [|split; [|split; reflexivity]].
  - apply Forall_app. split.
    + apply Forall_forall. intros g Hg. apply list_elem_of_In, repeat_spec in Hg. lia.
    + destruct (0 <? num mod divisor) eqn:E; constructor; [|constructor].
      apply Z.ltb_lt in E. lia.
  - eapply num_to_groups_sum; [exact Hn|exact Hd|]. apply num_to_groups_eq. lia.
Qed.

Lemma num_to_groups_spec_witness :
  exists gs, num_to_groups 25 16 = Ok gs /\ gs = [16; 9].
Proof.
  destruct (num_to_groups_spec 25 16 ltac:(lia) ltac:(lia)) as (gs & H1 & H2 & _).
  exists gs. split; [exact H1|]. rewrite H2. reflexivity.
Defined.

(** ** Tensors *)

Lemma mapM_Ok_map {A B} (f : A -> result B) (g : A -> B) (l : list A) :
  (forall a, a ∈ l -> f a = Ok (g a)) -> mapM f l = Ok (map g l).
Proof.
  induction l as [|x l IH]; intros Hf; [reflexivity|].
  cbn [mapM map]. rewrite Hf by left. cbn [rbind].
  rewrite IH; [reflexivity|]. intros a Ha. apply Hf. by right.
Qed.

Lemma mapM_zip_diag {A B} (f : A -> A -> result B) (l : list A) :
  mapM (fun p => f (fst p) (snd p)) (zip l l) = mapM (fun a => f a a) l.
Proof. induction l as [|x l IH]; [reflexivity|]. cbn. by rewrite IH. Qed.

Section TensorProperties.
Context {F : Type} `{Scalar F}.

Lemma broadcast2_diag {A B} (f : A -> A -> result B) (l : list A) :
  broadcast2 f l l = mapM (fun a => f a a) l.
Proof. unfold broadcast2. rewrite Nat.eqb_refl. apply mapM_zip_diag. Qed.

(** An operation between a tensor and itself needs no broadcasting. *)
Lemma tbinop_diag (f : F -> F -> F) (x : Tensor4 F) :
  tbinop f x x = Ok (tmap (fun v => f v v) x).
Proof.
  unfold tbinop, tmap.
  rewrite broadcast2_diag. apply mapM_Ok_map. intros s _.
  rewrite broadcast2_diag. apply mapM_Ok_map. intros r _.
  rewrite broadcast2_diag. apply mapM_Ok_map. intros w _.
  rewrite broadcast2_diag. by apply mapM_Ok_map.
Qed.

Lemma tget_tmap (f : F -> F) (x : Tensor4 F) (b c i j : nat) :
  tget (tmap f x) b c i j = f <$> tget x b c i j.
Proof.
  unfold tget, tmap. rewrite list_lookup_fmap.
  destruct (x !! b) as [s|]; [|reflexivity]. cbn. rewrite list_lookup_fmap.
  destruct (s !! c) as [r|]; [|reflexivity]. cbn. rewrite list_lookup_fmap.
  destruct (r !! i) as [w|]; [|reflexivity]. cbn. by rewrite list_lookup_fmap.
Qed.

Lemma elem_of_concat {A} (v : A) (ls : list (list A)) :
  v ∈ concat ls <-> exists l, l ∈ ls /\ v ∈ l.
Proof.
  rewrite list_elem_of_In, in_concat.
  split; intros (l & Hl & Hv); exists l; split; by apply list_elem_of_In.
Qed.

(** The flattened tensor holds the entries of every position, and only
    those. *)
Lemma elem_of_flatten4 (x : Tensor4 F) (v : F) :
  v ∈ flatten4 x <-> exists b c i j, tget x b c i j = Some v.
Proof.
  unfold flatten4, tget. split.
  - intros Hv.
    apply elem_of_concat in Hv as (w & Hw & Hv).
    apply elem_of_concat in Hw as (r & Hr & Hw).
    apply elem_of_concat in Hr as (s & Hs & Hr).
    apply list_elem_of_lookup in Hs as [b Hb].
    apply list_elem_of_lookup in Hr as [c Hc].
    apply list_elem_of_lookup in Hw as [i Hi].
    apply list_elem_of_lookup in Hv as [j Hj].
    exists b, c, i, j. rewrite Hb. cbn. rewrite Hc. cbn. rewrite Hi. cbn. done.
  - intros (b & c & i & j & Hg).
    destruct (x !! b) as [s|] eqn:Hb; [|done]. cbn in Hg.
    destruct (s !! c) as [r|] eqn:Hc; [|done]. cbn in Hg.
    destruct (r !! i) as [w|] eqn:Hi; [|done]. cbn in Hg.
    apply elem_of_concat. exists w. split; [|by eapply list_elem_of_lookup_2].
    apply elem_of_concat. exists r. split; [|by eapply list_elem_of_lookup_2].
    apply elem_of_concat. exists s. split; by eapply list_elem_of_lookup_2.
Qed.

Lemma tmap_ext_in (f g : F -> F) (x : Tensor4 F) :
  (forall v, v ∈ flatten4 x -> f v = g v) -> tmap f x = tmap g x.
Proof.
  intros Hfg. unfold tmap.
  apply map_ext_in. intros s Hs. apply map_ext_in. intros r Hr.
  apply map_ext_in. intros w Hw. apply map_ext_in. intros v Hv.
  apply Hfg. unfold flatten4. rewrite list_elem_of_In, !in_concat.
  exists w. split; [|done]. apply in_concat. exists r. split; [|done].
  apply in_concat. exists s. by split.
Qed.

Lemma tmap_tmap (f g : F -> F) (x : Tensor4 F) :
  tmap f (tmap g x) = tmap (fun v => f (g v)) x.
Proof.
  unfold tmap. rewrite map_map. apply map_ext. intros s.
  rewrite map_map. apply map_ext. intros r.
  rewrite map_map. apply map_ext. intros w. by rewrite map_map.
Qed.

(** [normalize_norm_dist] applies one affine map to every entry: the
    same mean and the same standard deviation at all positions. *)
Lemma normalize_norm_dist_pointwise (x : Tensor4 F) :
  normalize_norm_dist x = tmap (fun v => fdiv (fsub v (torch_mean x)) (torch_std x)) x.
Proof. unfold normalize_norm_dist, div_scalar, sub_scalar. apply tmap_tmap. Qed.
End TensorProperties.

(** ** Rounding an integer to a float *)

Lemma shr_1_m (mrs : shr_record) :
  0 <= shr_m mrs -> shr_m (shr_1 mrs) = shr_m mrs / 2.
Proof.
  destruct mrs as [m r s]. cbn [shr_m]. intros Hm.
  destruct m as [|[p|p|]|p]; cbn [shr_1 shr_m]; try reflexivity; try lia.
  - rewrite Pos2Z.inj_xI. apply Z.div_unique with (r := 1); lia.
  - rewrite Pos2Z.inj_xO. apply Z.div_unique with (r := 0); lia.
Qed.

Lemma iter_shr_1_m (k : positive) (mrs : shr_record) :
  0 <= shr_m mrs ->
  shr_m (SpecFloat.iter_pos shr_1 k mrs) = shr_m mrs / 2 ^ Zpos k.
Proof.
  revert mrs. induction k as [k IH|k IH|]; intros mrs Hm; cbn [SpecFloat.iter_pos].
  - assert (0 <= shr_m (shr_1 mrs)) as H1 by (rewrite shr_1_m by done; apply Z.div_pos; lia).
    assert (0 <= shr_m (SpecFloat.iter_pos shr_1 k (shr_1 mrs))) as H2
      by (rewrite IH by done; apply Z.div_pos; lia).
    rewrite IH, IH, shr_1_m by done.
    rewrite !Z.div_div by lia. f_equal.
    change (Z.pos k~1) with (2 * Z.pos k + 1).
    replace (2 * Z.pos k + 1) with (1 + Z.pos k + Z.pos k) by lia.
    rewrite !Z.pow_add_r by lia. change (2 ^ 1) with 2. lia.
  - assert (0 <= shr_m (SpecFloat.iter_pos shr_1 k mrs)) as H2
      by (rewrite IH by done; apply Z.div_pos; lia).
    rewrite IH, IH by done. rewrite Z.div_div by lia. f_equal.
    change (Z.pos k~0) with (2 * Z.pos k).
    replace (2 * Z.pos k) with (Z.pos k + Z.pos k) by lia.
    rewrite Z.pow_add_r by lia. reflexivity.
  - rewrite shr_1_m by done. reflexivity.
Qed.

Lemma digits2_pos_bounds (p : positive) :
  2 ^ (Zpos (digits2_pos p) - 1) <= Zpos p < 2 ^ Zpos (digits2_pos p).
Proof.
  induction p as [p IH|p IH|]; cbn [digits2_pos].
  - rewrite Pos2Z.inj_succ. change (Z.pos p~1) with (2 * Z.pos p + 1).
    replace (Z.succ (Z.pos (digits2_pos p)) - 1) with (Z.succ (Z.pos (digits2_pos p) - 1)) by lia.
    rewrite !Z.pow_succ_r by lia.
    set (a := 2 ^ (Z.pos (digits2_pos p) - 1)) in *.
    set (b := 2 ^ Z.pos (digits2_pos p)) in *. lia.
  - rewrite Pos2Z.inj_succ. change (Z.pos p~0) with (2 * Z.pos p).
    replace (Z.succ (Z.pos (digits2_pos p)) - 1) with (Z.succ (Z.pos (digits2_pos p) - 1)) by lia.
    rewrite !Z.pow_succ_r by lia.
    set (a := 2 ^ (Z.pos (digits2_pos p) - 1)) in *.
    set (b := 2 ^ Z.pos (digits2_pos p)) in *. lia.
  - cbn. lia.
Qed.

Section Rounding.
Variables prec emax : Z.
Hypothesis prec_pos : 0 < prec.

Lemma shr_record_of_loc_m (m : Z) (l : location) : shr_m (shr_record_of_loc m l) = m.
Proof. by destruct l as [|[| |]]. Qed.

(** Above the smallest exponent, the shift that brings a positive
    mantissa to the precision leaves it positive. *)
Lemma shr_fexp_positive (m : positive) (e : Z) (l : location) :
  emin prec emax <= e ->
  1 <= shr_m (fst (shr_fexp prec emax (Zpos m) e l)) /\
  emin prec emax <= snd (shr_fexp prec emax (Zpos m) e l).
Proof.
  intros He. unfold shr_fexp, shr, fexp. cbn [Zdigits2].
  pose proof (digits2_pos_bounds m) as [Hlow _].
  set (d := Zpos (digits2_pos m)) in *.
  destruct (Z.max (d + e - prec) (emin prec emax) - e) as [|k|k] eqn:Hn; cbn [fst snd].
  - rewrite shr_record_of_loc_m. lia.
  - split; [|lia]. rewrite iter_shr_1_m by (rewrite shr_record_of_loc_m; lia).
    rewrite shr_record_of_loc_m.
    assert (Zpos k = d - prec) as -> by lia.
    apply Z.div_le_lower_bound; [apply Z.pow_pos_nonneg; lia|].
    rewrite Z.mul_1_r.
    eapply Z.le_trans; [|exact Hlow]. apply Z.pow_le_mono_r; lia.
  - rewrite shr_record_of_loc_m. lia.
Qed.

Lemma round_nearest_even_ge (m : Z) (l : location) : m <= round_nearest_even m l.
Proof. destruct l as [|[| |]]; cbn; [lia|destruct (Z.even m); lia|lia|lia]. Qed.

(** Rounding a positive mantissa above the smallest exponent gives a
    finite number or an infinity, of the given sign. *)
Lemma binary_round_aux_positive (sx : bool) (m : positive) (e : Z) (l : location) :
  emin prec emax <= e ->
  (exists m' e', binary_round_aux prec emax sx (Zpos m) e l = S754_finite sx m' e') \/
  binary_round_aux prec emax sx (Zpos m) e l = S754_infinity sx.
Proof.
  intros He. unfold binary_round_aux.
  destruct (shr_fexp_positive m e l He) as [Hm1 He1].
  destruct (shr_fexp prec emax (Zpos m) e l) as [mrs1 e1]. cbn [fst snd] in *.
  pose proof (round_nearest_even_ge (shr_m mrs1) (loc_of_shr_record mrs1)) as Hround.
  destruct (round_nearest_even (shr_m mrs1) (loc_of_shr_record mrs1)) as [|m1|m1]; [lia| |lia].
  destruct (shr_fexp_positive m1 e1 loc_Exact He1) as [Hm2 _].
  destruct (shr_fexp prec emax (Zpos m1) e1 loc_Exact) as [mrs2 e2]. cbn [fst snd] in *.
  destruct (shr_m mrs2) as [|m2|m2]; [lia| |lia].
  destruct (e2 <=? emax - prec); eauto.
Qed.

Lemma binary_round_positive (sx : bool) (m : positive) (e : Z) :
  emin prec emax <= e ->
  (exists m' e', binary_round prec emax sx m e = S754_finite sx m' e') \/
  binary_round prec emax sx m e = S754_infinity sx.
Proof.
  intros He. unfold binary_round.
  destruct (shl_align m e (fexp prec emax (Zpos (digits2_pos m) + e))) as [mz ez] eqn:Halign.
  apply binary_round_aux_positive.
  unfold shl_align in Halign.
  assert (emin prec emax <= fexp prec emax (Zpos (digits2_pos m) + e)) by (unfold fexp; lia).
  destruct (fexp prec emax (Zpos (digits2_pos m) + e) - e); injection Halign as <- <-; lia.
Qed.
End Rounding.

(** ** Zero variance in binary32 *)

Lemma of_Z_positive (n : Z) :
  1 <= n ->
  (exists m e, @of_Z binary32 _ n = S754_finite false m e) \/
  @of_Z binary32 _ n = S754_infinity false.
Proof.
  intros Hn. destruct n as [|p|p]; [lia| |lia].
  cbn [of_Z binary32_scalar binary_normalize].
  apply binary_round_positive; [lia|]. unfold emin. lia.
Qed.

Lemma fsub_diag_finite (v : binary32) : finite32 v = true -> fsub v v = fzero.
Proof.
  destruct v as [[|]|s| |s m e]; try discriminate; intros _;
    first [reflexivity|cbn [fsub binary32_scalar SFsub]; rewrite Z.sub_diag; reflexivity].
Qed.

Lemma flatten4_tmap {F} (f : F -> F) (x : Tensor4 F) :
  flatten4 (tmap f x) = map f (flatten4 x).
Proof.
  unfold flatten4, tmap. rewrite !concat_map. reflexivity.
Qed.

Lemma fsum_zeros {A} (l : list A) :
  fsum (map (fun _ => fzero) l) = (fzero : binary32).
Proof.
  unfold fsum. induction l as [|a l IH]; [reflexivity|]. cbn [map fold_left]. exact IH.
Qed.

Lemma fdiv_zero_positive (n : Z) :
  1 <= n -> fdiv fzero (@of_Z binary32 _ n) = (fzero : binary32).
Proof.
  intros Hn. destruct (of_Z_positive n Hn) as [(m & e & ->)| ->]; reflexivity.
Qed.

(** In binary32 a tensor of zeros with at least one entry is normalised
    to not-a-number at every position: the mean is [+0], the standard
    deviation is [+0] (not-a-number for a single entry), and [0 / 0] is
    not-a-number. *)
Lemma normalize_zeros_is_nan (x : Tensor4 binary32) :
  flatten4 x <> [] ->
  normalize_norm_dist (tmap (fun _ => fzero) x) = tmap (fun _ => S754_nan) x.
Proof.
  intros Hne. rewrite normalize_norm_dist_pointwise, tmap_tmap.
  apply tmap_ext_in. intros _ _.
  unfold torch_std, torch_mean, mean_list. rewrite flatten4_tmap, length_map.
  set (n := Z.of_nat (length (flatten4 x))).
  assert (1 <= n) as Hn by (destruct (flatten4 x); [done|cbn in n; lia]).
  rewrite fsum_zeros, fdiv_zero_positive by done.
  rewrite map_map. change (sq_diff fzero fzero) with (fzero : binary32).
  rewrite fsum_zeros.
  destruct (Z.eq_dec n 1) as [->|Hn1].
  - reflexivity.
  - rewrite Z.max_r, fdiv_zero_positive by lia. reflexivity.
Qed.

(** ** Loops that count up to a limit *)

Section Loops.
Context {W : Type} (counter : W -> Z) (body : M W unit).
Hypothesis body_counts :
  forall w u w', body w = (Ok u, w') -> counter w' = counter w + 1.

Lemma repeatM_counter (k : nat) (w w' : W) (u : unit) :
  repeatM k body w = (Ok u, w') -> counter w' = counter w + Z.of_nat k.
Proof.
  revert w. induction k as [|k IH]; intros w Hrun.
  - cbn in Hrun. injection Hrun as _ <-. lia.
  - cbn [repeatM] in Hrun. unfold bind in Hrun.
    destruct (body w) as [[u1|e] w1] eqn:Hb; [|discriminate].
    apply IH in Hrun. apply body_counts in Hb. lia.
Qed.

Lemma while_counts_up (limit : Z) (fuel : nat) (w : W) :
  (Z.to_nat (limit - counter w) < fuel)%nat ->
  while fuel (fun w => counter w <? limit) body w =
    Some (repeatM (Z.to_nat (limit - counter w)) body w).
Proof.
  remember (Z.to_nat (limit - counter w)) as k eqn:Hk.
  revert w fuel Hk. induction k as [|k IH]; intros w fuel Hk Hfuel.
  - destruct fuel as [|fuel]; [lia|]. cbn [while repeatM].
    replace (counter w <? limit) with false by (symmetry; apply Z.ltb_ge; lia).
    reflexivity.
  - destruct fuel as [|fuel]; [lia|]. cbn [while repeatM].
    replace (counter w <? limit) with true by (symmetry; apply Z.ltb_lt; lia).
    unfold bind. destruct (body w) as [[u1|e] w1] eqn:Hb; [|reflexivity].
    apply body_counts in Hb. apply IH; lia.
Qed.
End Loops.

(** ** [DIPTrainer] *)

Section DIPTrainerProperties.
Context {F : Type} `{Scalar F} `{TL : Torch F} `{!DeepImagePrior F}
        `{OP : Optimizer F} `{!Autograd F}.
Import DIPTrainer.

Lemma predict_run (w : world) :
  predict w = (Ok (dip_net (eval (model (self w))) (model_input (self w))), after_predict w).
Proof. reflexivity. Qed.

Lemma generate_noise_run (w : world) :
  generate_noise w =
    (rmap normalize_norm_dist
       (tsub (dip_net (eval (model (self w))) (model_input (self w))) (train_img (self w))),
     after_predict w).
Proof.
  unfold generate_noise, bind. rewrite predict_run. cbn.
  destruct (tsub _ _); reflexivity.
Qed.

(** When the network's output equals the target image, of pixels [v] for
    which [v - v] is zero, the tensor handed to [normalize_norm_dist] is
    zero everywhere, and what [generate_noise] returns holds at every
    position the quotient of [0 - mean] by the standard deviation of that
    zero tensor: the division is made with no test on the divisor. *)
Lemma generate_noise_of_exact_fit (w : world) :
  let s := self w in
  let zeros := tmap (fun _ => fzero) (train_img s) in
  dip_net (eval (model s)) (model_input s) = train_img s ->
  Forall (fun v => fsub v v = fzero) (flatten4 (train_img s)) ->
  tsub (dip_net (eval (model s)) (model_input s)) (train_img s) = Ok zeros /\
  generate_noise w = (Ok (normalize_norm_dist zeros), after_predict w) /\
  normalize_norm_dist zeros =
    tmap (fun _ => fdiv (fsub fzero (torch_mean zeros)) (torch_std zeros)) (train_img s).
Proof.
  intros s zeros Hout Hfin.
  assert (tsub (dip_net (eval (model s)) (model_input s)) (train_img s) = Ok zeros) as Hz.
  { rewrite Hout. unfold tsub. rewrite tbinop_diag. f_equal.
    apply tmap_ext_in. intros v Hv. rewrite Forall_forall in Hfin. by apply Hfin. }
  split; [exact Hz|]. split.
  - rewrite generate_noise_run. fold s. rewrite Hz. reflexivity.
  - rewrite normalize_norm_dist_pointwise. unfold zeros at 3. by rewrite tmap_tmap.
Qed.

Lemma train_iteration_inv (pe se : Z) (w1 w2 : world) (r : result unit) :
  train_iteration pe se w1 = (r, w2) ->
  model_input (self w2) = model_input (self w1) /\
  train_img (self w2) = train_img (self w1) /\
  (forall u, r = Ok u ->
     step (self w2) = step (self w1) + 1 /\
     exists loss,
       mse_loss_ad (dip_net_ad (fresh_grads (model (self w1))) (model_input (self w1)))
                   (train_img (self w1)) = Ok loss /\
       opt_step (opt (self w1)) (tensors (model (self w1))) (backward loss ∅) =
         (opt (self w2), tensors (model (self w2)))).
Proof.
  destruct w1 as [[m d ti rf sz o mi st] files].
  unfold train_iteration, bind, update, modify, gets, lift, save_image, predict, save,
    write, bind, update, modify, gets, ret. cbn.
  destruct (mse_loss_ad _ ti) as [loss|e] eqn:Hloss; cbn.
  2:{ intros [= <- <-]. cbn. repeat split; intros; discriminate. }
  destruct (opt_step o (tensors m) (backward loss ∅)) as [o' ts'] eqn:Hopt; cbn.
  destruct (py_mod (st + 1) pe) as [r1|e]; cbn.
  2:{ intros [= <- <-]. cbn. repeat split; intros; discriminate. }
  destruct (r1 =? 0); cbn.
  all: destruct (py_mod (st + 1) se) as [r2|e]; cbn;
    [|intros [= <- <-]; cbn; repeat split; intros; discriminate].
  all: destruct (r2 =? 0); cbn.
  all: try (destruct (py_floordiv (st + 1) se) as [q|e]; cbn;
    [|intros [= <- <-]; cbn; repeat split; intros; discriminate]).
  all: intros [= <- <-]; cbn; repeat split; intros; try reflexivity;
    exists loss; split; [reflexivity|exact Hopt].
Qed.

Lemma train_iteration_counts (pe se : Z) (w : world) (u : unit) (w' : world) :
  train_iteration pe se w = (Ok u, w') -> step (self w') = step (self w) + 1.
Proof.
  intros Hrun. destruct (train_iteration_inv _ _ _ _ _ Hrun) as (_ & _ & Hok).
  by destruct (Hok u eq_refl).
Qed.

Lemma train_iteration_ok (pe se : Z) (w : world) :
  pe <> 0 -> se <> 0 ->
  (exists loss,
     mse_loss_ad (dip_net_ad (fresh_grads (model (self w))) (model_input (self w)))
                 (train_img (self w)) = Ok loss) ->
  exists w', train_iteration pe se w = (Ok tt, w').
Proof.
  intros Hpe Hse [loss Hloss].
  destruct w as [[m d ti rf sz o mi st] files]. cbn in Hloss. unfold fresh_grads in Hloss.
  unfold train_iteration, bind, update, modify, gets, lift, save_image, predict, save,
    write, bind, update, modify, gets, ret, py_mod, py_floordiv. cbn.
  rewrite Hloss. cbn.
  destruct (opt_step o (tensors m) (backward loss ∅)) as [o' ts']. cbn.
  apply Z.eqb_neq in Hpe, Hse. rewrite Hpe, Hse. cbn.
  destruct ((st + 1) mod pe =? 0); cbn; rewrite ?Hse; cbn;
    destruct ((st + 1) mod se =? 0); cbn; rewrite ?Hse; cbn; eauto.
Qed.

Lemma repeat_train_iteration_ok (pe se : Z) (k : nat) (w : world) :
  pe <> 0 -> se <> 0 ->
  (forall m, exists loss,
     mse_loss_ad (dip_net_ad m (model_input (self w))) (train_img (self w)) = Ok loss) ->
  exists w', repeatM k (train_iteration pe se) w = (Ok tt, w').
Proof.
  intros Hpe Hse. revert w. induction k as [|k IH]; intros w Hfit.
  - by exists w.
  - cbn [repeatM]. unfold bind.
    destruct (train_iteration_ok pe se w Hpe Hse (Hfit _)) as [w1 H1]. rewrite H1.
    apply IH. destruct (train_iteration_inv _ _ _ _ _ H1) as (-> & -> & _). exact Hfit.
Qed.

(** C6, amended: [train(n)] repeats the loop body while the step counter
    is below [n]. From counter [s] that is [max 0 (n - s)] iterations
    (given that much fuel the loop ends, with the outcome of that many
    repetitions); a run that does not raise ends with the counter at
    [max s n]; each iteration that does not raise adds 1 to the counter
    and applies one optimizer step to the gradient of the loss of one
    forward pass on the fixed input against the target; with nonzero
    periods and a network whose output fits the target, [train] returns
    [None]. *)
Theorem dip_train_runs_up_to_total (w : world) (n pe se : Z) (fuel : nat) :
  (Z.to_nat (n - step (self w)) < fuel)%nat ->
  let k := Z.to_nat (n - step (self w)) in
  train fuel n pe se w = Some (repeatM k (train_iteration pe se) w) /\
  (forall u w', repeatM k (train_iteration pe se) w = (Ok u, w') ->
     step (self w') = Z.max (step (self w)) n) /\
  (forall w1 w2 u, train_iteration pe se w1 = (Ok u, w2) ->
     step (self w2) = step (self w1) + 1 /\
     exists loss,
       mse_loss_ad (dip_net_ad (fresh_grads (model (self w1))) (model_input (self w1)))
                   (train_img (self w1)) = Ok loss /\
       opt_step (opt (self w1)) (tensors (model (self w1))) (backward loss ∅) =
         (opt (self w2), tensors (model (self w2)))) /\
  (pe <> 0 -> se <> 0 ->
   (forall m, exists loss,
      mse_loss_ad (dip_net_ad m (model_input (self w))) (train_img (self w)) = Ok loss) ->
   exists w', train fuel n pe se w = Some (Ok tt, w') /\
              step (self w') = Z.max (step (self w)) n).
Proof.
  intros Hfuel k.
  assert (train fuel n pe se w = Some (repeatM k (train_iteration pe se) w)) as Hrun.
  { unfold train.
    apply (while_counts_up (fun w => step (self w)) (train_iteration pe se)
             (train_iteration_counts pe se) n fuel w Hfuel). }
  assert (forall u w', repeatM k (train_iteration pe se) w = (Ok u, w') ->
            step (self w') = Z.max (step (self w)) n) as Hend.
  { intros u w' Hk.
    apply (repeatM_counter (fun w => step (self w)) (train_iteration pe se)
             (train_iteration_counts pe se)) in Hk. subst k. lia. }
  split; [exact Hrun|]. split; [exact Hend|]. split.
  - intros w1 w2 u Hit.
    destruct (train_iteration_inv _ _ _ _ _ Hit) as (_ & _ & Hok). by apply (Hok u).
  - intros Hpe Hse Hfit.
    destruct (repeat_train_iteration_ok pe se k w Hpe Hse Hfit) as [w' Hk].
    exists w'. rewrite Hrun, Hk. split; [reflexivity|]. by apply (Hend tt).
Qed.
End DIPTrainerProperties.

Lemma dip_train_runs_up_to_total_witness :
  DIPTrainer.outcome (DIPTrainer.train 5 4 2 2 (Concrete.dip_world 0)) = Some (Ok tt, 4, 4).
Proof.
  destruct (dip_train_runs_up_to_total (Concrete.dip_world 0) 4 2 2 5 ltac:(vm_compute; lia))
    as (Hrun & _ & _ & _).
  rewrite Hrun. vm_compute. reflexivity.
Defined.

(** C6 as stated fails: from step counter 5, [train(10)] makes five
    optimizer steps, not ten, and leaves the counter at 10, not 15 (the
    optimizer state of the concrete instance counts its steps). *)
Lemma dip_train_counts_to_a_total :
  DIPTrainer.outcome (DIPTrainer.train 20 10 10000 10000 (Concrete.dip_world 5)) =
    Some (Ok tt, 10, 5) /\
  10 <> 5 + 10.
Proof. split; [vm_compute; reflexivity|lia]. Qed.

(** ** [Trainer] *)

Section TrainerProperties.
Context {F : Type} `{Scalar F} `{TL : Torch F} `{OP : Optimizer F} `{!Autograd F}
        `{!DataLoader F} `{!Evaluation F}.
Import Trainer.

Lemma save_and_sample_due_iff (s : t) :
  save_and_sample_every s <> 0 ->
  exists b, save_and_sample_due s = Ok b /\
            (b = true <-> step s <> 0 /\ (save_and_sample_every s | step s)).
Proof.
  intros Hne. unfold save_and_sample_due, divisible_by, py_mod.
  apply Z.eqb_neq in Hne as Hne'. rewrite Hne'. cbn.
  destruct (step s =? 0) eqn:Hs; cbn.
  - exists false. split; [reflexivity|]. apply Z.eqb_eq in Hs. split; [done|]. tauto.
  - eexists. split; [reflexivity|]. apply Z.eqb_neq in Hs.
    rewrite Z.eqb_eq, Z.mod_divide by done. tauto.
Qed.

Lemma sample_and_save_raises (w : world) :
  exists e, sample_and_save w = (Raise e, after_eval w) /\
    (save_and_sample_every (self w) <> 0 -> 1 <= batch_size (self w) ->
     1 <= num_samples (self w) ->
     e = AttributeError "'Trainer' object has no attribute 'ema'").
Proof.
  destruct w as [s files g].
  unfold sample_and_save, after_eval, bind, update, modify, gets, lift. cbn.
  destruct (py_floordiv (step s) (save_and_sample_every s)) as [q|e] eqn:Hq; cbn.
  2:{ eexists. split; [reflexivity|]. intros Hne. unfold py_floordiv in Hq.
      apply Z.eqb_neq in Hne. rewrite Hne in Hq. discriminate. }
  destruct (num_to_groups (num_samples s) (batch_size s)) as [batches|e] eqn:Hb; cbn.
  2:{ eexists. split; [reflexivity|]. intros _ Hbs _.
      rewrite num_to_groups_eq in Hb by lia. discriminate. }
  destruct batches as [|n batches]; cbn.
  - eexists. split; [reflexivity|]. intros _ Hbs Hns.
    apply num_to_groups_sum in Hb; [|lia..]. cbn in Hb. lia.
  - eexists. split; [reflexivity|]. done.
Qed.

Lemma accumulate_frame (g : option F) (w : world) :
  accumulate (with_max_grad_norm g w) =
    (fst (accumulate w), with_max_grad_norm g (snd (accumulate w))).
Proof.
  destruct w as [s files r].
  unfold accumulate, bind, gets, update, modify, call_model, with_max_grad_norm. cbn.
  destruct (cycle_next (dl s)) as [[data noise] dl']. cbn.
  destruct (diffusion_call (model s) data (Some noise) r) as [[loss|e] r']; reflexivity.
Qed.

Lemma repeat_accumulate_frame (g : option F) (k : nat) (w : world) :
  repeatM k accumulate (with_max_grad_norm g w) =
    (fst (repeatM k accumulate w), with_max_grad_norm g (snd (repeatM k accumulate w))).
Proof.
  revert w. induction k as [|k IH]; intros w; [reflexivity|].
  cbn [repeatM]. unfold bind. rewrite accumulate_frame.
  destruct (accumulate w) as [[u|e] w1]; cbn [fst snd]; [apply IH|reflexivity].
Qed.

Lemma optimise_run (w : world) :
  optimise w =
    match repeatM (Z.to_nat (gradient_accumulate_every (self w))) accumulate w with
    | (Ok _, w') => apply_gradients w'
    | (Raise e, w') => (Raise e, w')
    end.
Proof. reflexivity. Qed.

Lemma optimise_frame (g : option F) (w : world) :
  optimise (with_max_grad_norm g w) =
    (fst (optimise w), with_max_grad_norm g (snd (optimise w))).
Proof.
  rewrite !optimise_run.
  replace (gradient_accumulate_every (self (with_max_grad_norm g w)))
    with (gradient_accumulate_every (self w)) by reflexivity.
  rewrite repeat_accumulate_frame.
  destruct (repeatM _ accumulate w) as [[u|e] w1]; cbn [fst snd]; [|reflexivity].
  destruct w1 as [s files r].
  unfold apply_gradients, bind, update, modify, with_max_grad_norm. cbn.
  destruct (opt_step (opt s) (tensors (model s)) (grads (model s))); reflexivity.
Qed.

Lemma sample_and_save_frame (g : option F) (w : world) :
  sample_and_save (with_max_grad_norm g w) =
    (fst (sample_and_save w), with_max_grad_norm g (snd (sample_and_save w))).
Proof.
  destruct w as [s files r].
  unfold sample_and_save, bind, update, modify, gets, lift, with_max_grad_norm. cbn.
  destruct (py_floordiv (step s) (save_and_sample_every s)) as [q|e']; cbn; [|reflexivity].
  destruct (num_to_groups (num_samples s) (batch_size s)) as [[|n batches]|e']; reflexivity.
Qed.

Lemma train_iteration_frame (g : option F) (w : world) :
  train_iteration (with_max_grad_norm g w) =
    (fst (train_iteration w), with_max_grad_norm g (snd (train_iteration w))).
Proof.
  unfold train_iteration, bind. rewrite optimise_frame.
  destruct (optimise w) as [[u|e] w1]; cbn [fst snd]; [|reflexivity].
  unfold gets, lift.
  replace (save_and_sample_due (self (with_max_grad_norm g w1)))
    with (save_and_sample_due (self w1)) by reflexivity.
  destruct (save_and_sample_due (self w1)) as [[|]|e]; [|reflexivity..].
  apply sample_and_save_frame.
Qed.



End TrainerProperties.

(** *** No file is written *)

Section TrainerFiles.
Context {F : Type} `{Scalar F} `{TL : Torch F} `{OP : Optimizer F} `{!Autograd F}
        `{!DataLoader F} `{!Evaluation F}.
Import Trainer.

Lemma accumulate_fs (w : world) : fs (snd (accumulate w)) = fs w.
Proof.
  destruct w as [s files r].
  unfold accumulate, bind, gets, update, modify, call_model. cbn.
  destruct (cycle_next (dl s)) as [[data noise] dl']. cbn.
  destruct (diffusion_call (model s) data (Some noise) r) as [[loss|e] r']; reflexivity.
Qed.

Lemma repeat_accumulate_fs (k : nat) (w : world) :
  fs (snd (repeatM k accumulate w)) = fs w.
Proof.
  revert w. induction k as [|k IH]; intros w; [reflexivity|].
  cbn [repeatM]. unfold bind.
  pose proof (accumulate_fs w) as Hacc.
  destruct (accumulate w) as [[u|e] w1]; cbn [snd] in *; [by rewrite IH|done].
Qed.

Lemma optimise_fs (w : world) : fs (snd (optimise w)) = fs w.
Proof.
  rewrite optimise_run.
  pose proof (repeat_accumulate_fs (Z.to_nat (gradient_accumulate_every (self w))) w) as Hloop.
  destruct (repeatM _ accumulate w) as [[u|e] w1]; cbn [snd] in *; [|done].
  rewrite <- Hloop. destruct w1 as [s files r].
  unfold apply_gradients, bind, update, modify. cbn.
  destruct (opt_step (opt s) (tensors (model s)) (grads (model s))); reflexivity.
Qed.

(** An outer iteration writes no file. *)
Lemma train_iteration_fs (w : world) : fs (snd (train_iteration w)) = fs w.
Proof.
  unfold train_iteration, bind.
  pose proof (optimise_fs w) as Hopt.
  destruct (optimise w) as [[u|e] w1]; cbn [snd] in *; [|done].
  rewrite <- Hopt. unfold gets, lift.
  destruct (save_and_sample_due (self w1)) as [[|]|e]; [|reflexivity..].
  by destruct (sample_and_save_raises w1) as (e & -> & _).
Qed.

Lemma train_fs (fuel : nat) (w w' : world) (r : result unit) :
  train fuel w = Some (r, w') -> fs w' = fs w.
Proof.
  unfold train. revert w. induction fuel as [|fuel IH]; intros w; [discriminate|].
  cbn [while]. destruct (step (self w) <? train_num_steps (self w)).
  - pose proof (train_iteration_fs w) as Hit.
    destruct (train_iteration w) as [[u|e] w1]; cbn [snd] in Hit.
    + intros Hrun. apply IH in Hrun. congruence.
    + intros [= _ <-]. exact Hit.
  - by intros [= _ <-].
Qed.
End TrainerFiles.

(** *** The periodic block *)

Section TrainerPeriodic.
Context {F : Type} `{Scalar F} `{TL : Torch F} `{OP : Optimizer F} `{!Autograd F}
        `{!DataLoader F} `{!Evaluation F}.
Import Trainer.

(** C7: the condition of the periodic block is as stated, its actions are
    not taken. After the optimizer part of an outer iteration has left the
    step counter at [step], the condition holds exactly when [step] is
    nonzero and a multiple of [save_and_sample_every] (with an interval of
    1000: at 1000, 2000, ...). When it does not hold the iteration ends
    there. When it holds, the block is entered, computes the milestone
    [step // save_and_sample_every] and raises before it samples, saves
    or evaluates: the iteration ends in an exception (the
    [AttributeError] of reading [self.ema] for a positive batch size and
    number of samples) with the model in evaluation mode and nothing else
    changed, no file written and no random number drawn. No iteration
    writes a file. *)
Theorem periodic_actions_never_fire (w0 w : world) (u : unit) :
  optimise w0 = (Ok u, w) ->
  let s := self w in
  let every := save_and_sample_every s in
  every <> 0 ->
  (exists b, save_and_sample_due s = Ok b /\
             (b = true <-> step s <> 0 /\ (every | step s))) /\
  (every = 1000 -> 0 <= step s ->
     (save_and_sample_due s = Ok true <-> exists k, 1 <= k /\ step s = 1000 * k)) /\
  (~ (step s <> 0 /\ (every | step s)) -> train_iteration w0 = (Ok tt, w)) /\
  (step s <> 0 /\ (every | step s) ->
     py_floordiv (step s) every = Ok (step s / every) /\
     exists e w',
       train_iteration w0 = (Raise e, w') /\
       self w' = set_model (eval (model s)) s /\
       fs w' = fs w /\ rng w' = rng w /\
       (1 <= batch_size s -> 1 <= num_samples s ->
        e = AttributeError "'Trainer' object has no attribute 'ema'")) /\
  (forall r w', train_iteration w0 = (r, w') -> fs w' = fs w0).
Proof.
  intros Hopt s every Hne.
  destruct (save_and_sample_due_iff s Hne) as (b & Hb & Hiff). fold every in Hiff.
  split; [by exists b|]. split; [|split; [|split]].
  - intros Hevery Hpos. rewrite Hb. split.
    + intros [= ->]. destruct Hiff as [Hiff _]. destruct (Hiff eq_refl) as [Hs [k Hk]].
      exists k. lia.
    + intros (k & Hk1 & Hk). f_equal. apply Hiff. split; [lia|]. exists k. lia.
  - intros Hnot. unfold train_iteration, bind. rewrite Hopt.
    unfold gets, lift. fold s. rewrite Hb.
    destruct b; [|reflexivity]. destruct Hnot. by apply Hiff.
  - intros Hdue. split.
    + unfold py_floordiv. by rewrite (proj2 (Z.eqb_neq _ _) Hne).
    + destruct (sample_and_save_raises w) as (e & Hraise & He).
      exists e, (after_eval w). split; [|split; [|split; [|split]]]; try reflexivity.
      * unfold train_iteration, bind. rewrite Hopt. unfold gets, lift. fold s. rewrite Hb.
        apply Hiff in Hdue as ->. exact Hraise.
      * intros Hbs Hns. by apply He.
  - intros r w' Hrun. pose proof (train_iteration_fs w0) as Hfs.
    rewrite Hrun in Hfs. exact Hfs.
Qed.
End TrainerPeriodic.

(** ** Checkpoints *)

Section Dicts.
Context {V : Type}.
Lemma dict3_lookup (k1 k2 k3 : string) (v1 v2 v3 : V) :
  k1 <> k2 -> k1 <> k3 -> k2 <> k3 ->
  let d : gmap string V := {[ k1 := v1; k2 := v2; k3 := v3 ]} in
  d !! k1 = Some v1 /\ d !! k2 = Some v2 /\ d !! k3 = Some v3.
Proof.
  intros H12 H13 H23 d. unfold d. repeat split.
  - apply lookup_insert_eq.
  - rewrite lookup_insert_ne by done. apply lookup_insert_eq.
  - rewrite !lookup_insert_ne by done. apply lookup_singleton_eq.
Qed.
End Dicts.

Lemma load_state_dict_same_names {F} (m : Module F) (sd : gmap string (list F)) :
  dom sd = dom (tensors m) -> same_sizes sd (tensors m) = true ->
  load_state_dict m sd = Ok (set_tensors sd m).
Proof.
  intros Hdom Hsz. unfold load_state_dict. rewrite Hsz, bool_decide_eq_true_2 by done.
  reflexivity.
Qed.

Section TrainerRoundTrip.
Context {F : Type} `{Scalar F} `{TL : Torch F} `{OP : Optimizer F} `{!Autograd F}
        `{!DataLoader F} `{!Evaluation F}.
Import Trainer.

Lemma trainer_save_load (w w2 : world) (m : milestone) :
  fs w2 = fs (snd (save m w)) ->
  results_folder (self w2) = results_folder (self w) ->
  dom (tensors (model (self w))) = dom (tensors (model (self w2))) ->
  same_sizes (tensors (model (self w))) (tensors (model (self w2))) = true ->
  opt_compatible (opt (self w2)) (opt (self w)) = true ->
  fst (save m w) = Ok tt /\
  exists w3, load m w2 = (Ok tt, w3) /\
    step (self w3) = step (self w) /\
    state_dict (model (self w3)) = state_dict (model (self w)) /\
    opt (self w3) = opt (self w) /\
    fs w3 = fs w2.
Proof.
  intros Hfs Hfolder Hdom Hsz Hcompat. split; [reflexivity|].
  destruct w2 as [s2 files2 r2]. cbn in *.
  unfold load, bind, gets, lift, update, modify, torch_load_dict, getitem. cbn.
  rewrite Hfs, Hfolder. unfold save, bind, gets, write, modify. cbn.
  rewrite lookup_insert_eq. cbn.
  destruct (dict3_lookup "step" "model" "opt"
              (PyInt (step (self w)) : pyval F OptState)
              (PyStateDict (state_dict (model (self w))))
              (PyOptState (opt (self w)))) as (Hstep & Hmodel & Hopt); [done..|].
  rewrite Hmodel. cbn.
  rewrite load_state_dict_same_names by done. cbn.
  rewrite Hstep. cbn. rewrite Hopt. cbn.
  unfold opt_load_state_dict. rewrite Hcompat. cbn.
  eexists. split; [reflexivity|]. cbn. done.
Qed.
End TrainerRoundTrip.

Section DIPRoundTrip.
Context {F : Type} `{Scalar F} `{TL : Torch F} `{!DeepImagePrior F}
        `{OP : Optimizer F} `{!Autograd F}.
Import DIPTrainer.

Lemma dip_save_load (w w2 : world) (m : milestone) :
  fs w2 = fs (snd (save m w)) ->
  result_folder (self w2) = result_folder (self w) ->
  dom (tensors (model (self w))) = dom (tensors (model (self w2))) ->
  same_sizes (tensors (model (self w))) (tensors (model (self w2))) = true ->
  fst (save m w) = Ok tt /\
  exists w3, load m w2 = (Ok tt, w3) /\
    step (self w3) = step (self w) /\
    state_dict (model (self w3)) = state_dict (model (self w)) /\
    model_input (self w3) = model_input (self w) /\
    fs w3 = fs w2.
Proof.
  intros Hfs Hfolder Hdom Hsz. split; [reflexivity|].
  destruct w2 as [s2 files2]. cbn in *.
  unfold load, bind, gets, lift, update, modify, torch_load_dict, getitem. cbn.
  rewrite Hfs, Hfolder. unfold save, bind, gets, write, modify. cbn.
  rewrite lookup_insert_eq. cbn.
  destruct (dict3_lookup "step" "model" "model_input"
              (PyInt (step (self w)) : pyval F OptState)
              (PyStateDict (state_dict (model (self w))))
              (PyTensor (model_input (self w)))) as (Hstep & Hmodel & Hinput); [done..|].
  rewrite Hstep. cbn. rewrite Hmodel. cbn.
  rewrite load_state_dict_same_names by done. cbn.
  rewrite Hinput. cbn.
  eexists. split; [reflexivity|]. cbn. done.
Qed.
End DIPRoundTrip.

(** ** The weighted loss, position by position *)

Lemma broadcast2_Forall2 {A B C} (R : A -> B -> Prop) (f : A -> B -> result C)
    (g : A -> B -> C) (la : list A) (lb : list B) :
  Forall2 R la lb -> (forall a b, R a b -> f a b = Ok (g a b)) ->
  broadcast2 f la lb = Ok (zip_with g la lb).
Proof.
  intros HR Hf. unfold broadcast2.
  rewrite (Forall2_length _ _ _ HR), Nat.eqb_refl.
  induction HR as [|a b la lb Hab HR IH]; [reflexivity|].
  cbn. rewrite (Hf a b Hab). cbn. rewrite IH. reflexivity.
Qed.


Section WeightedLoss.
Context {F : Type} `{Scalar F} `{TL : Torch F} `{!DeepImagePrior F}
        `{!GaussianDiffusionMethods F}.
Import Diffusion.

Lemma tbinop_same_shape (f : F -> F -> F) (x y : Tensor4 F) :
  same_shape x y ->
  tbinop f x y = Ok (zip_with (zip_with (zip_with (zip_with f))) x y).
Proof.
  intros Hxy. unfold tbinop.
  eapply broadcast2_Forall2; [exact Hxy|]. intros s s' Hs.
  eapply broadcast2_Forall2; [exact Hs|]. intros r r' Hr.
  eapply broadcast2_Forall2; [exact Hr|]. intros w w' Hw.
  eapply (broadcast2_Forall2 (fun _ _ => True)); [|done].
  revert w' Hw. induction w as [|a w IH]; intros [|b w'] Hw; try discriminate; constructor.
  - done.
  - apply IH. by injection Hw.
Qed.


End WeightedLoss.

(** ** The noise of a trained prior network *)

Section ShapeProperties.
Context {F : Type} `{Scalar F}.

Lemma length_concat_uniform {A} (l : list (list A)) (n : nat) :
  Forall (fun x => length x = n) l -> length (concat l) = (length l * n)%nat.
Proof.
  induction 1 as [|x l Hx _ IH]; [reflexivity|].
  cbn. rewrite length_app, IH, Hx. reflexivity.
Qed.

Lemma Forall_concat {A} (P : A -> Prop) (l : list (list A)) :
  Forall (Forall P) l -> Forall P (concat l).
Proof. induction 1; cbn; [constructor|]. by apply Forall_app. Qed.

Lemma has_shape_length (x : Tensor4 F) (b c h w : Z) :
  has_shape x (b, c, h, w) -> Z.of_nat (length (flatten4 x)) = b * c * h * w.
Proof.
  intros [Hb Hx]. unfold flatten4.
  rewrite (length_concat_uniform _ (Z.to_nat w)).
  2:{ apply Forall_concat, Forall_concat.
      eapply Forall_impl; [exact Hx|]. intros s [_ Hs]. cbn beta.
      eapply Forall_impl; [exact Hs|]. intros r [_ Hr]. cbn beta.
      eapply Forall_impl; [exact Hr|]. intros v Hv. cbn beta in *. lia. }
  rewrite (length_concat_uniform _ (Z.to_nat h)).
  2:{ apply Forall_concat.
      eapply Forall_impl; [exact Hx|]. intros s [_ Hs]. cbn beta.
      eapply Forall_impl; [exact Hs|]. intros r [Hr _]. cbn beta in *. lia. }
  rewrite (length_concat_uniform _ (Z.to_nat c)).
  2:{ eapply Forall_impl; [exact Hx|]. intros s [Hs _]. cbn beta in *. lia. }
  destruct x as [|s x].
  - cbn in *. lia.
  - apply Forall_cons in Hx as [[Hc Hs] _].
    destruct s as [|r s].
    + cbn in Hc. subst c. cbn [length] in *. nia.
    + apply Forall_cons in Hs as [[Hh Hr] _].
      destruct r as [|v r].
      * cbn in Hh. subst h. nia.
      * apply Forall_cons in Hr as [Hw _].
        rewrite !Nat2Z.inj_mul, !Z2Nat.id by lia. lia.
Qed.

Lemma lookup_concat_uniform {A} (l : list (list A)) (n i j : nat) :
  Forall (fun x => length x = n) l -> (j < n)%nat ->
  concat l !! (i * n + j)%nat = x ← l !! i; x !! j.
Proof.
  intros Hl Hj. revert i. induction Hl as [|x l Hx _ IH]; intros i; [reflexivity|].
  cbn [concat]. destruct i as [|i].
  - cbn. rewrite lookup_app_l by lia. reflexivity.
  - rewrite lookup_app_r by (rewrite Hx; cbn; lia).
    replace (S i * n + j - length x)%nat with (i * n + j)%nat by (rewrite Hx; cbn; lia).
    apply IH.
Qed.

Lemma flatten4_lookup (x : Tensor4 F) (b c h w : Z) (bi ci i j : nat) :
  has_shape x (b, c, h, w) ->
  (ci < Z.to_nat c)%nat -> (i < Z.to_nat h)%nat -> (j < Z.to_nat w)%nat ->
  flatten4 x !! (((bi * Z.to_nat c + ci) * Z.to_nat h + i) * Z.to_nat w + j)%nat =
    tget x bi ci i j.
Proof.
  intros [Hb Hx] Hci Hi Hj. unfold flatten4, tget.
  rewrite (lookup_concat_uniform _ (Z.to_nat w)); [|
    |exact Hj].
  2:{ apply Forall_concat, Forall_concat.
      eapply Forall_impl; [exact Hx|]. intros s [_ Hs]. cbn beta.
      eapply Forall_impl; [exact Hs|]. intros r [_ Hr]. cbn beta.
      eapply Forall_impl; [exact Hr|]. intros v Hv. cbn beta in *. lia. }
  rewrite (lookup_concat_uniform _ (Z.to_nat h)); [|
    |exact Hi].
  2:{ apply Forall_concat.
      eapply Forall_impl; [exact Hx|]. intros s [_ Hs]. cbn beta.
      eapply Forall_impl; [exact Hs|]. intros r [Hr _]. cbn beta in *. lia. }
  rewrite (lookup_concat_uniform _ (Z.to_nat c)); [|
    |exact Hci].
  2:{ eapply Forall_impl; [exact Hx|]. intros s [Hs _]. cbn beta in *. lia. }
  destruct (x !! bi) as [s|]; [|reflexivity]. cbn.
  destruct (s !! ci) as [r|]; [|reflexivity]. cbn.
  destruct (r !! i) as [v|]; reflexivity.
Qed.

Lemma Forall_same_length_Forall2 {A B} (P : A -> Prop) (Q : B -> Prop) (R : A -> B -> Prop)
    (l : list A) (k : list B) :
  length l = length k -> Forall P l -> Forall Q k ->
  (forall a b, P a -> Q b -> R a b) -> Forall2 R l k.
Proof.
  intros Hlen Hl Hk HR. apply Forall2_same_length_lookup_2; [done|].
  intros i a b Ha Hb'. apply HR.
  - exact (Forall_lookup_1 _ _ _ _ Hl Ha).
  - exact (Forall_lookup_1 _ _ _ _ Hk Hb').
Qed.

Lemma has_shape_same_shape (x y : Tensor4 F) (shape : Z * Z * Z * Z) :
  has_shape x shape -> has_shape y shape -> Diffusion.same_shape x y.
Proof.
  destruct shape as [[[b c] h] w]. intros [Hb Hx] [Hb' Hy]. unfold Diffusion.same_shape.
  eapply Forall_same_length_Forall2; [lia|exact Hx|exact Hy|].
  intros s s' [Hc Hs] [Hc' Hs']. cbn beta.
  eapply Forall_same_length_Forall2; [lia|exact Hs|exact Hs'|].
  intros r r' [Hh Hr] [Hh' Hr']. cbn beta.
  eapply Forall_same_length_Forall2; [lia|exact Hr|exact Hr'|].
  intros v v' Hv Hv'. cbn beta in *. lia.
Qed.

Lemma tget_zip_with (f : F -> F -> F) (x y : Tensor4 F) (b c i j : nat) :
  tget (zip_with (zip_with (zip_with (zip_with f))) x y) b c i j =
    o ← tget x b c i j; t ← tget y b c i j; Some (f o t).
Proof.
  unfold tget. rewrite lookup_zip_with.
  destruct (x !! b) as [s|]; [|reflexivity]. cbn.
  destruct (y !! b) as [s'|]; cbn.
  2:{ destruct (s !! c) as [r|]; [|reflexivity]. cbn.
      destruct (r !! i) as [v|]; [|reflexivity]. cbn.
      by destruct (v !! j). }
  rewrite lookup_zip_with.
  destruct (s !! c) as [r|]; [|reflexivity]. cbn.
  destruct (s' !! c) as [r'|]; cbn.
  2:{ destruct (r !! i) as [v|]; [|reflexivity]. cbn. by destruct (v !! j). }
  rewrite lookup_zip_with.
  destruct (r !! i) as [v|]; [|reflexivity]. cbn.
  destruct (r' !! i) as [v'|]; cbn.
  2:{ by destruct (v !! j). }
  rewrite lookup_zip_with.
  destruct (v !! j) as [o|]; [|reflexivity]. cbn.
  by destruct (v' !! j).
Qed.

Lemma has_shape_zip_with (f : F -> F -> F) (x y : Tensor4 F) (shape : Z * Z * Z * Z) :
  has_shape x shape -> has_shape y shape ->
  has_shape (zip_with (zip_with (zip_with (zip_with f))) x y) shape.
Proof.
  destruct shape as [[[b c] h] w]. intros [Hb Hx] [Hb' Hy]. split.
  - rewrite length_zip_with. lia.
  - apply Forall_lookup_2. intros k s0 Hk.
    apply lookup_zip_with_Some in Hk as (s & s' & -> & Hs & Hs').
    apply (Forall_lookup_1 _ _ _ _ Hx) in Hs as [Hc Hs].
    apply (Forall_lookup_1 _ _ _ _ Hy) in Hs' as [Hc' Hs'].
    split; [rewrite length_zip_with; lia|].
    apply Forall_lookup_2. intros k1 r0 Hk1.
    apply lookup_zip_with_Some in Hk1 as (r & r' & -> & Hr & Hr').
    apply (Forall_lookup_1 _ _ _ _ Hs) in Hr as [Hh Hr].
    apply (Forall_lookup_1 _ _ _ _ Hs') in Hr' as [Hh' Hr'].
    split; [rewrite length_zip_with; lia|].
    apply Forall_lookup_2. intros k2 v0 Hk2.
    apply lookup_zip_with_Some in Hk2 as (v & v' & -> & Hv & Hv').
    apply (Forall_lookup_1 _ _ _ _ Hr) in Hv.
    apply (Forall_lookup_1 _ _ _ _ Hr') in Hv'.
    cbn beta in *. rewrite length_zip_with. lia.
Qed.
End ShapeProperties.

Section GlobalNormalisation.
Context {F : Type} `{Scalar F} `{TL : Torch F} `{!DeepImagePrior F}
        `{OP : Optimizer F} `{!Autograd F}.
Import DIPTrainer.

(** C4: when [predict] returns [out] (the forward pass of the network, in
    evaluation mode, on the fixed input), what [generate_noise] returns is
    the global normalisation of the difference between [out] and the
    target: with [mean] the sum of all entries of the difference over
    their number [n], and [std] the square root of the sum of the squared
    deviations from [mean] over [n - 1], the entry [v] at each position
    becomes [(v - mean) / std]; the entries are those of every batch,
    channel and spatial position, the sums taken over the flattened
    tensor. For an output and a target of one shape [(b, c, h, w)],
    [generate_noise] returns, the difference holds [out - target]
    position by position, and the flattened tensor is the [b * c * h * w]
    entries of all positions in row-major order. *)
Theorem generate_noise_is_global_normalisation (w w1 : world) (out : Tensor4 F) :
  predict w = (Ok out, w1) ->
  let target := train_img (self w) in
  let normalised (diff noise : Tensor4 F) : Prop :=
    let entries := flatten4 diff in
    let n := Z.of_nat (length entries) in
    let mean := fdiv (fold_left fadd entries fzero) (of_Z n) in
    let std :=
      fsqrt (fdiv (fold_left fadd (map (fun v => fmul (fsub v mean) (fsub v mean)) entries)
                             fzero)
                  (of_Z (Z.max 0 (n - 1)))) in
    (forall v, v ∈ entries <-> exists b c i j, tget diff b c i j = Some v) /\
    (forall b c i j,
       tget noise b c i j = (fun v => fdiv (fsub v mean) std) <$> tget diff b c i j) in
  out = dip_net (eval (model (self w))) (model_input (self w)) /\
  w1 = after_predict w /\
  (forall noise w', generate_noise w = (Ok noise, w') ->
     w' = w1 /\ exists diff, tsub out target = Ok diff /\ normalised diff noise) /\
  (forall b c h wd, has_shape out (b, c, h, wd) -> has_shape target (b, c, h, wd) ->
     exists diff noise,
       generate_noise w = (Ok noise, w1) /\
       normalised diff noise /\
       (forall bi ci i j,
          tget diff bi ci i j =
            o ← tget out bi ci i j; t ← tget target bi ci i j; Some (fsub o t)) /\
       Z.of_nat (length (flatten4 diff)) = b * c * h * wd /\
       (forall bi ci i j,
          (ci < Z.to_nat c)%nat -> (i < Z.to_nat h)%nat -> (j < Z.to_nat wd)%nat ->
          flatten4 diff !! (((bi * Z.to_nat c + ci) * Z.to_nat h + i) * Z.to_nat wd + j)%nat =
            tget diff bi ci i j)).
Proof.
  rewrite predict_run. intros [= <- <-]. intros target normalised.
  set (out := dip_net (eval (model (self w))) (model_input (self w))).
  assert (forall diff, normalised diff (normalize_norm_dist diff)) as Hnorm.
  { intros diff. split; [intros v; apply elem_of_flatten4|].
    intros b c i j. rewrite normalize_norm_dist_pointwise, tget_tmap. reflexivity. }
  split; [reflexivity|]. split; [reflexivity|]. split.
  - intros noise w'. rewrite generate_noise_run. fold out target.
    destruct (tsub out target) as [diff|]; [|discriminate]. cbn [rmap].
    intros [= <- <-]. split; [reflexivity|]. exists diff. split; [reflexivity|]. apply Hnorm.
  - intros b c h wd Hout Htarget.
    pose proof (has_shape_same_shape _ _ _ Hout Htarget) as Hsame.
    pose proof (has_shape_zip_with fsub _ _ _ Hout Htarget) as Hdiff.
    exists (zip_with (zip_with (zip_with (zip_with fsub))) out target).
    eexists. rewrite generate_noise_run. fold out target. unfold tsub.
    rewrite (tbinop_same_shape _ _ _ Hsame). cbn [rmap].
    split; [reflexivity|]. split; [apply Hnorm|]. split; [|split].
    + intros. apply tget_zip_with.
    + by apply has_shape_length.
    + intros bi ci i j Hci Hi Hj. by apply (flatten4_lookup _ b c h wd).
Qed.
End GlobalNormalisation.

(** ** [GaussianDiffusionWithDeepImagePrior] *)

Section DiffusionProperties.
Context {F : Type} `{Scalar F} `{TL : Torch F} `{!DeepImagePrior F}
        `{!GaussianDiffusionMethods F}.
Import Diffusion.

Lemma p_sample_steps_imgs (self : t) (ts : list Z) (img : Tensor4 F)
    (x_start : option (Tensor4 F)) (imgs : list (Tensor4 F)) (rng : Rng) :
  exists rest,
    snd (fst (p_sample_steps self ts img x_start imgs rng)) = imgs ++ rest /\
    length rest = length ts.
Proof.
  revert img x_start imgs rng. induction ts as [|t0 ts IH]; intros img x_start imgs rng.
  - exists []. by rewrite app_nil_r.
  - cbn [p_sample_steps].
    destruct (p_sample _ img t0 _ rng) as [[img' xs'] rng'].
    destruct (IH img' (Some xs') (imgs ++ [img']) rng') as (rest & Hrest & Hlen).
    exists (img' :: rest). rewrite Hrest, <- app_assoc. cbn. by rewrite Hlen.
Qed.

Lemma ddim_steps_imgs (self : t) (batch : Z) (pairs : list (Z * Z)) (img : Tensor4 F)
    (x_start : option (Tensor4 F)) (imgs : list (Tensor4 F)) (rng : Rng)
    (img' : Tensor4 F) (imgs' : list (Tensor4 F)) (rng' : Rng) :
  ddim_steps self batch pairs img x_start imgs rng = Ok (img', imgs', rng') ->
  exists rest, imgs' = imgs ++ rest /\ length rest = length pairs.
Proof.
  revert img x_start imgs rng.
  induction pairs as [|[time time_next] pairs IH]; intros img x_start imgs rng Hrun.
  - injection Hrun as _ <- _. exists []. by rewrite app_nil_r.
  - cbn [ddim_steps] in Hrun.
    destruct (torch_full batch time) as [time_cond|]; [|discriminate]. cbn [rbind] in Hrun.
    destruct (model_predictions _ img _ _ true true) as [pred_noise xs].
    destruct (time_next <? 0).
    + apply IH in Hrun as (rest & -> & Hlen).
      exists (xs :: rest). rewrite <- app_assoc. cbn. by rewrite Hlen.
    + destruct (py_index _ time) as [alpha|]; [|discriminate]. cbn [rbind] in Hrun.
      destruct (py_index _ time_next) as [alpha_next|]; [|discriminate]. cbn [rbind] in Hrun.
      destruct (randn_like img rng) as [noise rng1].
      destruct (tadd _ _) as [a|]; [|discriminate]. cbn [rbind] in Hrun.
      destruct (tadd a _) as [img1|]; [|discriminate]. cbn [rbind] in Hrun.
      apply IH in Hrun as (rest & -> & Hlen).
      exists (img1 :: rest). rewrite <- app_assoc. cbn. by rewrite Hlen.
Qed.

Lemma p_sample_steps_last (self : t) (ts : list Z) (img : Tensor4 F)
    (x_start : option (Tensor4 F)) (imgs : list (Tensor4 F)) (rng : Rng) :
  last imgs = Some img ->
  last (snd (fst (p_sample_steps self ts img x_start imgs rng))) =
    Some (fst (fst (p_sample_steps self ts img x_start imgs rng))).
Proof.
  revert img x_start imgs rng. induction ts as [|t0 ts IH]; intros img x_start imgs rng Hlast.
  - exact Hlast.
  - cbn [p_sample_steps].
    destruct (p_sample _ img t0 _ rng) as [[img' xs'] rng'].
    apply IH. by rewrite last_snoc.
Qed.

Lemma ddim_steps_last (self : t) (batch : Z) (pairs : list (Z * Z)) (img : Tensor4 F)
    (x_start : option (Tensor4 F)) (imgs : list (Tensor4 F)) (rng : Rng)
    (img' : Tensor4 F) (imgs' : list (Tensor4 F)) (rng' : Rng) :
  last imgs = Some img ->
  ddim_steps self batch pairs img x_start imgs rng = Ok (img', imgs', rng') ->
  last imgs' = Some img'.
Proof.
  revert img x_start imgs rng.
  induction pairs as [|[time time_next] pairs IH]; intros img x_start imgs rng Hlast Hrun.
  - injection Hrun as <- <- _. exact Hlast.
  - cbn [ddim_steps] in Hrun.
    destruct (torch_full batch time) as [time_cond|]; [|discriminate]. cbn [rbind] in Hrun.
    destruct (model_predictions _ img _ _ true true) as [pred_noise xs].
    destruct (time_next <? 0).
    + eapply IH; [|exact Hrun]. by rewrite last_snoc.
    + destruct (py_index _ time) as [alpha|]; [|discriminate]. cbn [rbind] in Hrun.
      destruct (py_index _ time_next) as [alpha_next|]; [|discriminate]. cbn [rbind] in Hrun.
      destruct (randn_like img rng) as [noise rng1].
      destruct (tadd _ _) as [a|]; [|discriminate]. cbn [rbind] in Hrun.
      destruct (tadd a _) as [img1|]; [|discriminate]. cbn [rbind] in Hrun.
      eapply IH; [|exact Hrun]. by rewrite last_snoc.
Qed.

Lemma rev_py_range_pos (n : Z) :
  0 < n -> rev (py_range n) = (n - 1) :: rev (py_range (n - 1)).
Proof.
  intros Hn. unfold py_range.
  replace (Z.to_nat n) with (S (Z.to_nat (n - 1))) by lia.
  rewrite seq_S, map_app, rev_app_distr. cbn. f_equal. lia.
Qed.

Lemma p_sample_steps_head (self : t) (t0 : Z) (ts : list Z) (xT : Tensor4 F) (rng : Rng) :
  exists rest,
    snd (fst (p_sample_steps self (t0 :: ts) xT None [xT] rng)) =
      xT :: fst (fst (p_sample (super self) xT t0 None rng)) :: rest.
Proof.
  cbn [p_sample_steps].
  replace (if self_condition (super self) then None else None)
    with (@None (Tensor4 F)) by (by destruct (self_condition (super self))).
  destruct (p_sample (super self) xT t0 None rng) as [[img xs] rng1]. cbn [fst].
  destruct (p_sample_steps_imgs self ts img (Some xs) ([xT] ++ [img]) rng1) as (rest & -> & _).
  by exists rest.
Qed.

(** The first step of the loop of [ddim_sample] is the step a loop over
    the first pair alone takes. *)
Lemma ddim_steps_head (self : t) (batch : Z) (pair : Z * Z) (pairs : list (Z * Z))
    (xT img : Tensor4 F) (rest : list (Tensor4 F)) (rng rng' : Rng) :
  ddim_steps self batch (pair :: pairs) xT None [xT] rng = Ok (img, xT :: rest, rng') ->
  exists img1 rng1,
    ddim_steps self batch [pair] xT None [xT] rng = Ok (img1, [xT; img1], rng1) /\
    head rest = Some img1.
Proof.
  destruct pair as [time time_next]. cbn [ddim_steps].
  destruct (torch_full batch time) as [time_cond|]; [|discriminate]. cbn [rbind].
  destruct (model_predictions _ xT _ _ true true) as [pred_noise xs].
  destruct (time_next <? 0).
  - intros Hrun. exists xs, rng. split; [reflexivity|].
    apply ddim_steps_imgs in Hrun as (rest' & Heq & _).
    cbn in Heq. by injection Heq as ->.
  - destruct (py_index _ time) as [alpha|]; [|discriminate]. cbn [rbind].
    destruct (py_index _ time_next) as [alpha_next|]; [|discriminate]. cbn [rbind].
    destruct (randn_like xT rng) as [noise rng1].
    destruct (tadd _ _) as [a|]; [|discriminate]. cbn [rbind].
    destruct (tadd a _) as [img1|]; [|discriminate]. cbn [rbind].
    intros Hrun. exists img1, rng1. split; [reflexivity|].
    apply ddim_steps_imgs in Hrun as (rest' & Heq & _).
    cbn in Heq. by injection Heq as ->.
Qed.

(** C1, amended: whichever the value of [return_all_timesteps], a run of
    either sampler that returns has started the reverse process from
    [x_T]: [normalize_norm_dist] of one forward pass of the prior network
    stored on the object (the one handed to [__init__], the network whose
    raw output [p_losses] takes on a batch of that size) on a freshly
    drawn [get_noise] input of the target spatial size, repeated over the
    batch. The loop of the sampler runs from [x_T], with [x_T] as first
    image of the stack and no predicted clean image; what the sampler
    returns is the un-normalised stack [x_T :: rest] or the un-normalised
    last image, [rest] holding one image per step; the first of them is
    what the first step makes of [x_T]: [p_sample] at the last timestep
    in [p_sample_loop], the step over the first pair of times in
    [ddim_sample]. *)
Theorem samplers_start_from_the_stored_prior (self : t) (shape : Z * Z * Z * Z)
    (return_all_timesteps : bool) (rng : Rng) (ret : samples) (rng' : Rng) :
  let batch := fst (fst (fst shape)) in
  let h := snd (fst shape) in
  let w := snd shape in
  let drawn := get_noise (dip_input_depth self) (h, w) rng in
  let T := num_timesteps (super self) in
  let from_stored_prior (dip_input xT : Tensor4 F) : Prop :=
    expand [fst drawn] batch = Ok dip_input /\
    xT = normalize_norm_dist (dip_net (dip_model self) dip_input) /\
    x_T self shape rng = Ok xT /\
    forall x_start c, tshape x_start = (batch, c, h, w) ->
      prior_output self x_start rng = Ok (dip_net (dip_model self) dip_input) in
  let returned (img : Tensor4 F) (imgs : list (Tensor4 F)) : samples :=
    unnormalize_samples self (if return_all_timesteps then AllTimesteps imgs else Final img) in
  (p_sample_loop self shape return_all_timesteps rng = Ok (ret, rng') ->
   exists dip_input xT img rest,
     from_stored_prior dip_input xT /\
     p_sample_steps self (rev (py_range T)) xT None [xT] (snd drawn) = (img, xT :: rest, rng') /\
     ret = returned img (xT :: rest) /\
     last (xT :: rest) = Some img /\
     length rest = Z.to_nat T /\
     (0 < T ->
      head rest = Some (fst (fst (p_sample (super self) xT (T - 1) None (snd drawn)))))) /\
  (ddim_sample self shape return_all_timesteps rng = Ok (ret, rng') ->
   exists dip_input xT img rest,
     from_stored_prior dip_input xT /\
     ddim_steps self batch (ddim_time_pairs self) xT None [xT] (snd drawn) =
       Ok (img, xT :: rest, rng') /\
     ret = returned img (xT :: rest) /\
     last (xT :: rest) = Some img /\
     length rest = length (ddim_time_pairs self) /\
     (forall pair pairs, ddim_time_pairs self = pair :: pairs ->
      exists img1 rng1,
        ddim_steps self batch [pair] xT None [xT] (snd drawn) = Ok (img1, [xT; img1], rng1) /\
        head rest = Some img1)).
Proof.
  destruct shape as [[[batch c0] h] w]. cbn [fst snd]. split.
  - unfold p_sample_loop, x_T, prior_output.
    destruct (get_noise (dip_input_depth self) (h, w) rng) as [input rng1] eqn:Hdraw.
    cbn [fst snd].
    destruct (expand [input] batch) as [dip_input|] eqn:Hexp; [|discriminate]. cbn [rbind].
    set (xT := normalize_norm_dist (dip_net (dip_model self) dip_input)).
    set (ts := rev (py_range (num_timesteps (super self)))).
    destruct (p_sample_steps_imgs self ts xT None [xT] rng1) as (rest & Hrest & Hlen).
    pose proof (p_sample_steps_last self ts xT None [xT] rng1 eq_refl) as Hlast.
    assert (0 < num_timesteps (super self) ->
            head rest =
              Some (fst (fst (p_sample (super self) xT (num_timesteps (super self) - 1)
                                       None rng1)))) as Hhead.
    { intros HT. subst ts. rewrite (rev_py_range_pos _ HT) in Hrest.
      destruct (p_sample_steps_head self (num_timesteps (super self) - 1)
                  (rev (py_range (num_timesteps (super self) - 1))) xT rng1) as (rest' & Hr).
      rewrite Hr in Hrest. injection Hrest as <-. reflexivity. }
    destruct (p_sample_steps self ts xT None [xT] rng1) as [[img imgs] rng2] eqn:Hsteps.
    cbn [fst snd] in Hrest, Hlast. subst imgs.
    intros [= <- <-].
    exists dip_input, xT, img, rest. repeat split.
    all: try (intros x_start c Hshape; rewrite Hshape, Hdraw; cbn [fst]; by rewrite Hexp).
    + exact Hsteps.
    + by destruct return_all_timesteps.
    + exact Hlast.
    + rewrite Hlen. subst ts. unfold py_range. by rewrite length_rev, length_map, length_seq.
    + exact Hhead.
  - unfold ddim_sample, x_T, prior_output. fold (ddim_time_pairs self).
    destruct (get_noise (dip_input_depth self) (h, w) rng) as [input rng1] eqn:Hdraw.
    cbn [fst snd].
    destruct (expand [input] batch) as [dip_input|] eqn:Hexp; [|discriminate]. cbn [rbind].
    set (xT := normalize_norm_dist (dip_net (dip_model self) dip_input)).
    destruct (ddim_steps _ _ _ xT None [xT] rng1) as [[[img imgs] rng2]|] eqn:Hsteps;
      [|discriminate].
    cbn [rbind]. intros [= <- <-].
    destruct (ddim_steps_imgs _ _ _ _ _ _ _ _ _ _ Hsteps) as (rest & -> & Hlen).
    pose proof (ddim_steps_last self batch _ xT None [xT] rng1 _ _ _ eq_refl Hsteps) as Hlast.
    exists dip_input, xT, img, rest. repeat split.
    all: try (intros x_start c Hshape; rewrite Hshape, Hdraw; cbn [fst]; by rewrite Hexp).
    + exact Hsteps.
    + by destruct return_all_timesteps.
    + exact Hlast.
    + exact Hlen.
    + intros pair pairs Hpairs. rewrite Hpairs in Hsteps.
      by apply (ddim_steps_head _ _ _ _ _ _ _ _ _ Hsteps).
Qed.

End DiffusionProperties.

(** ** The claims on the concrete instance *)

Lemma generate_noise_is_global_normalisation_witness :
  fst (DIPTrainer.generate_noise Concrete.batch_world) =
    Ok [[[[fdiv (Concrete.f32 3) (Concrete.f32 2); fdiv (Concrete.f32 (-3)) (Concrete.f32 2)]];
         [[Concrete.f32 1; Concrete.f32 (-1)]]];
        [[[fdiv (Concrete.f32 1) (Concrete.f32 2); fdiv (Concrete.f32 (-1)) (Concrete.f32 2)]];
         [[Concrete.f32 0; Concrete.f32 0]]]] /\
  normalize_norm_dist [[[[Concrete.f32 2; Concrete.f32 0]]; [[Concrete.f32 1; Concrete.f32 1]]]] <>
    [[[[fdiv (Concrete.f32 1) (Concrete.f32 2); fdiv (Concrete.f32 (-1)) (Concrete.f32 2)]];
      [[Concrete.f32 0; Concrete.f32 0]]]] /\
  Ok (normalize_norm_dist (DIPTrainer.model_input (DIPTrainer.self Concrete.batch_world))) <>
    fst (DIPTrainer.generate_noise Concrete.batch_world).
Proof.
  destruct (generate_noise_is_global_normalisation (TL := Concrete.torch)
              Concrete.batch_world _ _ (predict_run Concrete.batch_world))
    as (_ & _ & _ & Hshape).
  destruct (Hshape 2 2 1 2) as (diff & noise & Hrun & _).
  - vm_compute. split; [reflexivity|]. repeat constructor.
  - vm_compute. split; [reflexivity|]. repeat constructor.
  - apply (f_equal fst) in Hrun. cbn [fst] in Hrun. split; [|split].
    + rewrite Hrun. vm_compute in Hrun. injection Hrun as <-. vm_compute. reflexivity.
    + vm_compute. discriminate.
    + vm_compute. discriminate.
Defined.

Lemma periodic_actions_never_fire_witness :
  exists w w',
    Trainer.optimise (Concrete.trainer_world (Concrete.trainer_at 1000 999)) = (Ok tt, w) /\
    Trainer.step (Trainer.self w) = 1000 /\
    Trainer.train_iteration (Concrete.trainer_world (Concrete.trainer_at 1000 999)) =
      (Raise (AttributeError "'Trainer' object has no attribute 'ema'"), w') /\
    Trainer.fs w' = ∅ /\ Trainer.rng w' = Trainer.rng w /\
    Trainer.step (Trainer.self w') = 1000.
Proof.
  set (w0 := Concrete.trainer_world (Concrete.trainer_at 1000 999)).
  assert (fst (Trainer.optimise w0) = Ok tt) as Hfst by (vm_compute; reflexivity).
  destruct (Trainer.optimise w0) as [r w] eqn:Hopt. cbn [fst] in Hfst. subst r.
  assert (Trainer.self w = Trainer.self (snd (Trainer.optimise w0))) as Hself
    by (by rewrite Hopt).
  assert (Trainer.fs w = ∅) as Hfs.
  { pose proof (optimise_fs w0) as Hf. rewrite Hopt in Hf. exact Hf. }
  destruct (periodic_actions_never_fire _ _ _ Hopt) as (_ & _ & _ & Hdue & _).
  { rewrite Hself. vm_compute. discriminate. }
  destruct Hdue as (_ & e & w' & Hrun & Hs' & Hfs' & Hrng & He).
  { rewrite Hself. split; [vm_compute; discriminate|]. exists 1. vm_compute. reflexivity. }
  exists w, w'. split; [reflexivity|]. split; [rewrite Hself; vm_compute; reflexivity|].
  split; [|split; [|split]].
  - rewrite Hrun. f_equal. f_equal. apply He; rewrite Hself; vm_compute; discriminate.
  - by rewrite Hfs'.
  - exact Hrng.
  - rewrite Hs', Hself. vm_compute. reflexivity.
Defined.

(** C2: the periodic block cannot produce a sample grid or a checkpoint:
    in every state it raises before it writes a file, having only put the
    model in evaluation mode, and with a nonzero interval, a positive
    batch size and a positive number of samples what it raises is the
    [AttributeError] of reading [self.ema], which is never assigned. So
    no run of [train] leaves a file it did not find. A trainer as
    [__init__] leaves it, run for [save_and_sample_every = 2] steps, ends
    in that exception with the step counter at 2 and no file written. *)
Theorem periodic_sampling_reads_missing_ema :
  (forall `{Scalar F} `{TL : Torch F} `{OP : Optimizer F} `{!Autograd F} `{!DataLoader F}
          `{!Evaluation F} (w : Trainer.world),
     exists e, Trainer.sample_and_save w = (Raise e, Trainer.after_eval w) /\
       (Trainer.save_and_sample_every (Trainer.self w) <> 0 ->
        1 <= Trainer.batch_size (Trainer.self w) ->
        1 <= Trainer.num_samples (Trainer.self w) ->
        e = AttributeError "'Trainer' object has no attribute 'ema'")) /\
  (forall `{Scalar F} `{TL : Torch F} `{OP : Optimizer F} `{!Autograd F} `{!DataLoader F}
          `{!Evaluation F} (fuel : nat) (w w' : Trainer.world) (r : result unit),
     Trainer.train fuel w = Some (r, w') -> Trainer.fs w' = Trainer.fs w) /\
  Trainer.init (Concrete.unit_module "theta" [Concrete.f32 0; Concrete.f32 0]) 100
    (Concrete.trainer_config 2) = Ok (Concrete.trainer 2) /\
  Trainer.outcome (Trainer.train 3 (Concrete.trainer_world (Concrete.trainer 2))) =
    Some (Raise (AttributeError "'Trainer' object has no attribute 'ema'"), 2, []).
Proof.
  split; [|split; [|split]].
  - intros. apply sample_and_save_raises.
  - intros. by eapply train_fs.
  - reflexivity.
  - vm_compute. reflexivity.
Qed.

Lemma periodic_sampling_reads_missing_ema_witness :
  match Trainer.train 3 (Concrete.trainer_world (Concrete.trainer 2)) with
  | Some (_, w') => Trainer.fs w' = ∅
  | None => True
  end.
Proof.
  destruct periodic_sampling_reads_missing_ema as (_ & Hfs & _).
  destruct (Trainer.train 3 (Concrete.trainer_world (Concrete.trainer 2)))
    as [[r w']|] eqn:Hrun; [|exact I].
  exact (Hfs _ _ _ _ _ _ _ _ _ _ _ Hrun).
Defined.

(** C5: no gradient clipping takes place. An outer iteration does the same
    whatever [max_grad_norm] holds; with [max_grad_norm = 1] and an
    accumulated gradient (3, 4), of norm 5, the optimizer moves the
    parameters from (0, 0) to (-3, -4), the step of the unclipped
    gradient. *)
Theorem max_grad_norm_is_not_applied :
  (forall `{Scalar F} `{TL : Torch F} `{OP : Optimizer F} `{!Autograd F} `{!DataLoader F}
          `{!Evaluation F} (g : option F) (w : Trainer.world),
     Trainer.train_iteration (Trainer.with_max_grad_norm g w) =
       (fst (Trainer.train_iteration w),
        Trainer.with_max_grad_norm g (snd (Trainer.train_iteration w)))) /\
  let w := Concrete.trainer_world (Concrete.trainer 1000) in
  let w' := snd (Trainer.train_iteration w) in
  Trainer.max_grad_norm (Trainer.self w) = Some (Concrete.f32 1) /\
  fst (Trainer.train_iteration w) = Ok tt /\
  tensors (Trainer.model (Trainer.self w)) !! "theta" = Some [Concrete.f32 0; Concrete.f32 0] /\
  tensors (Trainer.model (Trainer.self w')) !! "theta" =
    Some [Concrete.f32 (-3); Concrete.f32 (-4)] /\
  fsqrt (fadd (fmul (Concrete.f32 3) (Concrete.f32 3)) (fmul (Concrete.f32 4) (Concrete.f32 4))) =
    Concrete.f32 5 /\
  fltb (Concrete.f32 1) (Concrete.f32 5) = true.
Proof.
  split.
  - intros. apply train_iteration_frame.
  - cbv zeta. repeat split; vm_compute; reflexivity.
Qed.

(** C8: for both trainers, after [save(m)] a [load(m)] by a trainer with
    the same results folder and the same architecture (the same tensor
    names and sizes; for the diffusion trainer also compatible optimizer
    parameter groups), the files being as [save] left them, returns
    normally and restores the step counter, every model tensor, and the
    optimizer state (diffusion trainer) or the fixed input tensor
    (prior-network trainer) to the saved values. *)
Theorem checkpoint_round_trip :
  (forall `{Scalar F} `{TL : Torch F} `{OP : Optimizer F} `{!Autograd F} `{!DataLoader F}
          `{!Evaluation F} (w w2 : Trainer.world) (m : milestone),
     Trainer.fs w2 = Trainer.fs (snd (Trainer.save m w)) ->
     Trainer.results_folder (Trainer.self w2) = Trainer.results_folder (Trainer.self w) ->
     dom (tensors (Trainer.model (Trainer.self w))) =
       dom (tensors (Trainer.model (Trainer.self w2))) ->
     same_sizes (tensors (Trainer.model (Trainer.self w)))
                (tensors (Trainer.model (Trainer.self w2))) = true ->
     opt_compatible (Trainer.opt (Trainer.self w2)) (Trainer.opt (Trainer.self w)) = true ->
     fst (Trainer.save m w) = Ok tt /\
     exists w3, Trainer.load m w2 = (Ok tt, w3) /\
       Trainer.step (Trainer.self w3) = Trainer.step (Trainer.self w) /\
       state_dict (Trainer.model (Trainer.self w3)) = state_dict (Trainer.model (Trainer.self w)) /\
       Trainer.opt (Trainer.self w3) = Trainer.opt (Trainer.self w) /\
       Trainer.fs w3 = Trainer.fs w2) /\
  (forall `{Scalar F} `{TL : Torch F} `{!DeepImagePrior F} `{OP : Optimizer F} `{!Autograd F}
          (w w2 : DIPTrainer.world) (m : milestone),
     DIPTrainer.fs w2 = DIPTrainer.fs (snd (DIPTrainer.save m w)) ->
     DIPTrainer.result_folder (DIPTrainer.self w2) = DIPTrainer.result_folder (DIPTrainer.self w) ->
     dom (tensors (DIPTrainer.model (DIPTrainer.self w))) =
       dom (tensors (DIPTrainer.model (DIPTrainer.self w2))) ->
     same_sizes (tensors (DIPTrainer.model (DIPTrainer.self w)))
                (tensors (DIPTrainer.model (DIPTrainer.self w2))) = true ->
     fst (DIPTrainer.save m w) = Ok tt /\
     exists w3, DIPTrainer.load m w2 = (Ok tt, w3) /\
       DIPTrainer.step (DIPTrainer.self w3) = DIPTrainer.step (DIPTrainer.self w) /\
       state_dict (DIPTrainer.model (DIPTrainer.self w3)) =
         state_dict (DIPTrainer.model (DIPTrainer.self w)) /\
       DIPTrainer.model_input (DIPTrainer.self w3) = DIPTrainer.model_input (DIPTrainer.self w) /\
       DIPTrainer.fs w3 = DIPTrainer.fs w2).
Proof.
  split.
  - intros. by apply trainer_save_load.
  - intros. by apply dip_save_load.
Qed.

Lemma checkpoint_round_trip_witness :
  (let w := Concrete.trainer_world (Concrete.trainer 1000) in
   let w2 := snd (Trainer.optimise (snd (Trainer.save (MInt 1) w))) in
   Trainer.step (Trainer.self w2) = 1 /\
   exists w3, Trainer.load (MInt 1) w2 = (Ok tt, w3) /\ Trainer.step (Trainer.self w3) = 0) /\
  (let w := Concrete.dip_world 0 in
   let w2 := snd (DIPTrainer.train_iteration 10000 10000 (snd (DIPTrainer.save (MInt 1) w))) in
   DIPTrainer.step (DIPTrainer.self w2) = 1 /\
   exists w3, DIPTrainer.load (MInt 1) w2 = (Ok tt, w3) /\
              DIPTrainer.step (DIPTrainer.self w3) = 0).
Proof.
  destruct checkpoint_round_trip as [Htrainer Hdip]. split.
  - intros w w2. split; [reflexivity|].
    destruct (Htrainer _ _ _ _ _ _ _ w w2 (MInt 1)) as (_ & w3 & Hload & Hstep & _).
    + reflexivity.
    + reflexivity.
    + vm_compute. reflexivity.
    + vm_compute. reflexivity.
    + reflexivity.
    + exists w3. split; [exact Hload|]. rewrite Hstep. reflexivity.
  - intros w w2. split; [reflexivity|].
    destruct (Hdip _ _ _ _ _ _ w w2 (MInt 1)) as (_ & w3 & Hload & Hstep & _).
    + reflexivity.
    + reflexivity.
    + vm_compute. reflexivity.
    + vm_compute. reflexivity.
    + exists w3. split; [exact Hload|]. rewrite Hstep. reflexivity.
Defined.

Lemma samplers_start_from_the_stored_prior_witness :
  Diffusion.p_sample_loop (Concrete.diffusion 1) (1, 1, 1, 3) false 1 =
    Ok (Diffusion.Final
          (unnormalize Concrete.parent
             [[[[fdiv (Concrete.f32 (-1)) (Concrete.f32 8); Concrete.f32 0;
                 fdiv (Concrete.f32 1) (Concrete.f32 8)]]]]), 7) /\
  exists xT rest,
    Diffusion.x_T (Concrete.diffusion 1) (1, 1, 1, 3) 1 = Ok xT /\
    xT = [[[[Concrete.f32 (-1); Concrete.f32 0; Concrete.f32 1]]]] /\
    Diffusion.p_sample_steps (Concrete.diffusion 1) [2; 1; 0] xT None [xT] 4 =
      ([[[[fdiv (Concrete.f32 (-1)) (Concrete.f32 8); Concrete.f32 0;
           fdiv (Concrete.f32 1) (Concrete.f32 8)]]]], xT :: rest, 7) /\
    length rest = 3%nat /\
    head rest = Some [[[[fdiv (Concrete.f32 (-1)) (Concrete.f32 2); Concrete.f32 0;
                         fdiv (Concrete.f32 1) (Concrete.f32 2)]]]].
Proof.
  assert (Diffusion.p_sample_loop (Concrete.diffusion 1) (1, 1, 1, 3) false 1 =
            Ok (Diffusion.Final
                  (unnormalize Concrete.parent
                     [[[[fdiv (Concrete.f32 (-1)) (Concrete.f32 8); Concrete.f32 0;
                         fdiv (Concrete.f32 1) (Concrete.f32 8)]]]]), 7)) as Hrun
    by (vm_compute; reflexivity).
  split; [exact Hrun|].
  destruct (samplers_start_from_the_stored_prior (TL := Concrete.torch)
              (Concrete.diffusion 1) (1, 1, 1, 3) false 1
              (Diffusion.Final
                 (unnormalize Concrete.parent
                    [[[[fdiv (Concrete.f32 (-1)) (Concrete.f32 8); Concrete.f32 0;
                        fdiv (Concrete.f32 1) (Concrete.f32 8)]]]])) 7) as [Hp _].
  destruct (Hp Hrun) as (dip_input & xT & img & rest & (_ & _ & HxT & _) & Hsteps & _ &
                         _ & Hlen & Hhead).
  assert (xT = [[[[Concrete.f32 (-1); Concrete.f32 0; Concrete.f32 1]]]]) as HxT'.
  { assert (Ok xT = Ok [[[[Concrete.f32 (-1); Concrete.f32 0; Concrete.f32 1]]]]) as Heq
      by (rewrite <- HxT; vm_compute; reflexivity).
    by injection Heq. }
  assert (img = [[[[fdiv (Concrete.f32 (-1)) (Concrete.f32 8); Concrete.f32 0;
                    fdiv (Concrete.f32 1) (Concrete.f32 8)]]]]) as Himg.
  { assert (Hs := Hsteps). rewrite HxT' in Hs. vm_compute in Hs.
    injection Hs as <- _. vm_compute. reflexivity. }
  exists xT, rest. split; [exact HxT|]. split; [exact HxT'|]. split; [|split].
  - rewrite <- Himg. exact Hsteps.
  - exact Hlen.
  - rewrite Hhead by (cbn; lia). rewrite HxT'. vm_compute. reflexivity.
Defined.

(** C1 as stated fails: two objects that differ only in the prior network
    stored on them give different initial images from the same generator
    state and shape, in both samplers; the network is the stored one, not
    one built in the call. *)
Lemma x_T_depends_on_the_stored_prior :
  Diffusion.super (Concrete.diffusion 1) = Diffusion.super (Concrete.diffusion (-1)) /\
  Diffusion.dip_input_depth (Concrete.diffusion 1) =
    Diffusion.dip_input_depth (Concrete.diffusion (-1)) /\
  Diffusion.x_T (Concrete.diffusion 1) (1, 1, 1, 3) 1 =
    Ok [[[[Concrete.f32 (-1); Concrete.f32 0; Concrete.f32 1]]]] /\
  Diffusion.x_T (Concrete.diffusion (-1)) (1, 1, 1, 3) 1 =
    Ok [[[[Concrete.f32 1; Concrete.f32 0; Concrete.f32 (-1)]]]] /\
  Diffusion.first_image (Diffusion.p_sample_loop (Concrete.diffusion 1) (1, 1, 1, 3) true 1) <>
    Diffusion.first_image (Diffusion.p_sample_loop (Concrete.diffusion (-1)) (1, 1, 1, 3) true 1) /\
  Diffusion.first_image (Diffusion.ddim_sample (Concrete.diffusion 1) (1, 1, 1, 3) true 1) <>
    Diffusion.first_image (Diffusion.ddim_sample (Concrete.diffusion (-1)) (1, 1, 1, 3) true 1).
Proof.
  split; [reflexivity|]. split; [reflexivity|].
  split; [vm_compute; reflexivity|]. split; [vm_compute; reflexivity|].
  split; vm_compute; discriminate.
Qed.


(** C9: when the network's output equals the target image exactly, the
    tensor [generate_noise] hands to [normalize_norm_dist] is zero
    everywhere (zero variance), and what is returned holds at every
    position the quotient of [0 - mean] by the standard deviation of that
    zero tensor: [normalize_norm_dist] divides with no test on the divisor
    and nothing replaces the result. In binary32, for a target of finite
    pixels with at least one entry, that result is not-a-number at every
    position. *)
Theorem generate_noise_degenerate :
  (forall `{Scalar F} `{TL : Torch F} `{!DeepImagePrior F} `{OP : Optimizer F} `{!Autograd F}
          (w : DIPTrainer.world),
     let s := DIPTrainer.self w in
     let out := dip_net (eval (DIPTrainer.model s)) (DIPTrainer.model_input s) in
     let zeros := tmap (fun _ => fzero) (DIPTrainer.train_img s) in
     out = DIPTrainer.train_img s ->
     Forall (fun v => fsub v v = fzero) (flatten4 (DIPTrainer.train_img s)) ->
     tsub out (DIPTrainer.train_img s) = Ok zeros /\
     DIPTrainer.generate_noise w =
       (Ok (tmap (fun _ => fdiv (fsub fzero (torch_mean zeros)) (torch_std zeros))
                 (DIPTrainer.train_img s)),
        DIPTrainer.after_predict w)) /\
  (forall `{TL : Torch binary32} `{!DeepImagePrior binary32} `{OP : Optimizer binary32}
          `{!Autograd binary32} (w : DIPTrainer.world),
     let s := DIPTrainer.self w in
     let out := dip_net (eval (DIPTrainer.model s)) (DIPTrainer.model_input s) in
     out = DIPTrainer.train_img s ->
     Forall (fun v => finite32 v = true) (flatten4 (DIPTrainer.train_img s)) ->
     flatten4 (DIPTrainer.train_img s) <> [] ->
     DIPTrainer.generate_noise w =
       (Ok (tmap (fun _ => S754_nan) (DIPTrainer.train_img s)), DIPTrainer.after_predict w)).
Proof.
  split.
  - intros F HS TL DIP OP AG w s out zeros Hout Hfin.
    destruct (generate_noise_of_exact_fit w Hout Hfin) as (Hz & Hrun & Hnorm).
    cbv zeta in *. split; [exact Hz|]. rewrite Hrun, Hnorm. reflexivity.
  - intros TL DIP OP AG w s out Hout Hfin Hne.
    destruct (generate_noise_of_exact_fit w Hout) as (_ & Hrun & _).
    { eapply Forall_impl; [exact Hfin|]. intros v. apply fsub_diag_finite. }
    cbv zeta in *. rewrite Hrun, normalize_zeros_is_nan by done. reflexivity.
Qed.

Lemma generate_noise_degenerate_witness :
  fst (DIPTrainer.generate_noise Concrete.collapsed_world) =
    Ok [[[[S754_nan; S754_nan; S754_nan]]]].
Proof.
  destruct generate_noise_degenerate as [_ Hnan].
  rewrite (Hnan _ _ _ _ Concrete.collapsed_world).
  - reflexivity.
  - vm_compute. reflexivity.
  - repeat constructor.
  - discriminate.
Defined.

(** * Further properties

    Properties of the helpers, of the sampling and loss code, of the two
    trainers and of the data pipeline ([generate_noise], [Dataset],
    [collate_fn]) beyond the claims. *)

(** ** Helpers *)

(** [divisible_by]: a zero denominator raises [ZeroDivisionError]; any
    other denominator, of either sign, gives [True] exactly when it
    divides the numerator. *)
Theorem divisible_by_spec (numer denom : Z) :
  divisible_by numer 0 = Raise ZeroDivisionError /\
  (denom <> 0 ->
   exists b, divisible_by numer denom = Ok b /\ (b = true <-> (denom | numer))).
Proof.
  split; [reflexivity|]. intros Hd. unfold divisible_by, py_mod.
  rewrite (proj2 (Z.eqb_neq _ _) Hd). cbn. eexists. split; [reflexivity|].
  rewrite Z.eqb_eq. by apply Z.mod_divide.
Qed.

Lemma divisible_by_spec_witness :
  exists b, divisible_by (-6) (-3) = Ok b /\ (b = true <-> (-3 | -6)).
Proof. apply (divisible_by_spec (-6) (-3)). lia. Defined.

(** [num_to_groups]: for [num >= 0] and [divisor >= 1] the number of
    groups is [num / divisor] rounded up, and there is no group exactly
    when [num] is 0. *)
Theorem num_to_groups_length (num divisor : Z) :
  0 <= num -> 1 <= divisor ->
  exists gs, num_to_groups num divisor = Ok gs /\
    Z.of_nat (length gs) = (num + divisor - 1) / divisor /\
    (gs = [] <-> num = 0).
Proof.
  intros Hn Hd. eexists. split; [apply num_to_groups_eq; lia|].
  pose proof (Z.mod_pos_bound num divisor ltac:(lia)) as Hr.
  pose proof (Z.div_mod num divisor ltac:(lia)) as Hdm.
  assert (0 <= num / divisor) as Hq by (apply Z.div_pos; lia).
  rewrite length_app, repeat_length, Nat2Z.inj_add, Z2Nat.id by lia.
  destruct (0 <? num mod divisor) eqn:E.
  - apply Z.ltb_lt in E. split.
    + cbn [length]. apply (Z.div_unique _ _ _ (num mod divisor - 1)); lia.
    + split; [|intros ->; rewrite Z.mod_0_l in E; lia].
      intros Hnil. apply app_eq_nil in Hnil as [_ Hnil]. discriminate.
  - apply Z.ltb_ge in E. assert (num mod divisor = 0) as H0 by lia. split.
    + cbn [length]. apply (Z.div_unique _ _ _ (divisor - 1)); lia.
    + rewrite app_nil_r. split.
      * intros Hnil. destruct (Z.to_nat (num / divisor)) eqn:Hq'; [|discriminate]. nia.
      * intros ->. rewrite Z.div_0_l by lia. reflexivity.
Qed.

Lemma num_to_groups_length_witness :
  exists gs, num_to_groups 25 16 = Ok gs /\ Z.of_nat (length gs) = 2.
Proof.
  destruct (num_to_groups_length 25 16 ltac:(lia) ltac:(lia)) as (gs & Hgs & Hlen & _).
  exists gs. split; [exact Hgs|]. rewrite Hlen. reflexivity.
Defined.

(** [num_to_groups] outside [num >= 0], [divisor >= 1]: a zero divisor
    raises [ZeroDivisionError]; a negative [num] with a positive divisor
    gives no full group and only the floored remainder, when there is
    one; a negative divisor never appends a remainder. In neither case do
    the groups sum to [num] in general: [num_to_groups (-5) 3] is [[1]]
    and [num_to_groups (-5) (-2)] is [[-2; -2]]. *)
Theorem num_to_groups_outside_domain (num divisor : Z) :
  num_to_groups num 0 = Raise ZeroDivisionError /\
  (num < 0 -> 1 <= divisor ->
   num_to_groups num divisor =
     Ok (if 0 <? num mod divisor then [num mod divisor] else [])) /\
  (divisor < 0 ->
   num_to_groups num divisor = Ok (repeat divisor (Z.to_nat (num / divisor)))) /\
  num_to_groups (-5) 3 = Ok [1] /\
  num_to_groups (-5) (-2) = Ok [-2; -2].
Proof.
  split; [reflexivity|]. split; [|split; [|split; reflexivity]].
  - intros Hn Hd. rewrite num_to_groups_eq by lia.
    assert (num / divisor < 0) as Hq by (apply Z.div_lt_upper_bound; lia).
    replace (Z.to_nat (num / divisor)) with 0%nat by lia. reflexivity.
  - intros Hd. rewrite num_to_groups_eq by lia.
    pose proof (Z.mod_neg_bound num divisor Hd) as Hr.
    replace (0 <? num mod divisor) with false by (symmetry; apply Z.ltb_ge; lia).
    by rewrite app_nil_r.
Qed.

Lemma squares_pass_spec (bound : nat) (k : Z) :
  squares_pass bound = true -> 0 <= k <= Z.of_nat bound ->
  has_int_squareroot (k * k) = Ok true.
Proof.
  unfold squares_pass. rewrite forallb_forall. intros Hall Hk.
  specialize (Hall k). destruct (has_int_squareroot (k * k)) as [[|]|].
  - reflexivity.
  - assert (false = true); [|discriminate]. apply Hall.
    apply in_map_iff. exists (Z.to_nat k). split; [lia|]. apply in_seq. lia.
  - assert (false = true); [|discriminate]. apply Hall.
    apply in_map_iff. exists (Z.to_nat k). split; [lia|]. apply in_seq. lia.
Qed.

(** [has_int_squareroot] accepts every perfect square [k * k] for [k]
    from 0 to 4096 (up to 16777216 samples). *)
Theorem has_int_squareroot_perfect_squares (k : Z) :
  0 <= k <= 4096 -> has_int_squareroot (k * k) = Ok true.
Proof.
  intros Hk. apply (squares_pass_spec 4096); [vm_compute; reflexivity|lia].
Qed.

Lemma has_int_squareroot_perfect_squares_witness : has_int_squareroot (5 * 5) = Ok true.
Proof. apply (has_int_squareroot_perfect_squares 5). lia. Defined.

(** [has_int_squareroot] is not a test for perfect squares: it never
    returns for a negative number (the square root raises, or the
    conversion to a float does), and it returns [True] for numbers that
    are no perfect square, such as 11, whose rounded square root squares
    back to 11. *)
Theorem has_int_squareroot_is_inexact :
  (forall num, num < 0 ->
     has_int_squareroot num = Raise (ValueError "math domain error") \/
     has_int_squareroot num = Raise (OverflowError "int too large to convert to float")) /\
  ~ (forall num, 0 <= num -> has_int_squareroot num = Ok true -> exists k, num = k * k).
Proof.
  split.
  - intros num Hneg. unfold has_int_squareroot.
    rewrite (proj2 (Z.ltb_lt _ _) Hneg).
    destruct (binary_normalize 53 1024 num 0 false); auto.
  - intros Hall. destruct (Hall 11 ltac:(lia) ltac:(vm_compute; reflexivity)) as [k Hk].
    assert (-4 < k < 4) by nia.
    assert (k = -3 \/ k = -2 \/ k = -1 \/ k = 0 \/ k = 1 \/ k = 2 \/ k = 3) as Hcases by lia.
    destruct Hcases as [->|[->|[->|[->|[->|[->| ->]]]]]]; discriminate.
Qed.

Section CycleProperties.
Context {F : Type} `{DataLoader F}.

Lemma cycle_take_S (n : nat) (st : nat * nat) :
  fst (cycle_take (S n) st) = fst (cycle_next st) :: fst (cycle_take n (snd (cycle_next st))).
Proof.
  cbn [cycle_take]. destruct (cycle_next st) as [d st']. cbn [fst snd].
  destruct (cycle_take n st') as [ds st'']. reflexivity.
Qed.

Lemma cycle_next_within (e i : nat) (d : Tensor4 F * Tensor4 F) :
  batches e !! i = Some d -> cycle_next (e, i) = (d, (e, S i)).
Proof.
  unfold cycle_next, batches. destruct (epoch e) as [first rest]. cbn [fst snd].
  by intros ->.
Qed.

Lemma cycle_next_exhausted (e : nat) :
  cycle_next (e, length (batches e)) = cycle_next (S e, 0%nat).
Proof.
  unfold cycle_next, batches. destruct (epoch e) as [first rest]. cbn [fst snd].
  rewrite (proj2 (lookup_ge_None (first :: rest) _)) by reflexivity.
  destruct (epoch (S e)) as [first' rest']. reflexivity.
Qed.

Lemma cycle_take_rest (e i k : nat) :
  (i <= length (batches e))%nat ->
  fst (cycle_take (length (batches e) - i + S k) (e, i)) =
    drop i (batches e) ++ fst (cycle_take (S k) (S e, 0%nat)).
Proof.
  intros Hi. remember (length (batches e) - i)%nat as r eqn:Hr.
  revert i Hi Hr. induction r as [|r IH]; intros i Hi Hr.
  - assert (i = length (batches e)) as -> by lia.
    rewrite drop_all. cbn [plus app]. rewrite !cycle_take_S, cycle_next_exhausted.
    reflexivity.
  - destruct (lookup_lt_is_Some_2 (batches e) i ltac:(lia)) as [d Hd].
    cbn [plus]. rewrite cycle_take_S, (cycle_next_within _ _ _ Hd). cbn [fst snd].
    rewrite (IH (S i)) by lia. by rewrite (drop_S _ _ _ Hd).
Qed.

Lemma take_traversals (n m e : nat) :
  (n <= m)%nat ->
  take n (concat (map batches (seq e m))) = take n (concat (map batches (seq e n))).
Proof.
  revert m e. induction (lt_wf n) as [n _ IH]. intros m e Hnm.
  destruct n as [|n]; [by rewrite !take_0|].
  destruct m as [|m]; [lia|]. cbn [seq map concat].
  assert (length (batches e) <> 0)%nat as Hne by (unfold batches; cbn; lia).
  destruct (le_lt_dec (S n) (length (batches e))) as [Hle|Hgt].
  - by rewrite !take_app_le.
  - rewrite !take_app_ge by lia. f_equal.
    rewrite (IH (S n - length (batches e))%nat ltac:(lia) m) by lia.
    by rewrite (IH (S n - length (batches e))%nat ltac:(lia) n) by lia.
Qed.

Lemma cycle_take_within (e m i : nat) :
  (i + m <= length (batches e))%nat ->
  fst (cycle_take m (e, i)) = take m (drop i (batches e)).
Proof.
  revert i. induction m as [|m IHm]; intros i Hi; [by rewrite take_0|].
  destruct (lookup_lt_is_Some_2 (batches e) i ltac:(lia)) as [d Hd].
  rewrite cycle_take_S, (cycle_next_within _ _ _ Hd). cbn [fst snd].
  rewrite IHm by lia. rewrite (drop_S _ _ _ Hd). reflexivity.
Qed.

Lemma cycle_take_traversals (n e : nat) :
  fst (cycle_take n (e, 0%nat)) = take n (concat (map batches (seq e n))).
Proof.
  revert e. induction (lt_wf n) as [n _ IH]. intros e.
  destruct n as [|n]; [reflexivity|].
  cbn [seq map concat].
  assert (length (batches e) <> 0)%nat as Hne by (unfold batches; cbn; lia).
  destruct (le_lt_dec (S n) (length (batches e))) as [Hle|Hgt].
  - rewrite take_app_le by exact Hle.
    rewrite cycle_take_within by lia. by rewrite drop_0.
  - replace (S n) with (length (batches e) - 0 + S (n - length (batches e)))%nat at 1 by lia.
    rewrite cycle_take_rest by lia. rewrite drop_0.
    rewrite take_app_ge by lia. f_equal.
    rewrite (IH (S (n - length (batches e)))) by lia.
    replace (S n - length (batches e))%nat with (S (n - length (batches e))) by lia.
    symmetry. apply take_traversals. lia.
Qed.

(** [cycle]: the generator yields every batch of a traversal of the data
    loader, in order, then those of the next traversal, and so on without
    end: its first [n] values are the first [n] batches of the traversals
    laid end to end, and after a whole traversal it is where a generator
    starting on the next traversal is. *)
Theorem cycle_yields_every_traversal (n e k : nat) :
  fst (cycle_take n (0%nat, 0%nat)) = take n (concat (map batches (seq 0 n))) /\
  fst (cycle_take (length (batches e)) (e, 0%nat)) = batches e /\
  fst (cycle_take (length (batches e) + S k) (e, 0%nat)) =
    batches e ++ fst (cycle_take (S k) (S e, 0%nat)).
Proof.
  split; [apply cycle_take_traversals|]. split.
  - rewrite cycle_take_within by lia. by rewrite drop_0, take_ge.
  - pose proof (cycle_take_rest e 0 k ltac:(lia)) as Hrest.
    by rewrite Nat.sub_0_r, drop_0 in Hrest.
Qed.
End CycleProperties.

(** ** Indexing and the errors of tensor operations *)

Lemma mapM_Raise {A B} (f : A -> result B) (l : list A) (e : exn) :
  mapM f l = Raise e -> exists a, a ∈ l /\ f a = Raise e.
Proof.
  induction l as [|x l IH]; [discriminate|]. cbn [mapM].
  destruct (f x) as [y|e'] eqn:Hx; cbn [rbind].
  - destruct (mapM f l) as [ys|e'] eqn:Hl; [discriminate|]. cbn [rbind].
    intros [= ->]. destruct (IH eq_refl) as (a & Ha & Hfa). exists a. split; [by right|done].
  - intros [= ->]. exists x. split; [by left|done].
Qed.

Lemma mapM_Ok_Forall2 {A B} (f : A -> result B) (l : list A) (ys : list B) :
  mapM f l = Ok ys <-> Forall2 (fun a y => f a = Ok y) l ys.
Proof.
  revert ys. induction l as [|x l IH]; intros ys; cbn [mapM].
  - split; [intros [= <-]; constructor|]. intros Hall. by inversion Hall.
  - destruct (f x) as [y|e] eqn:Hx; cbn [rbind].
    + destruct (mapM f l) as [ys'|e] eqn:Hl; cbn [rbind].
      * split.
        -- intros [= <-]. constructor; [done|]. by apply IH.
        -- intros Hall. inversion Hall as [|? y' ? ys'' Hy Hrest]; subst.
           apply IH in Hrest. congruence.
      * split; [discriminate|]. intros Hall.
        inversion Hall as [|? y' ? ys'' Hy Hrest]; subst. apply IH in Hrest. discriminate.
    + split; [discriminate|]. intros Hall. inversion Hall; congruence.
Qed.

Lemma broadcast2_Raise {A B C} (f : A -> B -> result C) (la : list A) (lb : list B) (e : exn) :
  broadcast2 f la lb = Raise e ->
  is_RuntimeError e \/ exists a b, f a b = Raise e.
Proof.
  unfold broadcast2. destruct (Nat.eqb _ _).
  - intros Hm. apply mapM_Raise in Hm as ([a b] & _ & Hf). right. by exists a, b.
  - destruct la as [|a [|a' la]].
    + destruct lb as [|b [|b' lb]].
      * intros [= <-]. left. by eexists.
      * intros Hm. apply mapM_Raise in Hm as (a & Ha & _). by apply elem_of_nil in Ha.
      * intros [= <-]. left. by eexists.
    + intros Hm. apply mapM_Raise in Hm as (b & _ & Hf). right. by exists a, b.
    + destruct lb as [|b [|b' lb]].
      * intros [= <-]. left. by eexists.
      * intros Hm. apply mapM_Raise in Hm as (x & _ & Hf). right. by exists x, b.
      * intros [= <-]. left. by eexists.
Qed.

Section MoreTensorProperties.
Context {F : Type} `{Scalar F}.

Lemma tbinop_Raise (f : F -> F -> F) (x y : Tensor4 F) (e : exn) :
  tbinop f x y = Raise e -> is_RuntimeError e.
Proof.
  unfold tbinop. intros Hr.
  apply broadcast2_Raise in Hr as [Hr|(a & b & Hr)]; [done|].
  apply broadcast2_Raise in Hr as [Hr|(a1 & b1 & Hr)]; [done|].
  apply broadcast2_Raise in Hr as [Hr|(a2 & b2 & Hr)]; [done|].
  apply broadcast2_Raise in Hr as [Hr|(a3 & b3 & Hr)]; [done|]. discriminate.
Qed.
End MoreTensorProperties.

Section ExtractProperties.
Context {F : Type}.
Import Diffusion.

Lemma py_index_in_range (a : list F) (i : Z) :
  0 <= i < Z.of_nat (length a) ->
  exists v, a !! Z.to_nat i = Some v /\ py_index a i = Ok v.
Proof.
  intros Hi. unfold py_index.
  replace (i <? 0) with false by (symmetry; apply Z.ltb_ge; lia).
  replace (i <? 0) with false by (symmetry; apply Z.ltb_ge; lia). cbn [orb].
  replace (Z.of_nat (length a) <=? i) with false by (symmetry; apply Z.leb_gt; lia).
  destruct (lookup_lt_is_Some_2 a (Z.to_nat i) ltac:(lia)) as [v Hv].
  exists v. by rewrite Hv.
Qed.

Lemma gather_entry (a : list F) (i : Z) (v : F) :
  (if (i <? 0) || (Z.of_nat (length a) <=? i)
   then Raise (RuntimeError "index out of range in gather")
   else py_index a i) = Ok v <->
  0 <= i < Z.of_nat (length a) /\ a !! Z.to_nat i = Some v.
Proof.
  destruct ((i <? 0) || (Z.of_nat (length a) <=? i)) eqn:Hout.
  - split; [discriminate|]. intros [Hi _].
    apply orb_true_iff in Hout as [Hout|Hout]; [apply Z.ltb_lt in Hout|apply Z.leb_le in Hout]; lia.
  - apply orb_false_iff in Hout as [H1 H2]. apply Z.ltb_ge in H1. apply Z.leb_gt in H2.
    destruct (py_index_in_range a i ltac:(lia)) as (v' & Hv' & ->).
    split; [intros [= <-]; split; [lia|done]|]. intros [_ Hv]. congruence.
Qed.

Lemma extract_Ok_iff (a : list F) (t : list Z) (ws : list F) :
  extract a t = Ok ws <->
  Forall2 (fun i w => 0 <= i < Z.of_nat (length a) /\ a !! Z.to_nat i = Some w) t ws.
Proof.
  unfold extract, gather. rewrite mapM_Ok_Forall2. split; intros Hall.
  - eapply Forall2_impl; [exact Hall|]. intros i w. by rewrite gather_entry.
  - eapply Forall2_impl; [exact Hall|]. intros i w. by rewrite gather_entry.
Qed.

Lemma extract_Raise (a : list F) (t : list Z) (e : exn) :
  extract a t = Raise e ->
  e = RuntimeError "index out of range in gather" /\
  Exists (fun i => i < 0 \/ Z.of_nat (length a) <= i) t.
Proof.
  unfold extract, gather. intros Hr. apply mapM_Raise in Hr as (i & Hi & Hr).
  destruct ((i <? 0) || (Z.of_nat (length a) <=? i)) eqn:Hout.
  - injection Hr as <-. split; [reflexivity|]. apply Exists_exists. exists i. split; [done|].
    apply orb_true_iff in Hout as [Hout|Hout]; [apply Z.ltb_lt in Hout|apply Z.leb_le in Hout]; lia.
  - apply orb_false_iff in Hout as [H1 H2]. apply Z.ltb_ge in H1. apply Z.leb_gt in H2.
    destruct (py_index_in_range a i ltac:(lia)) as (v' & _ & Hpy). congruence.
Qed.

(** [extract] (as [p_losses] calls it, on a one-dimensional shape)
    returns exactly when every index lies within the tensor, negative
    indices not being accepted, and then holds one entry per index, the
    entry of the tensor at that index; otherwise it raises a
    [RuntimeError]. *)
Theorem extract_in_range (a : list F) (t : list Z) :
  (forall ws, extract a t = Ok ws <->
     Forall2 (fun i w => 0 <= i < Z.of_nat (length a) /\ a !! Z.to_nat i = Some w) t ws) /\
  (Forall (fun i => 0 <= i < Z.of_nat (length a)) t -> exists ws, extract a t = Ok ws) /\
  (forall e, extract a t = Raise e ->
     e = RuntimeError "index out of range in gather" /\
     Exists (fun i => i < 0 \/ Z.of_nat (length a) <= i) t).
Proof.
  split; [apply extract_Ok_iff|]. split; [|apply extract_Raise].
  intros Hall. destruct (extract a t) as [ws|e] eqn:Hrun; [by exists ws|].
  apply extract_Raise in Hrun as [_ Hex]. apply Exists_exists in Hex as (i & Hi & Hout).
  rewrite Forall_forall in Hall. specialize (Hall i Hi). lia.
Qed.
End ExtractProperties.

(** ** The samplers *)

Section SamplerProperties.
Context {F : Type} `{Scalar F} `{TL : Torch F} `{!DeepImagePrior F}
        `{!GaussianDiffusionMethods F}.
Import Diffusion.

Lemma expand_Ok_batch (x y : Tensor4 F) (batch : Z) :
  expand x batch = Ok y -> -1 <= batch.
Proof.
  unfold expand. destruct (batch =? -1) eqn:Hb; [apply Z.eqb_eq in Hb; lia|].
  destruct x as [|s [|s' x]].
  - destruct (Z.of_nat (length (@nil (list (list (list F))))) =? batch) eqn:Hl; [|discriminate].
    apply Z.eqb_eq in Hl. cbn in Hl. lia.
  - destruct (batch <? 0) eqn:Hneg; [discriminate|]. apply Z.ltb_ge in Hneg. lia.
  - destruct (Z.of_nat (length (s :: s' :: x)) =? batch) eqn:Hl; [|discriminate].
    apply Z.eqb_eq in Hl. lia.
Qed.

(** [p_sample_loop]: when it returns with [return_all_timesteps], the
    batch size was at least -1 (which keeps the single batch entry), and
    it has stacked [num_timesteps + 1] images, the initial one followed
    by one per timestep; without [return_all_timesteps] it returns the
    last of these images and leaves the generator in the same state. *)
Theorem p_sample_loop_frames (self : t) (shape : Z * Z * Z * Z) (rng : Rng)
    (imgs : list (Tensor4 F)) (rng' : Rng) :
  p_sample_loop self shape true rng = Ok (AllTimesteps imgs, rng') ->
  -1 <= fst (fst (fst shape)) /\
  length imgs = S (Z.to_nat (num_timesteps (super self))) /\
  exists img, p_sample_loop self shape false rng = Ok (Final img, rng') /\ last imgs = Some img.
Proof.
  destruct shape as [[[batch c] h] w]. cbn [fst snd]. unfold p_sample_loop.
  destruct (get_noise (dip_input_depth self) (h, w) rng) as [input rng1].
  destruct (expand [input] batch) as [dip_input|] eqn:Hexp; [|discriminate]. cbn [rbind].
  set (xT := normalize_norm_dist _).
  destruct (p_sample_steps_imgs self (rev (py_range (num_timesteps (super self))))
              xT None [xT] rng1) as (rest & Hrest & Hlen).
  pose proof (p_sample_steps_last self (rev (py_range (num_timesteps (super self))))
                xT None [xT] rng1 eq_refl) as Hlast.
  destruct (p_sample_steps _ _ xT None [xT] rng1) as [[img imgs1] rng2].
  cbn [fst snd] in *. cbn [negb]. intros [= <- <-].
  split; [by eapply expand_Ok_batch|]. split.
  - rewrite length_map, Hrest. cbn [length app].
    rewrite Hlen, length_rev. unfold py_range. by rewrite length_map, length_seq.
  - exists (unnormalize (super self) img). split; [reflexivity|].
    change (last (unnormalize (super self) <$> imgs1) = Some (unnormalize (super self) img)).
    by rewrite fmap_last, Hlast.
Qed.

(** [ddim_sample]: when it returns with [return_all_timesteps], it has
    stacked one image more than there are pairs of consecutive sampling
    times; without [return_all_timesteps] it returns the last of these
    images and leaves the generator in the same state. *)
Theorem ddim_sample_frames (self : t) (shape : Z * Z * Z * Z) (rng : Rng)
    (imgs : list (Tensor4 F)) (rng' : Rng) :
  ddim_sample self shape true rng = Ok (AllTimesteps imgs, rng') ->
  length imgs = S (length (ddim_time_pairs self)) /\
  exists img, ddim_sample self shape false rng = Ok (Final img, rng') /\ last imgs = Some img.
Proof.
  destruct shape as [[[batch c] h] w]. unfold ddim_sample. fold (ddim_time_pairs self).
  destruct (get_noise (dip_input_depth self) (h, w) rng) as [input rng1].
  destruct (expand [input] batch) as [dip_input|]; [|discriminate]. cbn [rbind].
  set (xT := normalize_norm_dist _).
  destruct (ddim_steps _ _ _ xT None [xT] rng1) as [[[img imgs1] rng2]|] eqn:Hsteps;
    [|discriminate].
  cbn [rbind negb]. intros [= <- <-].
  destruct (ddim_steps_imgs _ _ _ _ _ _ _ _ _ _ Hsteps) as (rest & -> & Hlen).
  pose proof (ddim_steps_last self batch _ xT None [xT] rng1 _ _ _ eq_refl Hsteps) as Hlast.
  split.
  - rewrite length_map. cbn [length app]. by rewrite Hlen.
  - exists (unnormalize (super self) img). split; [reflexivity|].
    change (last (unnormalize (super self) <$> ([xT] ++ rest)) =
            Some (unnormalize (super self) img)).
    by rewrite fmap_last, Hlast.
Qed.
End SamplerProperties.

(** ** The loss *)

Section LossProperties.
Context {F : Type} `{Scalar F} `{TL : Torch F} `{!DeepImagePrior F}
        `{!GaussianDiffusionMethods F}.
Import Diffusion.

Lemma py_index_last_Ok (a : list F) (v : F) : py_index a (-1) = Ok v -> a <> [].
Proof. intros Hv ->. discriminate. Qed.

(** What [p_losses] needs in order to return: an objective among the
    three it knows, every timestep of the batch within the loss weights
    (a negative timestep is not accepted), and at least one loss
    weight. *)
Theorem p_losses_preconditions (self : t) (x_start : Tensor4 F) (t : list Z)
    (noise : option (Tensor4 F)) (strength : option F) (rng : Rng) (total : F) (rng' : Rng) :
  p_losses self x_start t noise strength rng = Ok (total, rng') ->
  (objective (super self) = "pred_noise" \/ objective (super self) = "pred_x0" \/
   objective (super self) = "pred_v") /\
  Forall (fun i => 0 <= i < Z.of_nat (length (loss_weight (super self)))) t /\
  loss_weight (super self) <> [].
Proof.
  unfold p_losses.
  destruct (tshape x_start) as [[[b c] h] w].
  destruct (get_noise (dip_input_depth self) (h, w) rng) as [input rng1].
  destruct (expand [input] b) as [dip_input|]; [|discriminate]. cbn [rbind].
  destruct (default noise _) as [base|]; [|discriminate]. cbn [rbind].
  destruct (default strength _) as [st|]; [|discriminate]. cbn [rbind].
  destruct (if fltb fzero st then _ else _) as [[noise_used rng2]|]; [|discriminate].
  cbn [rbind].
  destruct (if self_condition (super self) then _ else _) as [x_self_cond rng3].
  intros Hrun.
  assert (objective (super self) = "pred_noise" \/ objective (super self) = "pred_x0" \/
          objective (super self) = "pred_v") as Hobj.
  { destruct (String.eqb (objective (super self)) "pred_noise") eqn:E1;
      [left; by apply String.eqb_eq|].
    destruct (String.eqb (objective (super self)) "pred_x0") eqn:E2;
      [right; left; by apply String.eqb_eq|].
    destruct (String.eqb (objective (super self)) "pred_v") eqn:E3;
      [right; right; by apply String.eqb_eq|].
    discriminate. }
  split; [exact Hobj|].
  destruct (if String.eqb _ _ then _ else _) as [target|]; [|discriminate]. cbn [rbind] in Hrun.
  destruct (mse_loss_none _ target) as [sq|]; [|discriminate]. cbn [rbind] in Hrun.
  destruct (extract _ t) as [weights|] eqn:Hweights; [|discriminate]. cbn [rbind] in Hrun.
  destruct (broadcast2 _ _ weights) as [weighted|]; [|discriminate]. cbn [rbind] in Hrun.
  destruct (mse_loss _ x_start) as [mse|]; [|discriminate]. cbn [rbind] in Hrun.
  destruct (py_index _ (-1)) as [last_weight|] eqn:Hlast; [|discriminate].
  split; [|by eapply py_index_last_Ok].
  apply extract_Ok_iff in Hweights.
  clear -Hweights. induction Hweights as [|i w t ws [Hi _] _ IH]; constructor; done.
Qed.

(** [forward] raises an [AssertionError] whenever the height and width
    of the image are not the model's image size, before it draws
    timesteps or runs a network, so it returns only on images of that
    size; on such an image it is [p_losses] on the normalised image,
    with one timestep per batch entry drawn from
    [randint(0, num_timesteps)]. *)
Theorem forward_checks_size (self : t) (img : Tensor4 F) (noise : option (Tensor4 F))
    (strength : option F) (rng : Rng) (b c h w : Z) :
  tshape img = (b, c, h, w) ->
  ((h, w) <> image_size (super self) ->
   exists msg, forward self img noise strength rng = Raise (AssertionError msg)) /\
  (forall r, forward self img noise strength rng = Ok r -> (h, w) = image_size (super self)) /\
  ((h, w) = image_size (super self) ->
   forward self img noise strength rng =
     p_losses self (normalize (super self) img)
              (fst (randint 0 (num_timesteps (super self)) b rng)) noise strength
              (snd (randint 0 (num_timesteps (super self)) b rng))).
Proof.
  intros Hshape. unfold forward. rewrite Hshape.
  destruct (image_size (super self)) as [ih iw]. cbn [fst snd].
  destruct ((h =? ih) && (w =? iw)) eqn:Hsz; cbn [negb].
  - apply andb_true_iff in Hsz as [Hh Hw]. apply Z.eqb_eq in Hh, Hw. subst ih iw.
    destruct (randint 0 _ b rng) as [t rng1]. cbn [fst snd]. done.
  - assert ((h, w) <> (ih, iw)) as Hne.
    { intros [= -> ->]. by rewrite !Z.eqb_refl in Hsz. }
    split; [by eexists|]. split; [discriminate|done].
Qed.
End LossProperties.

Lemma p_losses_preconditions_witness :
  Forall (fun i => 0 <= i < 3) [1].
Proof.
  assert (Diffusion.p_losses (Concrete.diffusion 1) Concrete.image [1]
            (Some Concrete.given_noise) None 1 = Ok (Concrete.f32 36, 4)) as Hrun
    by (vm_compute; reflexivity).
  exact (proj1 (proj2 (p_losses_preconditions _ _ _ _ _ _ _ _ Hrun))).
Defined.

Lemma forward_checks_size_witness :
  (exists msg,
     Diffusion.forward (Concrete.diffusion 1) [[[[Concrete.f32 1; Concrete.f32 5]]]]
       (Some Concrete.given_noise) None 1 = Raise (AssertionError msg)) /\
  Diffusion.forward (Concrete.diffusion 1) Concrete.image (Some Concrete.given_noise) None 1 =
    Diffusion.p_losses (Concrete.diffusion 1) (normalize Concrete.parent Concrete.image) [1]
      (Some Concrete.given_noise) None 2.
Proof.
  split.
  - apply (proj1 (forward_checks_size (TL := Concrete.torch) (Concrete.diffusion 1)
                    [[[[Concrete.f32 1; Concrete.f32 5]]]] (Some Concrete.given_noise) None
                    1 1 1 1 2 eq_refl)).
    cbn. intros [=].
  - exact (proj2 (proj2 (forward_checks_size (TL := Concrete.torch) (Concrete.diffusion 1)
                           Concrete.image (Some Concrete.given_noise) None 1 1 1 1 3 eq_refl))
                 eq_refl).
Defined.

Section PriorInLoss.
Context {F : Type} `{Scalar F} `{TL : Torch F} `{!DeepImagePrior F}
        `{!GaussianDiffusionMethods F}.
Import Diffusion.

(** When the noise is handed to [p_losses] (as the training loop does),
    the prior network enters the loss through the auxiliary term alone:
    two objects that differ only in their prior network compute the same
    diffusion term, consume the generator alike, and their totals are
    that term plus their own auxiliary terms. *)
Theorem prior_enters_through_auxiliary_term (self : t) (dip' : Module F)
    (x_start : Tensor4 F) (t : list Z) (noise : Tensor4 F) (strength : option F) (rng : Rng)
    (total total' : F) (rng1 rng2 : Rng) :
  let self' := mk (super self) dip' (dip_input_depth self) in
  p_losses self x_start t (Some noise) strength rng = Ok (total, rng1) ->
  p_losses self' x_start t (Some noise) strength rng = Ok (total', rng2) ->
  rng1 = rng2 /\
  exists main aux aux',
    auxiliary_term self x_start rng = Ok aux /\
    auxiliary_term self' x_start rng = Ok aux' /\
    total = fadd main aux /\ total' = fadd main aux'.
Proof.
  intros self'. unfold p_losses, auxiliary_term, prior_output. cbn [super dip_input_depth dip_model self'].
  destruct (tshape x_start) as [[[b c] h] w].
  destruct (get_noise (dip_input_depth self) (h, w) rng) as [input g1]. cbn [fst].
  destruct (expand [input] b) as [dip_input|]; [|discriminate]. cbn [rbind default].
  destruct (default strength _) as [st|]; [|discriminate]. cbn [rbind].
  destruct (if fltb fzero st then _ else _) as [[noise_used g2]|]; [|discriminate].
  cbn [rbind].
  destruct (if self_condition (super self) then _ else _) as [x_self_cond g3].
  destruct (if String.eqb _ _ then _ else _) as [target|]; [|discriminate]. cbn [rbind].
  destruct (mse_loss_none _ target) as [sq|]; [|discriminate]. cbn [rbind].
  destruct (extract _ t) as [weights|]; [|discriminate]. cbn [rbind].
  destruct (broadcast2 _ _ weights) as [weighted|]; [|discriminate]. cbn [rbind].
  destruct (mse_loss (dip_net (dip_model self) dip_input) x_start) as [mse|]; [|discriminate].
  destruct (mse_loss (dip_net dip' dip_input) x_start) as [mse'|]; [|discriminate].
  cbn [rbind].
  destruct (py_index _ (-1)) as [lw|]; [|discriminate]. cbn [rbind].
  intros [= <- <-] [= <- <-]. split; [reflexivity|].
  by eexists _, _, _.
Qed.
End PriorInLoss.

(** ** The prior-network trainer *)

Section MoreDIPTrainerProperties.
Context {F : Type} `{Scalar F} `{TL : Torch F} `{!DeepImagePrior F}
        `{OP : Optimizer F} `{!Autograd F}.
Import DIPTrainer.

(** [save_noise] puts the network in evaluation mode and changes nothing
    else of the trainer. When it returns it has written one file, named
    [filename] in the results folder, holding the first batch entry of
    [normalize_norm_dist (predict() - train_img)]; when it raises (the
    prediction and the target do not broadcast, or the batch is empty) it
    has written nothing. *)
Theorem save_noise_writes_first_entry (filename : string) (w w' : world) (r : result unit) :
  save_noise filename w = (r, w') ->
  let out := dip_net (eval (model (self w))) (model_input (self w)) in
  self w' = self (after_predict w) /\
  match r with
  | Ok _ =>
    exists d n0,
      tsub out (train_img (self w)) = Ok d /\
      normalize_norm_dist d !! 0%nat = Some n0 /\
      fs w' = <[path_join (result_folder (self w)) filename := PickledTensor n0]> (fs w)
  | Raise e =>
    fs w' = fs w /\
    (is_RuntimeError e /\ tsub out (train_img (self w)) = Raise e \/
     e = IndexError /\ tsub out (train_img (self w)) = Ok [])
  end.
Proof.
  unfold save_noise, bind. rewrite generate_noise_run.
  destruct (tsub _ _) as [d|e] eqn:Hd; cbn [rmap rbind].
  2:{ intros [= <- <-]. split; [reflexivity|]. split; [reflexivity|]. left.
      split; [|reflexivity]. by eapply tbinop_Raise. }
  unfold lift, gets, write, modify, py_index. cbn [length].
  destruct (normalize_norm_dist d) as [|n0 rest] eqn:Hn.
  - cbn. intros [= <- <-]. split; [reflexivity|]. split; [reflexivity|]. right.
    split; [reflexivity|]. destruct d; [reflexivity|discriminate].
  - replace (0 <? 0) with false by reflexivity. cbn [orb].
    replace (Z.of_nat (length (n0 :: rest)) <=? 0) with false
      by (symmetry; apply Z.leb_gt; cbn [length]; lia).
    cbn. intros [= <- <-]. split; [reflexivity|]. exists d, n0. by rewrite Hn.
Qed.

(** What an iteration of [train] that does not raise leaves on disk, for
    the step counter [s'] it has just reached: when [predict_every]
    divides [s'], the image [dip_<s'>.png] of the prediction of the
    updated network; when [save_every] divides [s'], the checkpoint
    [dip_model_<s' // save_every>.pth] holding [s'], the tensors as the
    optimizer step left them and the fixed input; no other file is
    touched. The network is left in evaluation mode when the image was
    saved and in training mode otherwise. *)
Theorem dip_train_iteration_files (pe se : Z) (w w' : world) (u : unit) :
  train_iteration pe se w = (Ok u, w') ->
  let s' := step (self w) + 1 in
  let folder := result_folder (self w) in
  let image := path_join folder ("dip_" +:+ py_str (MInt s') +:+ ".png") in
  let ckpt := path_join folder ("dip_model_" +:+ py_str (MInt (s' / se)) +:+ ".pth") in
  let data : gmap string (pyval F OptState) :=
    {[ "step" := PyInt s';
       "model" := PyStateDict (tensors (model (self w')));
       "model_input" := PyTensor (model_input (self w)) ]} in
  pe <> 0 /\ se <> 0 /\
  step (self w') = s' /\
  fs w' =
    (if s' mod se =? 0 then <[ckpt := PickledDict data]> else id)
      ((if s' mod pe =? 0
        then <[image := ImageFile (dip_net (eval (model (self w'))) (model_input (self w)))]>
        else id) (fs w)) /\
  training (model (self w')) = negb (s' mod pe =? 0).
Proof.
  destruct w as [[m d ti rf sz o mi st] files].
  unfold train_iteration, bind, update, modify, gets, lift, save_image, predict, save,
    write, bind, update, modify, gets, ret. cbn.
  destruct (mse_loss_ad _ ti) as [loss|e]; cbn; [|discriminate].
  destruct (opt_step o (tensors m) (backward loss ∅)) as [o' ts']; cbn.
  unfold py_mod, py_floordiv.
  destruct (pe =? 0) eqn:Hpe; cbn; [discriminate|].
  destruct ((st + 1) mod pe =? 0); cbn.
  all: destruct (se =? 0) eqn:Hse; cbn; [discriminate|].
  all: destruct ((st + 1) mod se =? 0); cbn; rewrite ?Hse; cbn.
  all: intros Heq; simplify_eq; cbn; apply Z.eqb_neq in Hpe, Hse; done.
Qed.

(** A zero [predict_every] or [save_every] makes [train] raise
    [ZeroDivisionError] in its first iteration, after that iteration's
    optimizer step and the increment of the step counter; a [train]
    whose target is already reached does not look at them. *)
Theorem dip_train_zero_period (w : world) (n pe se : Z) (fuel : nat) :
  pe = 0 \/ se = 0 ->
  (n <= step (self w) -> train (S fuel) n pe se w = Some (Ok tt, w)) /\
  (step (self w) < n ->
   forall loss,
     mse_loss_ad (dip_net_ad (fresh_grads (model (self w))) (model_input (self w)))
                 (train_img (self w)) = Ok loss ->
     exists w',
       train (S fuel) n pe se w = Some (Raise ZeroDivisionError, w') /\
       step (self w') = step (self w) + 1 /\
       opt_step (opt (self w)) (tensors (model (self w))) (backward loss ∅) =
         (opt (self w'), tensors (model (self w')))).
Proof.
  intros Hzero. unfold train. cbn [while]. split.
  - intros Hn. by replace (step (self w) <? n) with false by (symmetry; apply Z.ltb_ge; lia).
  - intros Hn loss Hloss.
    replace (step (self w) <? n) with true by (symmetry; apply Z.ltb_lt; lia).
    destruct w as [[m d ti rf sz o mi st] files]. cbn in Hloss. unfold fresh_grads in Hloss.
    unfold train_iteration, bind, update, modify, gets, lift, save_image, predict, save,
      write, bind, update, modify, gets, ret, py_mod, py_floordiv. cbn.
    rewrite Hloss. cbn.
    destruct (opt_step o (tensors m) (backward loss ∅)) as [o' ts'] eqn:Hopt. cbn.
    destruct (pe =? 0) eqn:Hpe; cbn.
    { by eexists. }
    assert ((se =? 0) = true) as Hse.
    { apply Z.eqb_eq. destruct Hzero as [->| ->]; [discriminate|reflexivity]. }
    destruct ((st + 1) mod pe =? 0); cbn; rewrite Hse; cbn; by eexists.
Qed.

Lemma train_iteration_quiet (pe se : Z) (w : world) :
  0 <= step (self w) -> step (self w) + 1 < pe -> step (self w) + 1 < se ->
  (exists loss,
     mse_loss_ad (dip_net_ad (fresh_grads (model (self w))) (model_input (self w)))
                 (train_img (self w)) = Ok loss) ->
  exists w', train_iteration pe se w = (Ok tt, w') /\
    fs w' = fs w /\ step (self w') = step (self w) + 1 /\
    training (model (self w')) = true /\
    model_input (self w') = model_input (self w) /\
    train_img (self w') = train_img (self w) /\
    result_folder (self w') = result_folder (self w) /\
    dip_input_depth (self w') = dip_input_depth (self w).
Proof.
  intros Hs Hpe Hse [loss Hloss].
  destruct w as [[m d ti rf sz o mi st] files]. cbn in *. unfold fresh_grads in Hloss.
  unfold train_iteration, bind, update, modify, gets, lift, save_image, predict, save,
    write, bind, update, modify, gets, ret, py_mod, py_floordiv. cbn.
  rewrite Hloss. cbn.
  destruct (opt_step o (tensors m) (backward loss ∅)) as [o' ts']. cbn.
  replace (pe =? 0) with false by (symmetry; apply Z.eqb_neq; lia). cbn.
  replace ((st + 1) mod pe =? 0) with false
    by (symmetry; apply Z.eqb_neq; rewrite Z.mod_small; lia). cbn.
  replace (se =? 0) with false by (symmetry; apply Z.eqb_neq; lia). cbn.
  replace ((st + 1) mod se =? 0) with false
    by (symmetry; apply Z.eqb_neq; rewrite Z.mod_small; lia). cbn.
  eexists. split; [reflexivity|]. cbn. done.
Qed.

Lemma repeat_train_iteration_quiet (pe se : Z) (k : nat) (w : world) :
  0 <= step (self w) -> step (self w) + Z.of_nat k < pe -> step (self w) + Z.of_nat k < se ->
  (forall m, exists loss,
     mse_loss_ad (dip_net_ad m (model_input (self w))) (train_img (self w)) = Ok loss) ->
  exists w', repeatM k (train_iteration pe se) w = (Ok tt, w') /\
    fs w' = fs w /\ step (self w') = step (self w) + Z.of_nat k /\
    (k <> 0%nat -> training (model (self w')) = true) /\
    model_input (self w') = model_input (self w) /\
    train_img (self w') = train_img (self w) /\
    result_folder (self w') = result_folder (self w) /\
    dip_input_depth (self w') = dip_input_depth (self w).
Proof.
  revert w. induction k as [|k IH]; intros w Hs Hpe Hse Hfit.
  - exists w. cbn. repeat split; try done. lia.
  - cbn [repeatM]. unfold bind.
    destruct (train_iteration_quiet pe se w Hs ltac:(lia) ltac:(lia) (Hfit _))
      as (w1 & H1 & Hfs & Hstep & Htr & Hmi & Hti & Hrf & Hd).
    rewrite H1.
    destruct (IH w1) as (w2 & H2 & Hfs2 & Hstep2 & Htr2 & Hmi2 & Hti2 & Hrf2 & Hd2);
      [lia..| |].
    { rewrite Hmi, Hti. exact Hfit. }
    exists w2. split; [exact H2|].
    rewrite Hfs2, Hstep2, Hmi2, Hti2, Hrf2, Hd2, Hfs, Hstep, Hmi, Hti, Hrf, Hd.
    repeat split; try done; [lia|]. intros _.
    destruct k as [|k]; [|by apply Htr2]. cbn in H2. by injection H2 as <-.
Qed.

Lemma dip_train_quiet (w : world) (n pe se : Z) (fuel : nat) :
  0 <= step (self w) -> n < pe -> n < se ->
  (Z.to_nat (n - step (self w)) < fuel)%nat ->
  (forall m, exists loss,
     mse_loss_ad (dip_net_ad m (model_input (self w))) (train_img (self w)) = Ok loss) ->
  exists w', train fuel n pe se w = Some (Ok tt, w') /\
    fs w' = fs w /\
    step (self w') = Z.max (step (self w)) n /\
    (step (self w) < n -> training (model (self w')) = true) /\
    model_input (self w') = model_input (self w) /\
    train_img (self w') = train_img (self w) /\
    result_folder (self w') = result_folder (self w).
Proof.
  intros Hs Hpe Hse Hfuel Hfit. unfold train.
  rewrite (while_counts_up (fun w => step (self w)) (train_iteration pe se)
             (train_iteration_counts pe se) n fuel w Hfuel).
  destruct (Z_lt_le_dec (step (self w)) n) as [Hlt|Hge].
  - destruct (repeat_train_iteration_quiet pe se (Z.to_nat (n - step (self w))) w)
      as (w' & Hrun & Hfs & Hstep & Htr & Hmi & Hti & Hrf & _); [lia..|exact Hfit|].
    exists w'. rewrite Hrun. split; [reflexivity|]. split; [exact Hfs|]. split; [lia|].
    split; [|done]. intros _. apply Htr. lia.
  - replace (Z.to_nat (n - step (self w))) with 0%nat by lia.
    exists w. cbn. repeat split; lia.
Qed.

(** [train] towards a total below both periods (their defaults are
    10000) returns, given fuel for its iterations, having written no
    file: neither a prediction image nor a checkpoint. It leaves the step
    counter at the total and, when it made an iteration, the network in
    training mode. *)
Theorem dip_train_below_periods_writes_nothing (w : world) (n pe se : Z) (fuel : nat) :
  0 <= step (self w) -> n < pe -> n < se ->
  (Z.to_nat (n - step (self w)) < fuel)%nat ->
  (forall m, exists loss,
     mse_loss_ad (dip_net_ad m (model_input (self w))) (train_img (self w)) = Ok loss) ->
  exists w', train fuel n pe se w = Some (Ok tt, w') /\
    fs w' = fs w /\
    step (self w') = Z.max (step (self w)) n /\
    (step (self w) < n -> training (model (self w')) = true).
Proof.
  intros Hs Hpe Hse Hfuel Hfit.
  destruct (dip_train_quiet w n pe se fuel Hs Hpe Hse Hfuel Hfit)
    as (w' & Hrun & Hfs & Hstep & Htr & _).
  by exists w'.
Qed.

Lemma dip_load_missing (m : milestone) (w : world) :
  let path := path_join (result_folder (self w)) ("dip_model_" +:+ py_str m +:+ ".pth") in
  fs w !! path = None -> load m w = (Raise (FileNotFoundError path), w).
Proof.
  intros path Hnone. unfold load, bind, gets, lift, torch_load_dict. fold path.
  by rewrite Hnone.
Qed.

(** [load] overwrites the step counter before it loads the network's
    tensors: when the checkpoint's tensors do not fit the network,
    [load] raises with the step counter already that of the checkpoint
    (and the fixed input still the trainer's own). *)
Theorem dip_load_sets_step_first (m : milestone) (w w' : world) (data : gmap string (pyval F OptState))
    (n : Z) (sd : gmap string (list F)) (e : exn) (r : result unit) :
  fs w !! path_join (result_folder (self w)) ("dip_model_" +:+ py_str m +:+ ".pth") =
    Some (PickledDict data) ->
  data !! "step" = Some (PyInt n) ->
  data !! "model" = Some (PyStateDict sd) ->
  load_state_dict (model (self w)) sd = Raise e ->
  load m w = (r, w') ->
  r = Raise e /\ step (self w') = n /\
  model_input (self w') = model_input (self w) /\ fs w' = fs w.
Proof.
  intros Hfile Hstep Hmodel Hsd.
  unfold load, bind, gets, lift, update, modify, torch_load_dict, getitem.
  rewrite Hfile, Hstep. cbn. rewrite Hmodel. cbn. rewrite Hsd.
  by intros [= <- <-].
Qed.
End MoreDIPTrainerProperties.

Section MoreTrainerLoad.
Context {F : Type} `{Scalar F} `{TL : Torch F} `{OP : Optimizer F} `{!Autograd F}
        `{!DataLoader F} `{!Evaluation F}.
Import Trainer.

Lemma trainer_load_missing (m : milestone) (w : world) :
  let path := path_join (results_folder (self w)) ("model-" +:+ py_str m +:+ ".pt") in
  fs w !! path = None -> load m w = (Raise (FileNotFoundError path), w).
Proof.
  intros path Hnone. unfold load, bind, gets, lift, torch_load_dict. fold path.
  by rewrite Hnone.
Qed.

(** [load] restores the model and the step counter before the optimizer:
    when the checkpoint's optimizer state does not have the parameter
    groups of the trainer's optimizer, [load] raises a [ValueError]
    with the model's tensors and the step counter already those of the
    checkpoint, and the optimizer as it was. *)
Theorem trainer_load_restores_optimizer_last (m : milestone) (w w' : world)
    (data : gmap string (pyval F OptState)) (n : Z) (sd : gmap string (list F)) (o : OptState)
    (r : result unit) :
  fs w !! path_join (results_folder (self w)) ("model-" +:+ py_str m +:+ ".pt") =
    Some (PickledDict data) ->
  data !! "step" = Some (PyInt n) ->
  data !! "model" = Some (PyStateDict sd) ->
  data !! "opt" = Some (PyOptState o) ->
  dom sd = dom (tensors (model (self w))) ->
  same_sizes sd (tensors (model (self w))) = true ->
  opt_compatible (opt (self w)) o = false ->
  load m w = (r, w') ->
  (exists msg, r = Raise (ValueError msg)) /\
  state_dict (model (self w')) = sd /\ step (self w') = n /\ opt (self w') = opt (self w).
Proof.
  intros Hfile Hstep Hmodel Hopt Hdom Hsz Hcompat.
  unfold load, bind, gets, lift, update, modify, torch_load_dict, getitem.
  rewrite Hfile, Hmodel. cbn. rewrite load_state_dict_same_names by done. cbn.
  rewrite Hstep. cbn. rewrite Hopt. cbn. unfold opt_load_state_dict. rewrite Hcompat.
  intros [= <- <-]. split; [by eexists|done].
Qed.
End MoreTrainerLoad.

(** For both trainers, [load] of a milestone whose checkpoint file does
    not exist raises [FileNotFoundError] and leaves the trainer as it
    was. *)
Theorem load_missing_checkpoint :
  (forall `{Scalar F} `{TL : Torch F} `{OP : Optimizer F} `{!Autograd F} `{!DataLoader F}
          `{!Evaluation F} (m : milestone) (w : Trainer.world),
     let path := path_join (Trainer.results_folder (Trainer.self w))
                           ("model-" +:+ py_str m +:+ ".pt") in
     Trainer.fs w !! path = None ->
     Trainer.load m w = (Raise (FileNotFoundError path), w)) /\
  (forall `{Scalar F} `{TL : Torch F} `{!DeepImagePrior F} `{OP : Optimizer F} `{!Autograd F}
          (m : milestone) (w : DIPTrainer.world),
     let path := path_join (DIPTrainer.result_folder (DIPTrainer.self w))
                           ("dip_model_" +:+ py_str m +:+ ".pth") in
     DIPTrainer.fs w !! path = None ->
     DIPTrainer.load m w = (Raise (FileNotFoundError path), w)).
Proof.
  split.
  - intros. by apply trainer_load_missing.
  - intros. by apply dip_load_missing.
Qed.

(** ** Checkpoint files *)

Lemma to_int_not_nil (z : Z) :
  Z.to_int z <> Decimal.Pos Decimal.Nil /\ Z.to_int z <> Decimal.Neg Decimal.Nil.
Proof.
  split; intros Hnil; pose proof (DecimalZ.of_to z) as Hz; rewrite Hnil in Hz; cbn in Hz;
    subst z; discriminate.
Qed.

Lemma py_str_int_inj (a b : Z) : py_str (MInt a) = py_str (MInt b) -> a = b.
Proof.
  cbn [py_str]. intros Heq. apply DecimalZ.to_int_inj.
  destruct (to_int_not_nil a) as [Ha1 Ha2]. destruct (to_int_not_nil b) as [Hb1 Hb2].
  pose proof (NilZero.isi _ Ha1 Ha2) as Hia. pose proof (NilZero.isi _ Hb1 Hb2) as Hib.
  rewrite Heq in Hia. congruence.
Qed.

Lemma string_app_cons (c : Ascii.ascii) (s1 s2 : string) :
  String c s1 +:+ s2 = String c (s1 +:+ s2).
Proof. reflexivity. Qed.

Lemma string_app_inj_l (p s1 s2 : string) : p +:+ s1 = p +:+ s2 -> s1 = s2.
Proof.
  induction p as [|c p IH]; [done|]. rewrite !string_app_cons. intros [= Heq]. by apply IH.
Qed.

Lemma string_app_length (s1 s2 : string) :
  String.length (s1 +:+ s2) = (String.length s1 + String.length s2)%nat.
Proof.
  induction s1 as [|c s1 IH]; [done|]. rewrite string_app_cons. cbn [String.length].
  by rewrite IH.
Qed.

Lemma string_app_inj_r (s1 s2 t : string) : s1 +:+ t = s2 +:+ t -> s1 = s2.
Proof.
  revert s2. induction s1 as [|c s1 IH]; intros [|c2 s2] Heq.
  - reflexivity.
  - apply (f_equal String.length) in Heq. rewrite !string_app_length in Heq.
    cbn [String.length] in Heq. lia.
  - apply (f_equal String.length) in Heq. rewrite !string_app_length in Heq.
    cbn [String.length] in Heq. lia.
  - rewrite !string_app_cons in Heq. injection Heq as -> Heq. f_equal. by apply IH.
Qed.

Lemma checkpoint_path_inj (folder pre suf : string) (a b : Z) :
  path_join folder (pre +:+ py_str (MInt a) +:+ suf) =
    path_join folder (pre +:+ py_str (MInt b) +:+ suf) -> a = b.
Proof.
  unfold path_join. intros Heq.
  apply string_app_inj_l, string_app_inj_l, string_app_inj_l, string_app_inj_r in Heq.
  by apply py_str_int_inj.
Qed.

(** For both trainers, [save] under an integer milestone writes the one
    file of that milestone: the checkpoint of any other integer
    milestone, and every other file, is as it was. *)
Theorem save_keeps_other_milestones :
  (forall `{Scalar F} `{TL : Torch F} `{OP : Optimizer F} `{!Autograd F} `{!DataLoader F}
          `{!Evaluation F} (a b : Z) (w : Trainer.world),
     let path (m : Z) := path_join (Trainer.results_folder (Trainer.self w))
                                   ("model-" +:+ py_str (MInt m) +:+ ".pt") in
     (a <> b -> path a <> path b) /\
     is_Some (Trainer.fs (snd (Trainer.save (MInt b) w)) !! path b) /\
     forall p, p <> path b -> Trainer.fs (snd (Trainer.save (MInt b) w)) !! p = Trainer.fs w !! p) /\
  (forall `{Scalar F} `{TL : Torch F} `{!DeepImagePrior F} `{OP : Optimizer F} `{!Autograd F}
          (a b : Z) (w : DIPTrainer.world),
     let path (m : Z) := path_join (DIPTrainer.result_folder (DIPTrainer.self w))
                                   ("dip_model_" +:+ py_str (MInt m) +:+ ".pth") in
     (a <> b -> path a <> path b) /\
     is_Some (DIPTrainer.fs (snd (DIPTrainer.save (MInt b) w)) !! path b) /\
     forall p, p <> path b ->
       DIPTrainer.fs (snd (DIPTrainer.save (MInt b) w)) !! p = DIPTrainer.fs w !! p).
Proof.
  split.
  - intros F HS TL OP HA HD HE a b w path. split; [|split].
    + intros Hne Heq. apply Hne. by eapply checkpoint_path_inj.
    + cbn. rewrite lookup_insert_eq. by eexists.
    + intros p Hp. cbn. by rewrite lookup_insert_ne.
  - intros F HS TL HP OP HA a b w path. split; [|split].
    + intros Hne Heq. apply Hne. by eapply checkpoint_path_inj.
    + cbn. rewrite lookup_insert_eq. by eexists.
    + intros p Hp. cbn. by rewrite lookup_insert_ne.
Qed.

(** ** The diffusion trainer *)

Section TrainerRuns.
Context {F : Type} `{Scalar F} `{TL : Torch F} `{OP : Optimizer F} `{!Autograd F}
        `{!DataLoader F} `{!Evaluation F}.
Import Trainer.

(** [__init__] returns only when the number of samples passes
    [has_int_squareroot], the effective batch size is at least 16, the
    dataset holds at least 100 images, and [save_best_and_latest_only]
    comes with [calculate_fid]; the trainer it returns is at step 0 with
    the data loader at its start, and holds a best FID score (of 1e10)
    only with [save_best_and_latest_only]. The first three assertions
    fail in this order with an [AssertionError]; an exception of
    [has_int_squareroot] itself (a negative number of samples) comes
    first. *)
Theorem trainer_init_requires (diffusion_model : Module F) (dataset_len : Z) (c : config) :
  (forall s, init diffusion_model dataset_len c = Ok s ->
     has_int_squareroot (cfg_num_samples c) = Ok true /\
     16 <= train_batch_size c * cfg_gradient_accumulate_every c /\
     100 <= dataset_len /\
     (cfg_save_best_and_latest_only c = true -> cfg_calculate_fid c = true) /\
     step s = 0 /\ dl s = (0%nat, 0%nat) /\ model s = diffusion_model /\
     max_grad_norm s = cfg_max_grad_norm c /\
     best_fid s = if cfg_save_best_and_latest_only c then Some (of_Z (10 ^ 10)) else None) /\
  (forall e, has_int_squareroot (cfg_num_samples c) = Raise e ->
     init diffusion_model dataset_len c = Raise e) /\
  (has_int_squareroot (cfg_num_samples c) = Ok false ->
   init diffusion_model dataset_len c =
     Raise (AssertionError "number of samples must have an integer square root")) /\
  (has_int_squareroot (cfg_num_samples c) = Ok true ->
   train_batch_size c * cfg_gradient_accumulate_every c < 16 ->
   init diffusion_model dataset_len c =
     Raise (AssertionError "your effective batch size should be at least 16 or above")) /\
  (has_int_squareroot (cfg_num_samples c) = Ok true ->
   16 <= train_batch_size c * cfg_gradient_accumulate_every c ->
   dataset_len < 100 ->
   init diffusion_model dataset_len c =
     Raise (AssertionError "you should have at least 100 images in your folder")).
Proof.
  unfold init, assert. split; [|split; [|split; [|split]]].
  - intros s.
    destruct (has_int_squareroot (cfg_num_samples c)) as [[|]|e0]; cbn [rbind];
      [|discriminate..].
    destruct (16 <=? _) eqn:H16; cbn [rbind]; [|discriminate].
    destruct (100 <=? dataset_len) eqn:H100; cbn [rbind]; [|discriminate].
    apply Z.leb_le in H16, H100.
    destruct (cfg_save_best_and_latest_only c) eqn:Hbest;
      [destruct (cfg_calculate_fid c) eqn:Hfid|]; cbn [rbind]; [|discriminate|].
    + by intros [= <-].
    + by intros [= <-].
  - by intros e ->.
  - by intros ->.
  - intros -> Hlt. cbn [rbind].
    by replace (16 <=? _) with false by (symmetry; apply Z.leb_gt; lia).
  - intros -> Hge Hlt. cbn [rbind].
    replace (16 <=? _) with true by (symmetry; apply Z.leb_le; lia). cbn [rbind].
    by replace (100 <=? dataset_len) with false by (symmetry; apply Z.leb_gt; lia).
Qed.
















End TrainerRuns.

(** ** The data pipeline *)

Section CollateProperties.
Context {F : Type} `{Scalar F} `{TL : Torch F} `{OP : Optimizer F} `{!Imaging F}.

Lemma torch_stack_Ok (l : list (Tensor3 F)) (x : Tensor4 F) :
  torch_stack l = Ok x -> x = l /\ l <> [] /\ forall y z, y ∈ l -> z ∈ l -> shape3 y = shape3 z.
Proof.
  unfold torch_stack. destruct l as [|x0 rest]; [discriminate|].
  destruct (forallb _ rest) eqn:Hall; [|discriminate]. intros [= <-].
  split; [reflexivity|]. split; [discriminate|].
  rewrite forallb_forall in Hall.
  assert (forall y, y ∈ x0 :: rest -> shape3 y = shape3 x0) as Hx0.
  { intros y Hy. apply elem_of_cons in Hy as [->|Hy]; [reflexivity|].
    apply list_elem_of_In, Hall in Hy. by apply bool_decide_eq_true in Hy. }
  intros y z Hy Hz. by rewrite (Hx0 y Hy), (Hx0 z Hz).
Qed.

Lemma as_tensors_Ok (l : list (loaded F)) (xs : list (Tensor3 F)) :
  as_tensors l = Ok xs -> l = map LoadedTensor xs.
Proof.
  unfold as_tensors. rewrite mapM_Ok_Forall2. intros Hall.
  induction Hall as [|v x l xs Hv _ IH]; [reflexivity|].
  destruct v as [x'|d]; [|discriminate]. injection Hv as ->. cbn. by rewrite IH.
Qed.

(** [collate_fn] keeps every image with its noise: when it returns, the
    batch is the images of the first tensor paired, position by position,
    with the noise tensors of the second; the images are of one size and
    so are the noise tensors (an image and its noise need not be of the
    same size). An empty batch raises a [ValueError]. *)
Theorem collate_fn_keeps_pairs (batch : list (Tensor3 F * loaded F)) :
  (forall data noise,
     collate_fn batch = Ok (data, noise) ->
     batch = zip data (map LoadedTensor noise) /\
     length data = length batch /\ length noise = length batch /\
     batch <> [] /\
     (forall y z, y ∈ data -> z ∈ data -> shape3 y = shape3 z) /\
     (forall y z, y ∈ noise -> z ∈ noise -> shape3 y = shape3 z)) /\
  (batch = [] ->
   collate_fn batch = Raise (ValueError "not enough values to unpack (expected 2, got 0)")).
Proof.
  split; [|by intros ->].
  intros data noise. unfold collate_fn.
  destruct batch as [|b0 batch]; [discriminate|]. set (b := b0 :: batch).
  destruct (torch_stack (map fst b)) as [d|] eqn:Hd; [|discriminate]. cbn [rbind].
  destruct (as_tensors (map snd b)) as [ns|] eqn:Hns; [|discriminate]. cbn [rbind].
  destruct (torch_stack ns) as [n|] eqn:Hn; [|discriminate]. cbn [rbind].
  intros [= <- <-].
  apply torch_stack_Ok in Hd as (-> & _ & Hdsz).
  apply torch_stack_Ok in Hn as (-> & _ & Hnsz).
  apply as_tensors_Ok in Hns.
  assert (length ns = length b) as Hlen.
  { rewrite <- (length_map snd b), Hns. by rewrite length_map. }
  split; [|by rewrite length_map].
  rewrite <- Hns. clear. induction b as [|[x v] b IH]; [reflexivity|]. cbn. by rewrite <- IH.
Qed.
End CollateProperties.

Section DatasetProperties.
Context {F : Type} `{Scalar F} `{TL : Torch F} `{OP : Optimizer F} `{!Imaging F} `{!Pathlib}
        `{!Pickle}.
Import Dataset.

Lemma getitem_run (self : t) (index : Z) (files : gmap string (file F OptState)) (rng : Rng)
    (path : string) (img : PILImage) :
  py_index (paths self) index = Ok path ->
  read_file image_open files path = Ok img ->
  __getitem__ self index files rng =
    let* noise := torch_load files (path_join (noise_folder self) (stem path +:+ ".pth")) in
    Ok ((fst (transform self img rng), noise), snd (transform self img rng)).
Proof.
  intros Hpath Himg. unfold __getitem__. rewrite Hpath. cbn [rbind]. rewrite Himg. cbn [rbind].
  destruct (torch_load _ _); [|reflexivity]. cbn [rbind].
  by destruct (transform self img rng).
Qed.

(** [__getitem__] looks the noise up by the stem of the image path
    alone. For an index within the paths (negative indices count from
    the end) whose image opens: a missing noise file raises
    [FileNotFoundError], nothing being generated on the fly; a noise file
    holding a tensor is returned as it is, beside the transformed image;
    and two images with the same stem (in different folders, or with
    different extensions) get the same noise. *)
Theorem dataset_noise_by_stem (self : t) (index : Z) (files : gmap string (file F OptState))
    (rng : Rng) (path : string) (img : PILImage) :
  py_index (paths self) index = Ok path ->
  read_file image_open files path = Ok img ->
  let noise_path := path_join (noise_folder self) (stem path +:+ ".pth") in
  (files !! noise_path = None ->
   __getitem__ self index files rng = Raise (FileNotFoundError noise_path)) /\
  (forall x, files !! noise_path = Some (PickledTensor x) ->
   __getitem__ self index files rng =
     Ok ((fst (transform self img rng), LoadedTensor x), snd (transform self img rng))) /\
  (forall index' path' img' rng' item item' g g',
     py_index (paths self) index' = Ok path' ->
     read_file image_open files path' = Ok img' ->
     stem path' = stem path ->
     __getitem__ self index files rng = Ok (item, g) ->
     __getitem__ self index' files rng' = Ok (item', g') ->
     snd item' = snd item).
Proof.
  intros Hpath Himg noise_path. rewrite (getitem_run _ _ _ _ _ _ Hpath Himg).
  fold noise_path. unfold torch_load, read_file. split; [|split].
  - by intros ->.
  - by intros x ->.
  - intros index' path' img' rng' item item' g g' Hpath' Himg' Hstem.
    rewrite (getitem_run _ _ _ _ _ _ Hpath' Himg'). rewrite Hstem. fold noise_path.
    unfold torch_load, read_file.
    destruct (files !! noise_path) as [[d|x|px]|]; cbn [rbind]; try discriminate.
    + by intros [= <- _] [= <- _].
    + by intros [= <- _] [= <- _].
Qed.
End DatasetProperties.

Section NoisesProperties.
Context {F : Type} `{Scalar F} `{TL : Torch F} `{!DeepImagePrior F}
        `{OP : Optimizer F} `{!Autograd F} `{!Imaging F} `{!Pathlib}.
Import Noises.

Lemma load_image_agree (files files' : gmap string (file F OptState)) (depth : Z) (p : string) :
  files' !! p = files !! p ->
  DIPTrainer'._load_image files' depth (DIPTrainer'.Str p) =
    DIPTrainer'._load_image files depth (DIPTrainer'.Str p).
Proof. intros Hp. unfold DIPTrainer'._load_image, read_file. by rewrite Hp. Qed.

Lemma trainable_agree (files files' : gmap string (file F OptState)) (depth : Z) (p : string) :
  files' !! p = files !! p -> trainable depth files p -> trainable depth files' p.
Proof.
  intros Hp (img & Himg & Hfit). exists img. split; [|exact Hfit].
  by rewrite (load_image_agree files files').
Qed.

Lemma save_noise_Ok (filename : string) (w : DIPTrainer.world) (d : Tensor4 F)
    (n0 : Tensor3 F) :
  tsub (dip_net (eval (DIPTrainer.model (DIPTrainer.self w)))
                (DIPTrainer.model_input (DIPTrainer.self w)))
       (DIPTrainer.train_img (DIPTrainer.self w)) = Ok d ->
  normalize_norm_dist d !! 0%nat = Some n0 ->
  DIPTrainer.save_noise filename w =
    (Ok tt,
     DIPTrainer.mkWorld (DIPTrainer.self (DIPTrainer.after_predict w))
       (<[path_join (DIPTrainer.result_folder (DIPTrainer.self w)) filename :=
            PickledTensor n0]> (DIPTrainer.fs w))).
Proof.
  intros Hd Hn0. unfold DIPTrainer.save_noise, bind. rewrite generate_noise_run, Hd.
  cbn [rmap rbind]. unfold lift, gets, DIPTrainer.write, modify, py_index.
  destruct (normalize_norm_dist d) as [|n rest]; [discriminate|]. injection Hn0 as ->.
  replace (0 <? 0) with false by reflexivity. cbn [orb].
  replace (Z.of_nat (length (n0 :: rest)) <=? 0) with false
    by (symmetry; apply Z.leb_gt; cbn [length]; lia).
  reflexivity.
Qed.

Lemma generate_noise_image_skip (fuel : nat) (depth : Z) (nf : string) (n : Z) (lr : F)
    (betas : F * F) (p : string) (w : world) :
  is_Some (fs w !! noise_path nf p) ->
  generate_noise_image fuel depth nf n lr betas p w = Some (Ok tt, w).
Proof. intros Hsome. unfold generate_noise_image. by rewrite bool_decide_eq_true_2. Qed.

(** What [generate_noise] does for an image that has no noise file. *)
Lemma generate_noise_image_new (fuel : nat) (depth : Z) (nf : string) (n : Z) (lr : F)
    (betas : F * F) (p : string) (w : world) :
  fs w !! noise_path nf p = None ->
  trainable depth (fs w) p ->
  0 <= n < 10000 -> (Z.to_nat n < fuel)%nat ->
  exists img trainer g tw d n0,
    DIPTrainer'._load_image (fs w) depth (DIPTrainer'.Str p) = Ok img /\
    DIPTrainer.init (dip_model w) depth img lr betas nf (rng w) = (trainer, g) /\
    DIPTrainer.train fuel n 10000 10000 (DIPTrainer.mkWorld trainer (fs w)) = Some (Ok tt, tw) /\
    tsub (dip_net (eval (DIPTrainer.model (DIPTrainer.self tw)))
                  (DIPTrainer.model_input trainer)) img = Ok d /\
    normalize_norm_dist d !! 0%nat = Some n0 /\
    generate_noise_image fuel depth nf n lr betas p w =
      Some (Ok tt,
            mkWorld (eval (DIPTrainer.model (DIPTrainer.self tw)))
                    (<[noise_path nf p := PickledTensor n0]> (fs w)) g).
Proof.
  intros Hnone (img & Himg & Hfit) Hn Hfuel.
  unfold generate_noise_image. rewrite bool_decide_eq_false_2 by (rewrite Hnone; by intros [? ?]).
  unfold DIPTrainer'.init. rewrite Himg. cbn [rbind].
  destruct (DIPTrainer.init (dip_model w) depth img lr betas nf (rng w)) as [trainer g] eqn:Hinit.
  assert (DIPTrainer.step trainer = 0 /\ DIPTrainer.train_img trainer = img /\
          DIPTrainer.result_folder trainer = nf /\
          forall m, (exists loss, mse_loss_ad (dip_net_ad m (DIPTrainer.model_input trainer)) img
                                    = Ok loss) /\
                    (exists d rest n0,
                       tsub (dip_net m (DIPTrainer.model_input trainer)) img = Ok (d :: rest) /\
                       normalize_norm_dist (d :: rest) !! 0%nat = Some n0))
    as (Hstep & Himg' & Hfolder & Hfit').
  { unfold DIPTrainer.init in Hinit.
    destruct (tshape img) as [[[b c] h] w0].
    destruct (get_noise depth (h, w0) (rng w)) as [input g0] eqn:Hinput.
    injection Hinit as <- <-. cbn. repeat split; try reflexivity.
    - specialize (Hfit m (rng w)). cbn in Hfit. rewrite Hinput in Hfit. apply Hfit.
    - specialize (Hfit m (rng w)). cbn in Hfit. rewrite Hinput in Hfit. apply Hfit. }
  destruct (dip_train_quiet (DIPTrainer.mkWorld trainer (fs w)) n 10000 10000 fuel)
    as (tw & Htrain & Hfs & _ & _ & Hmi & Hti & Hrf); cbn [DIPTrainer.self DIPTrainer.fs];
    try lia.
  { rewrite Himg'. intros m. apply Hfit'. }
  cbn [DIPTrainer.self DIPTrainer.fs] in *.
  destruct (Hfit' (eval (DIPTrainer.model (DIPTrainer.self tw)))) as (_ & d & rest & n0 & Hd & Hn0).
  exists img, trainer, g, tw, (d :: rest), n0.
  split; [reflexivity|]. split; [exact Hinit|]. split; [exact Htrain|].
  split; [exact Hd|]. split; [exact Hn0|].
  rewrite Htrain.
  rewrite (save_noise_Ok _ tw (d :: rest) n0); [|by rewrite Hmi, Hti, Himg'|exact Hn0].
  unfold of_trainer. cbn. by rewrite Hrf, Hfolder, Hfs.
Qed.

Lemma generate_noise_all_present (fuel : nat) (depth : Z) (nf : string) (n : Z) (lr : F)
    (betas : F * F) (paths : list string) (w : world) :
  (forall p, p ∈ paths -> is_Some (fs w !! noise_path nf p)) ->
  generate_noise fuel depth nf n lr betas paths w = Some (Ok tt, w).
Proof.
  induction paths as [|p paths IH]; intros Hall; [reflexivity|].
  cbn [generate_noise]. rewrite generate_noise_image_skip by (apply Hall; by left).
  apply IH. intros q Hq. apply Hall. by right.
Qed.

Lemma generate_noise_runs (fuel : nat) (depth : Z) (nf : string) (n : Z) (lr : F)
    (betas : F * F) (paths : list string) (w : world) :
  0 <= n < 10000 -> (Z.to_nat n < fuel)%nat ->
  (forall p, p ∈ paths -> trainable depth (fs w) p) ->
  (forall p q, p ∈ paths -> q ∈ paths -> noise_path nf q <> p) ->
  exists w',
    generate_noise fuel depth nf n lr betas paths w = Some (Ok tt, w') /\
    (forall p, p ∈ paths -> is_Some (fs w' !! noise_path nf p)) /\
    (forall q f, fs w !! q = Some f -> fs w' !! q = Some f) /\
    (forall q f, fs w' !! q = Some f ->
       fs w !! q = Some f \/
       exists p x, p ∈ paths /\ q = noise_path nf p /\ f = PickledTensor x).
Proof.
  intros Hn Hfuel. revert w. induction paths as [|p paths IH]; intros w Htrainable Hdistinct.
  - exists w. split; [reflexivity|]. split; [intros p Hp; by apply elem_of_nil in Hp|].
    split; [done|]. intros q f Hq. by left.
  - cbn [generate_noise].
    assert (exists w1,
      generate_noise_image fuel depth nf n lr betas p w = Some (Ok tt, w1) /\
      is_Some (fs w1 !! noise_path nf p) /\
      (forall q f, fs w !! q = Some f -> fs w1 !! q = Some f) /\
      (forall q f, fs w1 !! q = Some f ->
         fs w !! q = Some f \/ exists x, q = noise_path nf p /\ f = PickledTensor x))
      as (w1 & -> & Hp1 & Hkeep1 & Hnew1).
    { destruct (fs w !! noise_path nf p) as [f0|] eqn:Hnp.
      - exists w. rewrite generate_noise_image_skip by (by rewrite Hnp).
        rewrite Hnp. split; [reflexivity|]. split; [by eexists|]. split; [done|].
        intros q f Hq. by left.
      - destruct (generate_noise_image_new fuel depth nf n lr betas p w Hnp)
          as (img & trainer & g & tw & d & n0 & _ & _ & _ & _ & _ & ->);
          [apply Htrainable; by left|exact Hn|exact Hfuel|].
        eexists. split; [reflexivity|]. cbn [fs]. split; [|split].
        + rewrite lookup_insert_eq. by eexists.
        + intros q f Hq. rewrite lookup_insert_ne; [exact Hq|]. intros <-. congruence.
        + intros q f Hq. destruct (decide (noise_path nf p = q)) as [<-|Hne].
          * rewrite lookup_insert_eq in Hq. injection Hq as <-. right. by eexists.
          * rewrite lookup_insert_ne in Hq by done. by left. }
    destruct (IH w1) as (w' & Hrun & Hall & Hkeep & Hnew).
    { intros q Hq. apply (trainable_agree (fs w)); [|apply Htrainable; by right].
      destruct (fs w1 !! q) as [f|] eqn:Hq1.
      - destruct (Hnew1 q f Hq1) as [Hold|(x & Heq & _)]; [done|].
        exfalso. eapply (Hdistinct q p); [by right|by left|by symmetry].
      - destruct (fs w !! q) as [f|] eqn:Hq0; [|reflexivity].
        apply Hkeep1 in Hq0. congruence. }
    { intros q q' Hq Hq'. apply Hdistinct; by right. }
    exists w'. split; [exact Hrun|]. split; [|split].
    + intros q Hq. apply elem_of_cons in Hq as [->|Hq]; [|by apply Hall].
      destruct Hp1 as [f Hf]. exists f. by apply Hkeep.
    + intros q f Hq. by apply Hkeep, Hkeep1.
    + intros q f Hq. destruct (Hnew q f Hq) as [Hq1|(p' & x & Hp' & -> & ->)].
      * destruct (Hnew1 q f Hq1) as [Hq0|(x & -> & ->)]; [by left|].
        right. exists p, x. split; [by left|done].
      * right. exists p', x. split; [by right|done].
Qed.
End NoisesProperties.

Lemma py_index_elem {A} (l : list A) (i : Z) (a : A) : py_index l i = Ok a -> a ∈ l.
Proof.
  unfold py_index. destruct (_ || _); [discriminate|].
  destruct (l !! _) as [a'|] eqn:Ha; [|discriminate]. intros [= <-].
  by eapply list_elem_of_lookup_2.
Qed.

Section PipelineProperties.
Context {F : Type} `{Scalar F} `{TL : Torch F} `{!DeepImagePrior F}
        `{OP : Optimizer F} `{!Autograd F} `{!Imaging F} `{!Pathlib} `{!Pickle}.
Import Noises.

(** [generate_noise] never regenerates: an image whose noise file exists,
    whatever that file holds, is passed over, and when every image has
    one the call trains nothing, draws nothing and writes nothing. *)
Theorem generate_noise_skips_existing (fuel : nat) (dip_input_depth : Z)
    (noises_folder : string) (train_num_steps : Z) (learning_rate : F) (adam_betas : F * F)
    (paths : list string) (w : world) :
  (forall p, p ∈ paths -> is_Some (fs w !! noise_path noises_folder p)) ->
  generate_noise fuel dip_input_depth noises_folder train_num_steps learning_rate adam_betas
    paths w = Some (Ok tt, w).
Proof. apply generate_noise_all_present. Qed.

(** For an image without a noise file, [generate_noise] builds a trainer
    around the prior network it was handed (not a copy, and with a fresh
    optimizer and a freshly drawn input), trains it to the given number
    of steps, and writes as the image's noise file the first batch entry
    of the normalised difference between the trained network's output
    and the image. The network it was handed is left trained, and in
    evaluation mode: the next image starts from these weights. *)
Theorem generate_noise_trains_the_shared_network (fuel : nat) (dip_input_depth : Z)
    (noises_folder : string) (train_num_steps : Z) (learning_rate : F) (adam_betas : F * F)
    (img_path : string) (w : world) :
  fs w !! noise_path noises_folder img_path = None ->
  trainable dip_input_depth (fs w) img_path ->
  0 <= train_num_steps < 10000 -> (Z.to_nat train_num_steps < fuel)%nat ->
  exists img trainer g tw d n0,
    DIPTrainer'._load_image (fs w) dip_input_depth (DIPTrainer'.Str img_path) = Ok img /\
    DIPTrainer.init (dip_model w) dip_input_depth img learning_rate adam_betas noises_folder
      (rng w) = (trainer, g) /\
    DIPTrainer.train fuel train_num_steps 10000 10000 (DIPTrainer.mkWorld trainer (fs w)) =
      Some (Ok tt, tw) /\
    tsub (dip_net (eval (DIPTrainer.model (DIPTrainer.self tw)))
                  (DIPTrainer.model_input trainer)) img = Ok d /\
    normalize_norm_dist d !! 0%nat = Some n0 /\
    generate_noise fuel dip_input_depth noises_folder train_num_steps learning_rate adam_betas
      [img_path] w =
      Some (Ok tt,
            mkWorld (eval (DIPTrainer.model (DIPTrainer.self tw)))
                    (<[noise_path noises_folder img_path := PickledTensor n0]> (fs w)) g).
Proof.
  intros Hnone Htrainable Hn Hfuel.
  destruct (generate_noise_image_new fuel dip_input_depth noises_folder train_num_steps
              learning_rate adam_betas img_path w Hnone Htrainable Hn Hfuel)
    as (img & trainer & g & tw & d & n0 & Himg & Hinit & Htrain & Hd & Hn0 & Hrun).
  exists img, trainer, g, tw, d, n0. cbn [generate_noise]. by rewrite Hrun.
Qed.

(** A run of [generate_noise] with fewer than 10000 training steps, over
    images that can be trained on and none of which lies where a noise
    file goes, returns (given fuel for the training loops) with a noise
    file for every image. It leaves every file it found as it was,
    writes nothing but noise files, each holding a tensor, and a second
    run changes nothing. *)
Theorem generate_noise_completes (fuel : nat) (dip_input_depth : Z)
    (noises_folder : string) (train_num_steps : Z) (learning_rate : F) (adam_betas : F * F)
    (paths : list string) (w : world) :
  0 <= train_num_steps < 10000 -> (Z.to_nat train_num_steps < fuel)%nat ->
  (forall p, p ∈ paths -> trainable dip_input_depth (fs w) p) ->
  (forall p q, p ∈ paths -> q ∈ paths -> noise_path noises_folder q <> p) ->
  exists w',
    generate_noise fuel dip_input_depth noises_folder train_num_steps learning_rate adam_betas
      paths w = Some (Ok tt, w') /\
    (forall p, p ∈ paths -> is_Some (fs w' !! noise_path noises_folder p)) /\
    (forall q f, fs w !! q = Some f -> fs w' !! q = Some f) /\
    (forall q f, fs w' !! q = Some f ->
       fs w !! q = Some f \/
       exists p x, p ∈ paths /\ q = noise_path noises_folder p /\ f = PickledTensor x) /\
    generate_noise fuel dip_input_depth noises_folder train_num_steps learning_rate adam_betas
      paths w' = Some (Ok tt, w').
Proof.
  intros Hn Hfuel Htrainable Hdistinct.
  destruct (generate_noise_runs fuel dip_input_depth noises_folder train_num_steps
              learning_rate adam_betas paths w Hn Hfuel Htrainable Hdistinct)
    as (w' & Hrun & Hall & Hkeep & Hnew).
  exists w'. repeat split; try done. by apply generate_noise_all_present.
Qed.

(** After such a run of [generate_noise] on a noise folder that held no
    noise file of these images, the [Dataset] over the same paths and
    noise folder finds, for every index whose image could be opened
    before the run, a noise tensor: [__getitem__] returns the transformed
    image paired with the tensor of the noise file of the image's
    stem. *)
Theorem dataset_after_generate_noise (fuel : nat) (dip_input_depth : Z)
    (train_num_steps : Z) (learning_rate : F) (adam_betas : F * F)
    (ds : Dataset.t) (w : world) :
  let paths := Dataset.paths ds in
  let noises_folder := Dataset.noise_folder ds in
  0 <= train_num_steps < 10000 -> (Z.to_nat train_num_steps < fuel)%nat ->
  (forall p, p ∈ paths -> trainable dip_input_depth (fs w) p) ->
  (forall p q, p ∈ paths -> q ∈ paths -> noise_path noises_folder q <> p) ->
  (forall p, p ∈ paths -> fs w !! noise_path noises_folder p = None) ->
  exists w',
    generate_noise fuel dip_input_depth noises_folder train_num_steps learning_rate adam_betas
      paths w = Some (Ok tt, w') /\
    forall index path img g,
      py_index paths index = Ok path ->
      read_file image_open (fs w) path = Ok img ->
      exists x,
        fs w' !! noise_path noises_folder path = Some (PickledTensor x) /\
        Dataset.__getitem__ ds index (fs w') g =
          Ok ((fst (Dataset.transform ds img g), LoadedTensor x),
              snd (Dataset.transform ds img g)).
Proof.
  intros paths noises_folder Hn Hfuel Htrainable Hdistinct Hfresh.
  destruct (generate_noise_runs fuel dip_input_depth noises_folder train_num_steps
              learning_rate adam_betas paths w Hn Hfuel Htrainable Hdistinct)
    as (w' & Hrun & Hall & Hkeep & Hnew).
  exists w'. split; [exact Hrun|].
  intros index path img g Hpath Himg.
  pose proof (py_index_elem _ _ _ Hpath) as Hin.
  destruct (Hall path Hin) as [f Hf].
  destruct (Hnew _ _ Hf) as [Hold|(p & x & _ & _ & ->)].
  { rewrite Hfresh in Hold by exact Hin. discriminate. }
  exists x. split; [exact Hf|].
  assert (read_file image_open (fs w') path = Ok img) as Himg'.
  { unfold read_file in *. destruct (fs w !! path) as [f0|] eqn:Hf0; [|discriminate].
    by rewrite (Hkeep _ _ Hf0). }
  rewrite (getitem_run _ _ _ _ _ _ Hpath Himg').
  unfold torch_load, read_file. unfold noise_path, noises_folder in Hf. by rewrite Hf.
Qed.
End PipelineProperties.

(** ** The further properties on the concrete instances *)

Section ConcreteWitnesses.
Import Concrete ConcreteData.

Lemma p_sample_loop_frames_witness :
  exists imgs rng',
    Diffusion.p_sample_loop (TL := torch) (diffusion 1) (1, 1, 1, 3) true 1 =
      Ok (Diffusion.AllTimesteps imgs, rng') /\
    length imgs = 4%nat /\
    exists img,
      Diffusion.p_sample_loop (TL := torch) (diffusion 1) (1, 1, 1, 3) false 1 =
        Ok (Diffusion.Final img, rng') /\
      last imgs = Some img.
Proof.
  destruct (Diffusion.p_sample_loop (TL := torch) (diffusion 1) (1, 1, 1, 3) true 1)
    as [[[img|imgs] rng']|e] eqn:Hrun; [discriminate| |discriminate].
  exists imgs, rng'. split; [reflexivity|].
  exact (proj2 (p_sample_loop_frames (TL := torch) (diffusion 1) (1, 1, 1, 3) 1 imgs rng' Hrun)).
Defined.

Lemma ddim_sample_frames_witness :
  exists imgs rng',
    Diffusion.ddim_sample (TL := torch) (diffusion 1) (1, 1, 1, 3) true 1 = Ok (Diffusion.AllTimesteps imgs, rng') /\
    length imgs = 4%nat.
Proof.
  destruct (Diffusion.ddim_sample (TL := torch) (diffusion 1) (1, 1, 1, 3) true 1)
    as [[[img|imgs] rng']|e] eqn:Hrun; [discriminate| |discriminate].
  exists imgs, rng'. split; [reflexivity|].
  exact (proj1 (ddim_sample_frames (TL := torch) (diffusion 1) (1, 1, 1, 3) 1 imgs rng' Hrun)).
Defined.

Lemma save_noise_writes_first_entry_witness :
  exists n0,
    DIPTrainer.fs (snd (DIPTrainer.save_noise "a.pth" (dip_world 0))) !! "noises/a.pth" =
      Some (PickledTensor n0).
Proof.
  destruct (DIPTrainer.save_noise "a.pth" (dip_world 0)) as [r w'] eqn:Hrun.
  destruct (save_noise_writes_first_entry "a.pth" (dip_world 0) w' r Hrun) as [_ Hr].
  destruct r as [u|e]; [|discriminate].
  destruct Hr as (d & n0 & _ & _ & Hfs). exists n0. cbn [snd]. rewrite Hfs.
  apply lookup_insert_eq.
Defined.

Lemma dip_train_iteration_files_witness :
  exists data,
    DIPTrainer.fs (snd (DIPTrainer.train_iteration 10000 2 (dip_world 3))) !!
      "noises/dip_model_2.pth" = Some (PickledDict data) /\
    data !! "step" = Some (PyInt 4).
Proof.
  destruct (DIPTrainer.train_iteration 10000 2 (dip_world 3)) as [[u|e] w'] eqn:Hrun;
    [|discriminate].
  destruct (dip_train_iteration_files 10000 2 (dip_world 3) w' u Hrun)
    as (_ & _ & _ & Hfs & _).
  eexists. cbn [snd]. rewrite Hfs. split; [apply lookup_insert_eq|reflexivity].
Defined.

Lemma dip_train_zero_period_witness :
  exists w',
    DIPTrainer.train 1 5 0 10000 (dip_world 0) = Some (Raise ZeroDivisionError, w') /\
    DIPTrainer.step (DIPTrainer.self w') = 1.
Proof.
  destruct (dip_train_zero_period (dip_world 0) 5 0 10000 0 (or_introl eq_refl)) as [_ Hraise].
  destruct (mse_loss_ad (dip_net_ad (DIPTrainer.fresh_grads (DIPTrainer.model (dip_trainer 0)))
                                    (DIPTrainer.model_input (dip_trainer 0)))
                        (DIPTrainer.train_img (dip_trainer 0))) as [loss|e] eqn:Hloss;
    [|discriminate].
  destruct (Hraise ltac:(cbn; lia) loss Hloss) as (w' & Hrun & Hstep & _).
  exists w'. split; [exact Hrun|exact Hstep].
Defined.

Lemma dip_train_below_periods_writes_nothing_witness :
  exists w',
    DIPTrainer.train 3 2 10000 10000 (dip_world 0) = Some (Ok tt, w') /\
    DIPTrainer.fs w' = ∅ /\ DIPTrainer.step (DIPTrainer.self w') = 2.
Proof.
  destruct (dip_train_below_periods_writes_nothing (dip_world 0) 2 10000 10000 3)
    as (w' & Hrun & Hfs & Hstep & _).
  - cbn. lia.
  - lia.
  - lia.
  - cbn. lia.
  - intros m. cbn. eexists. reflexivity.
  - exists w'. split; [exact Hrun|]. split; [exact Hfs|exact Hstep].
Defined.

Lemma dip_load_sets_step_first_witness :
  exists msg,
    fst (DIPTrainer.load (MInt 1) dip_world_with_checkpoint) = Raise (RuntimeError msg) /\
    DIPTrainer.step (DIPTrainer.self (snd (DIPTrainer.load (MInt 1) dip_world_with_checkpoint))) = 7.
Proof.
  destruct (DIPTrainer.load (MInt 1) dip_world_with_checkpoint) as [r w'] eqn:Hload.
  destruct (dip_load_sets_step_first (MInt 1) dip_world_with_checkpoint w' foreign_checkpoint 7
              {[ "scale" := [f32 1] ]} (RuntimeError "Error(s) in loading state_dict") r)
    as (-> & Hstep & _); [reflexivity..|exact Hload|].
  eexists. split; [reflexivity|exact Hstep].
Defined.

Lemma trainer_load_restores_optimizer_last_witness :
  exists msg,
    fst (Trainer.load (MInt 1) grouped_world) =
      Raise (ValueError msg) /\
    Trainer.step (Trainer.self
      (snd (Trainer.load (MInt 1) grouped_world))) = 7.
Proof.
  destruct (Trainer.load (MInt 1) grouped_world)
    as [r w'] eqn:Hload.
  destruct (trainer_load_restores_optimizer_last (MInt 1) grouped_world w' two_group_checkpoint 7
              {[ "theta" := [f32 1; f32 2] ]} (2, 7) r)
    as ([msg ->] & _ & Hstep & _); [reflexivity..|exact Hload|].
  exists msg. split; [reflexivity|exact Hstep].
Defined.





Lemma prior_enters_through_auxiliary_term_witness :
  exists total' main aux',
    Diffusion.p_losses (TL := torch) (diffusion (-1)) image [1] (Some given_noise) None 1 = Ok (total', 4) /\
    f32 36 = fadd main (f32 12) /\ total' = fadd main aux'.
Proof.
  assert (Diffusion.p_losses (TL := torch) (diffusion 1) image [1] (Some given_noise) None 1 =
            Ok (f32 36, 4)) as Hrun by (vm_compute; reflexivity).
  destruct (Diffusion.p_losses (TL := torch) (diffusion (-1)) image [1] (Some given_noise) None 1)
    as [[total' g]|e] eqn:Hrun'; [|discriminate].
  destruct (prior_enters_through_auxiliary_term (TL := torch) (diffusion 1) (unit_module "weight" [f32 (-1)])
              image [1] given_noise None 1 (f32 36) total' 4 g Hrun Hrun')
    as (<- & main & aux & aux' & Haux & _ & Htotal & Htotal').
  assert (Diffusion.auxiliary_term (TL := torch) (diffusion 1) image 1 = Ok (f32 12)) as Haux12
    by (vm_compute; reflexivity).
  rewrite Haux12 in Haux. injection Haux as <-.
  exists total', main, aux'. split; [reflexivity|]. split; [exact Htotal|exact Htotal'].
Defined.

Lemma concrete_trainable (files : gmap string (file binary32 OptState)) (p : string)
    (x : Tensor3 binary32) (a b c : binary32) :
  files !! p = Some (ImageFile [x]) -> x = [[[a; b; c]]] ->
  Noises.trainable 1 files p.
Proof.
  intros Hp ->. exists [[[[a; b; c]]]]. split.
  - unfold DIPTrainer'._load_image, read_file. by rewrite Hp.
  - intros m g. cbn. split.
    + eexists. reflexivity.
    + eexists _, _, _. split; reflexivity.
Qed.

Lemma generate_noise_completes_witness :
  exists w',
    Noises.generate_noise 3 1 "noises" 2 learning_rate adam_betas paths noises_world =
      Some (Ok tt, w') /\
    is_Some (Noises.fs w' !! "noises/a.pth") /\ is_Some (Noises.fs w' !! "noises/b.pth").
Proof.
  destruct (generate_noise_completes 3 1 "noises" 2 learning_rate adam_betas paths noises_world)
    as (w' & Hrun & Hall & _).
  - lia.
  - cbn. lia.
  - intros p Hp. apply list_elem_of_In in Hp. destruct Hp as [<-|[<-|[]]].
    + by eapply concrete_trainable.
    + by eapply concrete_trainable.
  - intros p q Hp Hq. apply list_elem_of_In in Hp, Hq.
    destruct Hp as [<-|[<-|[]]], Hq as [<-|[<-|[]]]; discriminate.
  - exists w'. split; [exact Hrun|]. split.
    + apply (Hall "data/a.png"). by left.
    + apply (Hall "data/b.png"). right. by left.
Defined.

Lemma dataset_noise_by_stem_witness :
  Dataset.__getitem__ dataset 0 files_with_noise 0 =
    Ok (([[[f32 2; f32 4; f32 9]]], LoadedTensor noise_a), 0) /\
  Dataset.__getitem__ dataset 1 files_with_noise 0 = Raise (FileNotFoundError "noises/b.pth").
Proof.
  split.
  - exact (proj1 (proj2 (dataset_noise_by_stem dataset 0 files_with_noise 0 "data/a.png"
                           [[[f32 2; f32 4; f32 9]]] eq_refl eq_refl)) noise_a eq_refl).
  - exact (proj1 (dataset_noise_by_stem dataset 1 files_with_noise 0 "data/b.png"
                    [[[f32 1; f32 5; f32 3]]] eq_refl eq_refl) eq_refl).
Defined.

Lemma generate_noise_skips_existing_witness :
  Noises.generate_noise 0 1 "noises" 100 learning_rate adam_betas paths full_world =
    Some (Ok tt, full_world).
Proof.
  apply (generate_noise_skips_existing 0 1 "noises" 100 learning_rate adam_betas paths full_world).
  intros p Hp. apply list_elem_of_In in Hp. destruct Hp as [<-|[<-|[]]]; by eexists.
Defined.

Lemma generate_noise_trains_the_shared_network_witness :
  (exists w1 n0,
     world_after ["data/a.png"] = Some w1 /\
     Noises.fs w1 !! "noises/a.pth" = Some (PickledTensor n0) /\
     training (Noises.dip_model w1) = false) /\
  (world_after ["data/a.png"] ≫= noise_b) <>
    (world_after ["data/a.png"] ≫=
       fun w1 => noise_b (with_model (Noises.dip_model noises_world) w1)).
Proof.
  split; [|vm_compute; discriminate].
  destruct (generate_noise_trains_the_shared_network 3 1 "noises" 2 learning_rate adam_betas
              "data/a.png" noises_world)
    as (img & trainer & g & tw & d & n0 & _ & _ & _ & _ & _ & Hrun).
  - reflexivity.
  - by eapply concrete_trainable.
  - lia.
  - cbn. lia.
  - eexists _, n0. unfold world_after. rewrite Hrun. split; [reflexivity|].
    split; [apply lookup_insert_eq|reflexivity].
Defined.

Lemma dataset_after_generate_noise_witness :
  exists w' x,
    world_after paths = Some w' /\
    Dataset.__getitem__ dataset 1 (Noises.fs w') 0 = Ok (([[[f32 1; f32 5; f32 3]]], LoadedTensor x), 0).
Proof.
  destruct (dataset_after_generate_noise 3 1 2 learning_rate adam_betas dataset noises_world)
    as (w' & Hrun & Hitems).
  - lia.
  - cbn. lia.
  - intros p Hp. apply list_elem_of_In in Hp. destruct Hp as [<-|[<-|[]]].
    + by eapply concrete_trainable.
    + by eapply concrete_trainable.
  - intros p q Hp Hq. apply list_elem_of_In in Hp, Hq.
    destruct Hp as [<-|[<-|[]]], Hq as [<-|[<-|[]]]; discriminate.
  - intros p Hp. apply list_elem_of_In in Hp. destruct Hp as [<-|[<-|[]]]; reflexivity.
  - destruct (Hitems 1 "data/b.png" [[[f32 1; f32 5; f32 3]]] 0 eq_refl eq_refl)
      as (x & _ & Hitem).
    change (Noises.generate_noise 3 1 "noises" 2 learning_rate adam_betas paths noises_world =
            Some (Ok tt, w')) in Hrun.
    exists w', x. unfold world_after. rewrite Hrun. split; [reflexivity|exact Hitem].
Defined.
End ConcreteWitnesses.
